(** * Session and OAuth2 handshake logic of auth-components

    A shallow embedding of the TypeScript sources
    [utils/session.ts], [utils/auth.ts], [utils/jwt.ts], [utils/refresh.ts],
    [utils/dev-auth.ts] and [routes/callback.tsx].

    Conventions of the embedding:
    - run-time values whose TypeScript type is [any] (a parsed cookie, the
      body of a token response, a decoded JWT) are values of [JsVal];
      a [SessionData | null] is a [JsVal] as well, [JNull] being [null];
    - JavaScript numbers are integers ([Z]) or [NaN]: every number the
      program computes with is a millisecond or second count.  Arithmetic on
      them is exact, which is what JavaScript computes as long as operands
      and result are safe integers ([isSafeInteger]); a property that states
      the exact result of arithmetic on a number received from outside
      ([expires_in], [exp]) assumes that range;
    - every read of [Date.now()] is an argument of the operation that makes
      it: [isValidSession now], [sessionNeedsRefresh now] and
      [createSessionData now] read the clock once, [getSession t1 t2 t3]
      up to three times, [refreshSessionIfNeeded now now'] twice;
    - an exception is the [Throw] case of [Result]; code that calls [fetch]
      runs in the monad [M], which also records every call that was made;
    - what the host supplies (the cookie object of react-router, [atob],
      [JSON.parse], ...) is a field of the class [Host]. *)

From Stdlib Require Import ZArith Lia Bool Ascii String List.
From stdpp Require Import base strings gmap.
Import ListNotations.

Local Open Scope string_scope.
Local Open Scope Z_scope.

(** ** JavaScript values *)

Module Js.

#[local] Set Warnings "-register-all".

Inductive JsVal : Type :=
| JUndefined
| JNull
| JBool (b : bool)
| JNum (n : Z)
| JNaN
| JStr (s : string)
| JArr (items : list JsVal)
| JObj (props : list (string * JsVal)).

(** Thrown values. *)
Inductive JsError : Type :=
| Error (message : string)
| TypeError
| SyntaxError
| URIError
| InvalidCharacterError
| NetworkError.

Inductive Result (A : Type) : Type :=
| Ok (a : A)
| Throw (e : JsError).
Arguments Ok {A} a.
Arguments Throw {A} e.

Definition rbind {A B} (r : Result A) (k : A -> Result B) : Result B :=
  match r with
  | Ok a => k a
  | Throw e => Throw e
  end.

(** [try { r } catch (e) { h e }] *)
Definition rcatch {A} (r : Result A) (h : JsError -> Result A) : Result A :=
  match r with
  | Ok a => Ok a
  | Throw e => h e
  end.

(** ToBoolean: what [!v], [v || w] and [v ? a : b] test. *)
Definition truthy (v : JsVal) : bool :=
  match v with
  | JUndefined | JNull | JNaN => false
  | JBool b => b
  | JNum n => negb (n =? 0)
  | JStr s => negb (String.eqb s "")
  | JArr _ | JObj _ => true
  end.

Definition typeof (v : JsVal) : string :=
  match v with
  | JUndefined => "undefined"
  | JNull => "object"
  | JBool _ => "boolean"
  | JNum _ | JNaN => "number"
  | JStr _ => "string"
  | JArr _ | JObj _ => "object"
  end.

Fixpoint assoc (k : string) (props : list (string * JsVal)) : JsVal :=
  match props with
  | [] => JUndefined
  | (k', v) :: rest => if String.eqb k k' then v else assoc k rest
  end.

(** [v.k] for a [v] that is neither [null] nor [undefined]: own properties
    of an object, [undefined] on anything else (none of the keys the program
    reads is a property of a prototype). *)
Definition prop (v : JsVal) (k : string) : JsVal :=
  match v with
  | JObj props => assoc k props
  | _ => JUndefined
  end.

(** [v.k] in general: reading a property of [null] or [undefined] throws. *)
Definition get_prop (v : JsVal) (k : string) : Result JsVal :=
  match v with
  | JUndefined | JNull => Throw TypeError
  | _ => Ok (prop v k)
  end.

(** [v === s] for a string [s]. *)
Definition strict_eq_str (v : JsVal) (s : string) : bool :=
  match v with
  | JStr s' => String.eqb s' s
  | _ => false
  end.

(** [a || b] *)
Definition js_or (a b : JsVal) : JsVal := if truthy a then a else b.

End Js.
Export Js.

#[global] Instance Result_bind : MBind Result := fun A B k r => rbind r k.
#[global] Instance Result_ret : MRet Result := fun A a => Ok a.

(** ** What the host supplies *)

Inductive CookieName : Type := SessionCookie | StateCookie.

(** One call of [fetch]: the URL and the object that is sent as JSON body. *)
Record FetchCall : Type := mkFetchCall {
  fc_url : string;
  fc_method : string;
  fc_body : JsVal
}.

(** The [Response] of a call that did not reject.  [resp_text] and
    [resp_json] are [None] when [response.text()], [response.json()]
    reject. *)
Record Response : Type := mkResponse {
  resp_ok : bool;
  resp_statusText : string;
  resp_text : option string;
  resp_json : option JsVal
}.

Inductive FetchOutcome : Type :=
| FetchRejects
| FetchResolves (r : Response).

Class Host : Type := {
  (** [createCookie(name, options).parse(cookieHeader)] *)
  cookie_parse : CookieName -> option string -> JsVal;
  (** without a [Cookie] header, [parse] resolves to [null] *)
  cookie_parse_absent : forall name, cookie_parse name None = JNull;
  (** [createCookie(name, options).serialize(value, {maxAge})] *)
  cookie_serialize : CookieName -> JsVal -> option Z -> string;
  (** ToNumber on strings, arrays and objects *)
  coerceToNumber : JsVal -> JsVal;
  (** [atob], [None] when it throws *)
  atob : string -> option string;
  btoa : string -> string;
  JSON_parse : string -> option JsVal;
  JSON_stringify : JsVal -> string;
  decodeURIComponent : string -> option string;
  (** the authorization server, as seen through [fetch] *)
  fetch : FetchCall -> FetchOutcome
}.

(** The two environment objects; [None] when the object does not exist. *)
Record Env : Type := mkEnv {
  import_meta_env : option (gmap string string);
  process_env : option (gmap string string)
}.

(** An inbound request. *)
Record Request : Type := mkRequest {
  req_origin : string;
  req_searchParams : list (string * string);
  req_cookie : option string
}.

(** [url.searchParams.get(name)] *)
Fixpoint searchParams_get (name : string) (ps : list (string * string)) : option string :=
  match ps with
  | [] => None
  | (k, v) :: rest => if String.eqb k name then Some v else searchParams_get name rest
  end.

(** ** Numbers *)

(** [Number.MAX_SAFE_INTEGER] and [Number.isSafeInteger], on integers.  Every
    safe integer is a number of JavaScript, and a sum, difference or product
    of safe integers that is a safe integer is computed exactly.  What
    [Date.now()] returns is always one: a time value is at most 8.64e15 in
    magnitude. *)
Definition MAX_SAFE_INTEGER : Z := 2 ^ 53 - 1.

Definition isSafeInteger (z : Z) : bool :=
  (- MAX_SAFE_INTEGER <=? z) && (z <=? MAX_SAFE_INTEGER).

Section Numbers.
Context {host : Host}.

Definition toNumber (v : JsVal) : JsVal :=
  match v with
  | JNum n => JNum n
  | JNaN | JUndefined => JNaN
  | JNull => JNum 0
  | JBool b => JNum (if b then 1 else 0)
  | JStr _ | JArr _ | JObj _ =>
      match coerceToNumber v with
      | JNum n => JNum n
      | _ => JNaN
      end
  end.

(** [a * b], [a + b] and [a - b], exact (see [isSafeInteger]). *)
Definition num_mul (a b : JsVal) : JsVal :=
  match toNumber a, toNumber b with
  | JNum x, JNum y => JNum (x * y)
  | _, _ => JNaN
  end.

(** [a + b] where [b] is a number and [a] is not a string. *)
Definition num_add (a b : JsVal) : JsVal :=
  match toNumber a, toNumber b with
  | JNum x, JNum y => JNum (x + y)
  | _, _ => JNaN
  end.

Definition num_sub (a b : JsVal) : JsVal :=
  match toNumber a, toNumber b with
  | JNum x, JNum y => JNum (x - y)
  | _, _ => JNaN
  end.

(** [a > b] and [a <= b] where [b] is a number. *)
Definition num_gt (a b : JsVal) : bool :=
  match toNumber a, toNumber b with
  | JNum x, JNum y => x >? y
  | _, _ => false
  end.

Definition num_le (a b : JsVal) : bool :=
  match toNumber a, toNumber b with
  | JNum x, JNum y => x <=? y
  | _, _ => false
  end.

End Numbers.

(** ** utils/session.ts *)

Module COOKIE_CONFIG.

(** Maximum lifetime of the session cookie (24 hours), in seconds. *)
Definition SESSION_MAX_AGE : Z := 24 * 60 * 60.

(** Time before token expiration when a refresh is attempted (5 minutes),
    in milliseconds. *)
Definition REFRESH_WINDOW : Z := 5 * 60 * 1000.

(** Time allowed for completing the login flow (1 hour), in seconds. *)
Definition AUTH_STATE_MAX_AGE : Z := 60 * 60.

End COOKIE_CONFIG.

(** The options [createCookie] is given. *)
Module Cookie.

Record Options : Type := mkOptions {
  secrets : list string;
  sameSite : string;
  path : string;
  httpOnly : bool;
  secure : bool;
  maxAge : Z
}.

End Cookie.

(** [process.env.SESSION_SECRET || "default-secret-key-for-dev"] *)
Definition SESSION_SECRET (processEnv : gmap string string) : string :=
  match processEnv !! "SESSION_SECRET" with
  | Some secret => if String.eqb secret "" then "default-secret-key-for-dev" else secret
  | None => "default-secret-key-for-dev"
  end.

(** The options of [sessionCookie], the cookie named [__session]. *)
Definition sessionCookie_options (processEnv : gmap string string) : Cookie.Options :=
  {| Cookie.secrets := [SESSION_SECRET processEnv];
     Cookie.sameSite := "lax";
     Cookie.path := "/";
     Cookie.httpOnly := true;
     Cookie.secure := bool_decide (processEnv !! "NODE_ENV" = Some "production");
     Cookie.maxAge := COOKIE_CONFIG.SESSION_MAX_AGE |}.

(** The object literal [{ accessToken, idToken, refreshToken, expiresAt }]. *)
Definition mkSessionData (accessToken idToken refreshToken expiresAt : JsVal) : JsVal :=
  JObj [ ("accessToken", accessToken); ("idToken", idToken);
         ("refreshToken", refreshToken); ("expiresAt", expiresAt) ].

(** A value of the interface [SessionData]. *)
Record SessionData : Type := mkSession {
  accessToken : string;
  idToken : string;
  refreshToken : string;
  expiresAt : Z
}.

Definition sessionObj (s : SessionData) : JsVal :=
  mkSessionData (JStr (accessToken s)) (JStr (idToken s))
                (JStr (refreshToken s)) (JNum (expiresAt s)).

Section Session.
Context {host : Host}.

(** [createSessionData(tokens, refreshTokenDefault?)]; an omitted second
    argument is [JUndefined]. *)
Definition createSessionData (now : Z) (tokens refreshTokenDefault : JsVal) : Result JsVal :=
  expires_in ← get_prop tokens "expires_in";
  let expiresAt := num_add (JNum now) (num_mul expires_in (JNum 1000)) in
  refresh_token ← get_prop tokens "refresh_token";
  let refreshToken := js_or refresh_token refreshTokenDefault in
  if negb (truthy refreshToken) then Throw (Error "No refresh token available")
  else
    access_token ← get_prop tokens "access_token";
    id_token ← get_prop tokens "id_token";
    Ok (mkSessionData access_token id_token refreshToken expiresAt).

Definition hasValidSessionFields (session : JsVal) : bool :=
  if negb (truthy session) then false
  else
    String.eqb (typeof (prop session "accessToken")) "string" &&
    String.eqb (typeof (prop session "idToken")) "string" &&
    String.eqb (typeof (prop session "refreshToken")) "string" &&
    String.eqb (typeof (prop session "expiresAt")) "number".

(** [isRefreshable] reads [session.expiresAt] with no test of [session]
    before: on [null] or [undefined] it throws. *)
Definition isRefreshable (now : Z) (session : JsVal) : Result bool :=
  let maxAge := now - COOKIE_CONFIG.SESSION_MAX_AGE * 1000 in
  expiresAt ← get_prop session "expiresAt";
  Ok (num_gt expiresAt (JNum maxAge)).

Definition isValidSession (now : Z) (session : JsVal) : bool :=
  if negb (hasValidSessionFields session) then false
  else
    let isNotExpired := num_gt (prop session "expiresAt") (JNum now) in
    isNotExpired.

Definition sessionNeedsRefresh (now : Z) (session : JsVal) : bool :=
  if negb (truthy session) then false
  else
    let timeUntilExpiry := num_sub (prop session "expiresAt") (JNum now) in
    num_le timeUntilExpiry (JNum COOKIE_CONFIG.REFRESH_WINDOW).

(** [getSession] reads the clock in each of its calls: [t1] is the instant
    of the first [isValidSession], [t2] the one of [isRefreshable], which is
    called only when the first test fails, and [t3] the one of the last
    [isValidSession]. *)
Definition getSession (t1 t2 t3 : Z) (request : Request) : Result JsVal :=
  let cookie := req_cookie request in
  let data := cookie_parse SessionCookie cookie in
  if negb (truthy data) then Ok JNull
  else if negb (hasValidSessionFields data) then Ok JNull
  else
    let test : Result bool :=
      if negb (isValidSession t1 data) then isRefreshable t2 data else Ok false in
    expiredButRefreshable ← test;
    if expiredButRefreshable : bool then Ok data
    else Ok (if isValidSession t3 data then data else JNull).

Definition createSessionHeader (session : JsVal) : string :=
  if negb (truthy session) then cookie_serialize SessionCookie (JStr "") (Some 0)
  else cookie_serialize SessionCookie session None.

End Session.

(** The states of a session at an instant [now] (section 4.3 of the
    specification), read off the tests [getSession] makes: no value at all
    is [Absent]; a value whose fields are invalid, or which is outside both
    bounds, is [Dead]. *)
Inductive SessionState : Type := Absent | Valid | Refreshable | Dead.

Section Classify.
Context {host : Host}.

Definition classify (now : Z) (session : JsVal) : SessionState :=
  if negb (truthy session) then Absent
  else if negb (hasValidSessionFields session) then Dead
  else if isValidSession now session then Valid
  else
    match isRefreshable now session with
    | Ok true => Refreshable
    | _ => Dead
    end.

End Classify.

(** ** Code that calls [fetch] *)

(** A computation takes the list of calls made so far and returns its
    outcome with the list extended by the calls it made. *)
Definition M (A : Type) : Type := list FetchCall -> Result A * list FetchCall.

Definition mbind' {A B} (m : M A) (k : A -> M B) : M B :=
  fun calls =>
    match m calls with
    | (Ok a, calls') => k a calls'
    | (Throw e, calls') => (Throw e, calls')
    end.

#[global] Instance M_bind : MBind M := fun A B k m => mbind' m k.
#[global] Instance M_ret : MRet M := fun A a calls => (Ok a, calls).

Definition lift {A} (r : Result A) : M A := fun calls => (r, calls).

Definition throw {A} (e : JsError) : M A := lift (Throw e).

(** [try { m } catch (error) { h error }] *)
Definition try_catch {A} (m : M A) (h : JsError -> M A) : M A :=
  fun calls =>
    match m calls with
    | (Ok a, calls') => (Ok a, calls')
    | (Throw e, calls') => h e calls'
    end.

Definition of_option {A} (o : option A) (e : JsError) : Result A :=
  match o with
  | Some a => Ok a
  | None => Throw e
  end.

(** ** utils/auth.ts *)

Record Auth0Config : Type := mkAuth0Config {
  domain : string;
  clientId : string;
  clientSecret : string;
  callbackUrl : string;
  audience : option string
}.

Section Auth.
Context {host : Host}.

(** [await fetch(url, init)] *)
Definition await_fetch (call : FetchCall) : M Response :=
  fun calls =>
    match fetch call with
    | FetchRejects => (Throw NetworkError, (calls ++ [call])%list)
    | FetchResolves r => (Ok r, (calls ++ [call])%list)
    end.

Definition getRequiredEnvVar (env : Env) (name : string) : Result string :=
  match import_meta_env env with
  | None => Throw TypeError
  | Some e =>
      match e !! name with
      | Some value =>
          if String.eqb value "" then
            Throw (Error ("Missing required environment variable: " +:+ name))
          else Ok value
      | None => Throw (Error ("Missing required environment variable: " +:+ name))
      end
  end.

Definition getBaseUrl (request : Request) : string := req_origin request.

Definition getAuth0Config (env : Env) (request : Request) : Result Auth0Config :=
  domain ← getRequiredEnvVar env "AUTH0_DOMAIN";
  clientId ← getRequiredEnvVar env "AUTH0_CLIENT_ID";
  clientSecret ← getRequiredEnvVar env "AUTH0_CLIENT_SECRET";
  e ← of_option (import_meta_env env) TypeError;
  Ok {| domain := domain;
        clientId := clientId;
        clientSecret := clientSecret;
        callbackUrl := getBaseUrl request +:+ "/auth/callback";
        audience := e !! "AUTH0_AUDIENCE" |}.

Definition verifyState (request : Request) (state : string) : bool :=
  let cookie := req_cookie request in
  let savedState := cookie_parse StateCookie cookie in
  strict_eq_str savedState state.

Definition token_endpoint (config : Auth0Config) : string :=
  "https://" +:+ domain config +:+ "/oauth/token".

(** The property reads of the [console.log] that follows
    [response.json()]; they throw when [tokens] is [null]. *)
Definition log_token_response (tokens : JsVal) : Result unit :=
  _ ← get_prop tokens "access_token";
  _ ← get_prop tokens "id_token";
  _ ← get_prop tokens "refresh_token";
  _ ← get_prop tokens "expires_in";
  _ ← get_prop tokens "token_type";
  _ ← get_prop tokens "scope";
  Ok tt.

(** The call [exchangeCodeForTokens] makes. *)
Definition exchange_request (config : Auth0Config) (code : string) : FetchCall :=
  {| fc_url := token_endpoint config;
     fc_method := "POST";
     fc_body := JObj [ ("grant_type", JStr "authorization_code");
                       ("client_id", JStr (clientId config));
                       ("client_secret", JStr (clientSecret config));
                       ("code", JStr code);
                       ("redirect_uri", JStr (callbackUrl config)) ] |}.

(** The call [refreshTokens] makes. *)
Definition refresh_request (config : Auth0Config) (refreshToken : JsVal) : FetchCall :=
  {| fc_url := token_endpoint config;
     fc_method := "POST";
     fc_body := JObj [ ("grant_type", JStr "refresh_token");
                       ("client_id", JStr (clientId config));
                       ("client_secret", JStr (clientSecret config));
                       ("refresh_token", refreshToken) ] |}.

Definition exchangeCodeForTokens (config : Auth0Config) (code : string) : M JsVal :=
  response ← await_fetch (exchange_request config code);
  if negb (resp_ok response) then
    let error := default (resp_statusText response) (resp_text response) in
    throw (Error ("Token exchange failed: " +:+ error))
  else
    tokens ← lift (of_option (resp_json response) SyntaxError);
    _ ← lift (log_token_response tokens);
    mret tokens.

Definition refreshTokens (config : Auth0Config) (refreshToken : JsVal) : M JsVal :=
  response ← await_fetch (refresh_request config refreshToken);
  if negb (resp_ok response) then
    let error := default (resp_statusText response) (resp_text response) in
    throw (Error ("Token refresh failed: " +:+ error))
  else
    tokens ← lift (of_option (resp_json response) SyntaxError);
    _ ← lift (log_token_response tokens);
    mret tokens.

End Auth.

(** ** utils/refresh.ts *)

Record RefreshResult : Type := mkRefreshResult {
  session : JsVal;
  headers : option string
}.

Section Refresh.
Context {host : Host}.

(** [now] is the instant of the checks, [now'] the one at which the new
    session is built, after the call has returned. *)
Definition refreshSessionIfNeeded (env : Env) (now now' : Z)
    (request : Request) (session : JsVal) : M RefreshResult :=
  if negb (truthy session) || negb (sessionNeedsRefresh now session) then
    mret {| session := session; headers := None |}
  else
    try_catch
      (config ← lift (getAuth0Config env request);
       tokens ← refreshTokens config (prop session "refreshToken");
       newSession ← lift (createSessionData now' tokens (prop session "refreshToken"));
       let sessionHeader := createSessionHeader newSession in
       mret {| session := newSession; headers := Some sessionHeader |})
      (fun error =>
         mret {| session := JNull; headers := Some (createSessionHeader JNull) |}).

End Refresh.

(** ** routes/callback.tsx *)

(** [redirect(url, { headers: { "Set-Cookie": ... } })] *)
Record Redirect : Type := mkRedirect {
  location : string;
  set_cookie : option string
}.

Definition redirect (url : string) : Redirect :=
  {| location := url; set_cookie := None |}.

(** [!s] for a [string | null] *)
Definition missing (s : option string) : bool :=
  match s with
  | None => true
  | Some v => String.eqb v ""
  end.

Module Callback.
Section Callback.
Context {host : Host}.

Definition loader (env : Env) (now : Z) (request : Request) : M Redirect :=
  let code := searchParams_get "code" (req_searchParams request) in
  let state := searchParams_get "state" (req_searchParams request) in
  if missing code || missing state then
    throw (Error "Invalid callback parameters")
  else
    let code := default "" code in
    let state := default "" state in
    let isValidState := verifyState request state in
    if negb isValidState then mret (redirect "/login?error=invalid_state")
    else
      try_catch
        (config ← lift (getAuth0Config env request);
         tokens ← exchangeCodeForTokens config code;
         session ← lift (createSessionData now tokens JUndefined);
         let sessionHeader := createSessionHeader session in
         mret {| location := "/"; set_cookie := Some sessionHeader |})
        (fun error => mret (redirect "/login?error=auth_callback_failed")).

End Callback.
End Callback.

(** ** utils/dev-auth.ts *)

Section DevAuth.
Context {host : Host}.

Definition getEnv (env : Env) (name : string) : option string :=
  match import_meta_env env with
  | Some e => e !! name
  | None =>
      match process_env env with
      | Some e => e !! name
      | None => None
      end
  end.

(** [v || 'development'] for a [string | undefined] *)
Definition or_development (v : option string) : string :=
  match v with
  | Some m => if String.eqb m "" then "development" else m
  | None => "development"
  end.

Definition getMode (env : Env) : string :=
  match import_meta_env env with
  | Some e => or_development (e !! "MODE")
  | None =>
      match process_env env with
      | Some e => or_development (e !! "NODE_ENV")
      | None => "development"
      end
  end.

(** [v === s] and [v !== s] for a [string | undefined] *)
Definition is_string (v : option string) (s : string) : bool :=
  match v with
  | Some x => String.eqb x s
  | None => false
  end.

Definition shouldSkipAuth (env : Env) : bool :=
  let nodeEnv := getMode env in
  let skipAuth := getEnv env "SKIP_AUTH" in
  if String.eqb nodeEnv "development" then negb (is_string skipAuth "false")
  else is_string skipAuth "true".

Definition mock_picture : string :=
  "data:image/svg+xml,%3Csvg xmlns='http://www.w3.org/2000/svg' viewBox='0 0 100 100'%3E%3Ccircle cx='50' cy='50' r='50' fill='%23dbeafe'/%3E%3Ccircle cx='50' cy='35' r='16' fill='%233b82f6'/%3E%3Cpath d='M50 55c-17 0-25 8-25 20v10h50V75c0-12-8-20-25-20z' fill='%233b82f6'/%3E%3C/svg%3E".

Definition createMockJwt (now : Z) : string :=
  let payload :=
    JObj [ ("sub", JStr "dev|123456789");
           ("name", JStr "Dev User");
           ("nickname", JStr "devuser");
           ("picture", JStr mock_picture);
           ("email", JStr "dev@example.com");
           ("email_verified", JBool true);
           ("iat", JNum (now / 1000));
           ("exp", JNum (now / 1000 + 365 * 24 * 60 * 60)) ] in
  let header := JObj [ ("alg", JStr "none"); ("typ", JStr "JWT") ] in
  let encodedHeader := btoa (JSON_stringify header) in
  let encodedPayload := btoa (JSON_stringify payload) in
  encodedHeader +:+ "." +:+ encodedPayload +:+ ".mock-signature".

Definition createDevSession (now : Z) : JsVal :=
  let oneYear := 365 * 24 * 60 * 60 * 1000 in
  mkSessionData (JStr "dev-access-token")
                (JStr (createMockJwt now))
                (JStr "dev-refresh-token")
                (JNum (now + oneYear)).

End DevAuth.

(** ** utils/jwt.ts *)

(** [s.split(sep)] for a one-character separator *)
Fixpoint split_on (sep : ascii) (s : string) : list string :=
  match s with
  | EmptyString => [EmptyString]
  | String c rest =>
      let parts := split_on sep rest in
      if Ascii.eqb c sep then EmptyString :: parts
      else
        match parts with
        | p :: ps => String c p :: ps
        | [] => [String c EmptyString]
        end
  end.

(** [s.replace(/-/g, '+').replace(/_/g, '/')] *)
Fixpoint base64url_to_base64 (s : string) : string :=
  match s with
  | EmptyString => EmptyString
  | String c rest =>
      let c1 := if Ascii.eqb c "-" then "+"%char else c in
      let c2 := if Ascii.eqb c1 "_" then "/"%char else c1 in
      String c2 (base64url_to_base64 rest)
  end.

Definition hex_digit (n : N) : ascii :=
  match n with
  | 0 => "0" | 1 => "1" | 2 => "2" | 3 => "3" | 4 => "4" | 5 => "5"
  | 6 => "6" | 7 => "7" | 8 => "8" | 9 => "9" | 10 => "a" | 11 => "b"
  | 12 => "c" | 13 => "d" | 14 => "e" | _ => "f"
  end%N%char.

(** ['%' + ('00' + c.charCodeAt(0).toString(16)).slice(-2)] *)
Definition percent_encode (c : ascii) : string :=
  let code := N_of_ascii c in
  String "%" (String (hex_digit (code / 16)) (String (hex_digit (code mod 16)) EmptyString)).

(** [s.split('').map(percent_encode).join('')] *)
Fixpoint percent_encode_all (s : string) : string :=
  match s with
  | EmptyString => EmptyString
  | String c rest => percent_encode c +:+ percent_encode_all rest
  end.

Section Jwt.
Context {host : Host}.

Definition parseJwt (token : string) : Result JsVal :=
  rcatch
    (let parts := split_on "." token in
     headerText ← of_option (atob (hd "" parts)) InvalidCharacterError;
     header ← of_option (JSON_parse headerText) SyntaxError;
     enc ← get_prop header "enc";
     if truthy enc then Ok JNull
     else
       let base64Url := parts !! 1%nat in
       if missing base64Url then Ok JNull
       else
         let base64 := base64url_to_base64 (default "" base64Url) in
         binary ← of_option (atob base64) InvalidCharacterError;
         jsonPayload ← of_option (decodeURIComponent (percent_encode_all binary)) URIError;
         of_option (JSON_parse jsonPayload) SyntaxError)
    (fun e => Ok JNull).

End Jwt.

(** ** utils/jwt.ts, the checks on a token *)

(** [a >= b] and [a < b] on numbers. *)
Definition num_ge {host : Host} (a b : JsVal) : bool :=
  match toNumber a, toNumber b with
  | JNum x, JNum y => x >=? y
  | _, _ => false
  end.

Definition num_lt {host : Host} (a b : JsVal) : bool :=
  match toNumber a, toNumber b with
  | JNum x, JNum y => x <? y
  | _, _ => false
  end.

(** [v?.k] *)
Definition opt_prop (v : JsVal) (k : string) : JsVal :=
  match v with
  | JUndefined | JNull => JUndefined
  | _ => prop v k
  end.

Module JwtUtils.

Definition REFRESH_WINDOW_MS : Z := 5 * 60 * 1000.

Section JwtUtils.
Context {host : Host}.

Definition needsRefresh (now : Z) (token : string) : Result bool :=
  payload ← parseJwt token;
  if negb (truthy (opt_prop payload "exp")) then Ok false
  else
    let expirationMs := num_mul (prop payload "exp") (JNum 1000) in
    let needsRefresh := num_ge (JNum (now + REFRESH_WINDOW_MS)) expirationMs in
    Ok needsRefresh.

(** In [isValidToken] the [try] block returns [true] for an encrypted
    token, its [catch] returns [false], and otherwise the function goes
    on: [Some b] is a [return b], [None] the way on. *)
Definition isValidToken (now : Z) (token : string) : Result bool :=
  if String.eqb token "" then Ok false
  else
    let parts := split_on "." token in
    if negb (Nat.eqb (length parts) 3) then Ok false
    else
      let header_test : Result (option bool) :=
        rcatch
          (headerText ← of_option (atob (hd "" parts)) InvalidCharacterError;
           header ← of_option (JSON_parse headerText) SyntaxError;
           enc ← get_prop header "enc";
           if truthy enc then Ok (Some true) else Ok None)
          (fun e => Ok (Some false)) in
      returned ← header_test;
      match returned with
      | Some b => Ok b
      | None =>
          payload ← parseJwt token;
          if negb (truthy (opt_prop payload "exp")) then Ok false
          else Ok (num_lt (JNum now) (num_mul (prop payload "exp") (JNum 1000)))
      end.

Definition getTokenExpirationTime (token : string) : Result JsVal :=
  payload ← parseJwt token;
  if truthy (opt_prop payload "exp") then Ok (num_mul (prop payload "exp") (JNum 1000))
  else Ok JNull.

Definition getUserFromJwt (token : string) : Result JsVal :=
  rcatch
    (let base64Url := split_on "." token !! 1%nat in
     if missing base64Url then Ok JNull
     else
       let base64 := base64url_to_base64 (default "" base64Url) in
       binary ← of_option (atob base64) InvalidCharacterError;
       jsonPayload ← of_option (decodeURIComponent (percent_encode_all binary)) URIError;
       of_option (JSON_parse jsonPayload) SyntaxError)
    (fun e => Ok JNull).

End JwtUtils.
End JwtUtils.

(** ** components/Header.tsx, its own decoder *)

Module Header.
Section Header.
Context {host : Host}.

(** Without a second segment, [base64Url.replace] is a call on
    [undefined]: a [TypeError], which the [catch] turns into [null]. *)
Definition decodeJwt (token : string) : Result JsVal :=
  rcatch
    (base64Url ← of_option (split_on "." token !! 1%nat) TypeError;
     let base64 := base64url_to_base64 base64Url in
     binary ← of_option (atob base64) InvalidCharacterError;
     jsonPayload ← of_option (decodeURIComponent (percent_encode_all binary)) URIError;
     of_option (JSON_parse jsonPayload) SyntaxError)
    (fun e => Ok JNull).

End Header.
End Header.

(** ** utils/auth.ts, the authorization request and the logout URL *)

(** [URLSearchParams.toString()] and [new URL(url, base).toString()]
    ([None] when the constructor throws). *)
Class WebApi : Type := {
  URLSearchParams_toString : list (string * string) -> string;
  URL_resolve : string -> string -> option string
}.

Record AuthorizationRequest : Type := mkAuthorizationRequest {
  url : string;
  cookieHeader : string
}.

Section AuthorizationRequest.
Context {host : Host} {web : WebApi}.

(** The parameters of the authorization URL; [audience] is appended when
    it is configured. *)
Definition authorization_params (config : Auth0Config) (state : string) : list (string * string) :=
  [ ("response_type", "code");
    ("client_id", clientId config);
    ("redirect_uri", callbackUrl config);
    ("scope", "openid profile email offline_access");
    ("state", state) ]
  ++ (if missing (audience config) then []
      else [("audience", default "" (audience config))]).

(** [state] is the value [crypto.randomUUID()] returned. *)
Definition createAuthorizationRequest (config : Auth0Config) (state : string) : AuthorizationRequest :=
  let params := authorization_params config state in
  let url := "https://" +:+ domain config +:+ "/authorize?"
             +:+ URLSearchParams_toString params in
  let cookieHeader := cookie_serialize StateCookie (JStr state) None in
  {| url := url; cookieHeader := cookieHeader |}.

Definition getLogoutUrl (config : Auth0Config) (returnTo : string) : string :=
  let params := [ ("client_id", clientId config); ("returnTo", returnTo) ] in
  "https://" +:+ domain config +:+ "/v2/logout?" +:+ URLSearchParams_toString params.

End AuthorizationRequest.

(** ** routes/login.tsx *)

Module Login.
Section Login.
Context {host : Host} {web : WebApi}.

(** [t1], [t2] and [t3] are the clock reads of [getSession]. *)
Definition loader (env : Env) (t1 t2 t3 : Z) (state : string) (request : Request) : Result Redirect :=
  session ← getSession t1 t2 t3 request;
  if truthy session then Ok (redirect "/")
  else
    config ← getAuth0Config env request;
    let authorization := createAuthorizationRequest config state in
    Ok {| location := url authorization;
          set_cookie := Some (cookieHeader authorization) |}.

End Login.
End Login.

(** ** routes/logout.tsx *)

Module Logout.
Section Logout.
Context {host : Host} {web : WebApi}.

Definition handleLogout (env : Env) (request : Request) : Result Redirect :=
  let returnTo :=
    let given := searchParams_get "returnTo" (req_searchParams request) in
    if missing given then "/" else default "" given in
  if shouldSkipAuth env then Ok (redirect returnTo)
  else
    config ← getAuth0Config env request;
    target ← of_option (URL_resolve returnTo (callbackUrl config)) TypeError;
    let logoutUrl := getLogoutUrl config target in
    let sessionHeader := cookie_serialize SessionCookie (JStr "") (Some 0) in
    Ok {| location := logoutUrl; set_cookie := Some sessionHeader |}.

Definition loader (env : Env) (request : Request) : Result Redirect :=
  handleLogout env request.

Definition action (env : Env) (request : Request) : Result Redirect :=
  handleLogout env request.

End Logout.
End Logout.

(** ** utils/loader.ts *)

Module Loader.
Section Loader.
Context {host : Host}.

(** [t1], [t2] and [t3] are the clock reads of [getSession]; [now] is the
    read of [createDevSession] under the bypass and the one of
    [sessionNeedsRefresh] otherwise; [now'] is the read of
    [createSessionData]. *)
Definition getAuthLoaderData (env : Env) (t1 t2 t3 now now' : Z) (request : Request) : M RefreshResult :=
  if shouldSkipAuth env then
    mret {| session := createDevSession now; headers := None |}
  else
    currentSession ← lift (getSession t1 t2 t3 request);
    refreshSessionIfNeeded env now now' request currentSession.

End Loader.
End Loader.

(** The later [loader.ts], which also writes the mock session to the
    cookie. *)
Module LoaderWithCookie.
Section LoaderWithCookie.
Context {host : Host}.

Definition getAuthLoaderData (env : Env) (t1 t2 t3 now now' : Z) (request : Request) : M RefreshResult :=
  if shouldSkipAuth env then
    let devSession := createDevSession now in
    mret {| session := devSession; headers := Some (createSessionHeader devSession) |}
  else
    currentSession ← lift (getSession t1 t2 t3 request);
    refreshSessionIfNeeded env now now' request currentSession.

End LoaderWithCookie.
End LoaderWithCookie.

(** ** bin/setup-routes, the script that writes the route files *)

Module SetupRoutes.

(** The part of the file system the script touches: the directories that
    exist and the content of the files that exist. *)
Record FileSystem : Type := mkFileSystem {
  dirs : gset string;
  files : gmap string string
}.

Definition isFile (fs : FileSystem) (path : string) : bool :=
  bool_decide (is_Some (files fs !! path)).

Definition existsSync (fs : FileSystem) (path : string) : bool :=
  bool_decide (path ∈ dirs fs) || isFile fs path.

(** [path.join(a, b)] *)
Definition join (a b : string) : string := a +:+ "/" +:+ b.

(** [mkdirSync(join(join(cwd, 'app'), 'routes'), { recursive: true })]:
    every missing directory on the way is made; a file on the way is the
    error [ENOTDIR], a file at the path itself the error [EEXIST]. *)
Definition mkdirSync_recursive (fs : FileSystem) (cwd : string) : Result FileSystem :=
  let app := join cwd "app" in
  let routes := join app "routes" in
  if isFile fs app then Throw (Error "ENOTDIR")
  else if isFile fs routes then Throw (Error "EEXIST")
  else Ok {| dirs := {[ app ]} ∪ ({[ routes ]} ∪ dirs fs); files := files fs |}.

(** [writeFileSync(join(dir, name), content)]: the directory has to be
    there. *)
Definition writeFileSync (fs : FileSystem) (dir name content : string) : Result FileSystem :=
  if bool_decide (dir ∈ dirs fs) then
    Ok {| dirs := dirs fs; files := <[ join dir name := content ]> (files fs) |}
  else Throw (Error "ENOENT").

Definition quote : string := String "034"%char EmptyString.
Definition newline : string := String "010"%char EmptyString.

Definition reexport (names route : string) : string :=
  "export { " +:+ names +:+ " } from " +:+ quote
  +:+ "@simbul/auth-components/routes/" +:+ route +:+ quote +:+ ";" +:+ newline.

Definition ROUTE_FILES : list (string * string) :=
  [ ("login.tsx", reexport "loader, default" "login");
    ("logout.tsx", reexport "loader, action, default" "logout");
    ("auth.callback.tsx", reexport "loader" "callback") ].

Definition ROUTES_DIR (cwd : string) : string := join (join cwd "app") "routes".

Record Summary : Type := mkSummary {
  created : nat;
  skipped : nat
}.

(** One turn of the [forEach]. *)
Definition write_route (cwd : string) (acc : Result (FileSystem * Summary))
    (entry : string * string) : Result (FileSystem * Summary) :=
  '(fs, count) ← acc;
  let '(filename, content) := entry in
  if existsSync fs (join (ROUTES_DIR cwd) filename) then
    Ok (fs, {| created := created count; skipped := S (skipped count) |})
  else
    fs' ← writeFileSync fs (ROUTES_DIR cwd) filename content;
    Ok (fs', {| created := S (created count); skipped := skipped count |}).

Definition write_routes (cwd : string) (entries : list (string * string))
    (fs : FileSystem) : Result (FileSystem * Summary) :=
  fold_left (write_route cwd) entries (Ok (fs, {| created := 0; skipped := 0 |})).

Definition setup (cwd : string) (fs : FileSystem) : Result (FileSystem * Summary) :=
  fs1 ← (if negb (existsSync fs (ROUTES_DIR cwd)) then mkdirSync_recursive fs cwd
         else Ok fs);
  write_routes cwd ROUTE_FILES fs1.

End SetupRoutes.

(** ** The user agent and a small host to run the code on *)

(** The [name=value] pair a user agent sends back for a [Set-Cookie] header:
    the text before its first [;]. *)
Definition cookiePairOf (setCookie : string) : string :=
  hd "" (split_on ";" setCookie).

Definition cookie_name (name : CookieName) : string :=
  match name with
  | SessionCookie => "__session"
  | StateCookie => "__auth_state"
  end.

(** A host for running the code: the session cookie decodes to
    [sessionValue] and the state cookie to [stateValue] when the header is the
    pair [name=sealed]; the authorization server answers as [server] says. *)
Definition tableHost (sessionValue stateValue : JsVal)
    (server : FetchCall -> FetchOutcome) : Host :=
  {| cookie_parse name cookie :=
       match cookie with
       | None => JNull
       | Some header =>
           if String.eqb header (cookie_name name +:+ "=sealed") then
             match name with
             | SessionCookie => sessionValue
             | StateCookie => stateValue
             end
           else JNull
       end;
     cookie_parse_absent := fun _ => eq_refl;
     cookie_serialize name value maxAge :=
       match value with
       | JStr "" => cookie_name name +:+ "=; Max-Age=0; Path=/; HttpOnly; SameSite=Lax"
       | _ => cookie_name name +:+ "=sealed; Max-Age=86400; Path=/; HttpOnly; SameSite=Lax"
       end;
     coerceToNumber := fun _ => JNaN;
     atob := fun _ => None;
     btoa := fun s => s;
     JSON_parse := fun _ => None;
     JSON_stringify := fun _ => "{}";
     decodeURIComponent := fun s => Some s;
     fetch := server |}.

Definition demoEnv : Env :=
  {| import_meta_env :=
       Some (<["AUTH0_DOMAIN" := "tenant.example.com"]>
             (<["AUTH0_CLIENT_ID" := "client-id"]>
              (<["AUTH0_CLIENT_SECRET" := "client-secret"]> ∅)));
     process_env := None |}.

Definition demoSession : SessionData :=
  {| accessToken := "a"; idToken := "i"; refreshToken := "r"; expiresAt := 5000000 |}.

Definition offline : FetchCall -> FetchOutcome := fun _ => FetchRejects.

(** ** Notions the properties are stated with *)

(** A request carries a cookie when its [Cookie] header is the pair of the
    [Set-Cookie] header that wrote it. *)
Definition carries (request : Request) (setCookie : string) : Prop :=
  req_cookie request = Some (cookiePairOf setCookie).

(** The outcome of a token call once the response is there. *)
Definition read_tokens (what : string) (outcome : FetchOutcome) : Result JsVal :=
  match outcome with
  | FetchRejects => Throw NetworkError
  | FetchResolves r =>
      if resp_ok r then
        match resp_json r with
        | None => Throw SyntaxError
        | Some (JUndefined | JNull) => Throw TypeError
        | Some tokens => Ok tokens
        end
      else Throw (Error (what +:+ default (resp_statusText r) (resp_text r)))
  end.

(** The ways a refresh can fail: the configuration is incomplete, the call
    rejects (network), the response is not a success, its body is not a JSON
    object to read, or neither the response nor the prior session has a
    refresh token. *)
Inductive RefreshFailure {host : Host} (env : Env) (request : Request) (session : JsVal) : Prop :=
| ConfigurationFails (e : JsError) :
    getAuth0Config env request = Throw e ->
    RefreshFailure env request session
| CallRejects (config : Auth0Config) :
    getAuth0Config env request = Ok config ->
    fetch (refresh_request config (prop session "refreshToken")) = FetchRejects ->
    RefreshFailure env request session
| StatusNotOk (config : Auth0Config) (r : Response) :
    getAuth0Config env request = Ok config ->
    fetch (refresh_request config (prop session "refreshToken")) = FetchResolves r ->
    resp_ok r = false ->
    RefreshFailure env request session
| BodyNotJson (config : Auth0Config) (r : Response) :
    getAuth0Config env request = Ok config ->
    fetch (refresh_request config (prop session "refreshToken")) = FetchResolves r ->
    resp_json r = None ->
    RefreshFailure env request session
| BodyNull (config : Auth0Config) (r : Response) (tokens : JsVal) :
    getAuth0Config env request = Ok config ->
    fetch (refresh_request config (prop session "refreshToken")) = FetchResolves r ->
    resp_json r = Some tokens ->
    tokens = JNull \/ tokens = JUndefined ->
    RefreshFailure env request session
| NoRefreshToken (config : Auth0Config) (r : Response) (tokens : JsVal) :
    getAuth0Config env request = Ok config ->
    fetch (refresh_request config (prop session "refreshToken")) = FetchResolves r ->
    resp_json r = Some tokens ->
    truthy (prop tokens "refresh_token") = false ->
    truthy (prop session "refreshToken") = false ->
    RefreshFailure env request session.

(** What a failed refresh returns. *)
Definition cleared {host : Host} : RefreshResult :=
  {| session := JNull;
     headers := Some (cookie_serialize SessionCookie (JStr "") (Some 0)) |}.

(** ** Sample inputs *)

Definition demoRequest : Request :=
  {| req_origin := "https://app.example.com";
     req_searchParams := [];
     req_cookie := Some "__session=sealed" |}.

Definition tokensWithoutRefreshToken : JsVal :=
  JObj [ ("access_token", JStr "a2"); ("id_token", JStr "i2"); ("expires_in", JNum 3600) ].

Definition grantedResponse : Response :=
  {| resp_ok := true; resp_statusText := "OK"; resp_text := None;
     resp_json := Some tokensWithoutRefreshToken |}.

Definition grantingServer : FetchCall -> FetchOutcome :=
  fun _ => FetchResolves grantedResponse.

Definition monthLongTokens : JsVal :=
  JObj [ ("access_token", JStr "a"); ("id_token", JStr "i");
         ("refresh_token", JStr "r"); ("expires_in", JNum 2592000) ].

Definition callbackRequest : Request :=
  {| req_origin := "https://app.example.com";
     req_searchParams := [("code", "x"); ("state", "s1")];
     req_cookie := Some "__auth_state=sealed" |}.

Definition demoConfig : Auth0Config :=
  {| domain := "tenant.example.com"; clientId := "client-id";
     clientSecret := "client-secret";
     callbackUrl := "https://app.example.com/auth/callback";
     audience := None |}.

Definition fullTokens : JsVal :=
  JObj [ ("access_token", JStr "a2"); ("id_token", JStr "i2");
         ("refresh_token", JStr "r2"); ("expires_in", JNum 3600) ].

Definition fullResponse : Response :=
  {| resp_ok := true; resp_statusText := "OK"; resp_text := None;
     resp_json := Some fullTokens |}.

Definition fullServer : FetchCall -> FetchOutcome :=
  fun _ => FetchResolves fullResponse.

Definition loggedInSession : SessionData :=
  {| accessToken := "a2"; idToken := "i2"; refreshToken := "r2"; expiresAt := 3600000 |}.

(** A stand-in for the URL functions, for running the code: parameters
    are joined unescaped, and a URL resolves to itself. *)
Definition demoWeb : WebApi :=
  {| URLSearchParams_toString ps :=
       String.concat "&" (map (fun kv : string * string => fst kv +:+ "=" +:+ snd kv) ps);
     URL_resolve u base := Some u |}.

Definition prodEnv : Env :=
  {| import_meta_env :=
       Some (<["AUTH0_DOMAIN" := "tenant.example.com"]>
             (<["AUTH0_CLIENT_ID" := "client-id"]>
              (<["AUTH0_CLIENT_SECRET" := "client-secret"]>
               (<["MODE" := "production"]> ∅))));
     process_env := None |}.

(** A production environment without [AUTH0_CLIENT_ID]. *)
Definition brokenEnv : Env :=
  {| import_meta_env :=
       Some (<["AUTH0_DOMAIN" := "tenant.example.com"]>
             (<["AUTH0_CLIENT_SECRET" := "client-secret"]>
              (<["MODE" := "production"]> ∅)));
     process_env := None |}.

Definition stateRequest : Request :=
  {| req_origin := "https://app.example.com";
     req_searchParams := [];
     req_cookie := Some "__auth_state=sealed" |}.

Definition anonymousRequest : Request :=
  {| req_origin := "https://app.example.com";
     req_searchParams := [];
     req_cookie := None |}.

Definition demoHeader : JsVal := JObj [ ("alg", JStr "none"); ("typ", JStr "JWT") ].

(** A host whose codecs know two texts: ["h"], the JSON of [demoHeader],
    with base64 ["H"], and ["p"], the JSON of [claims], with base64 ["P"]. *)
Definition codecHost (claims : JsVal) : Host :=
  {| cookie_parse := fun _ _ => JNull;
     cookie_parse_absent := fun _ => eq_refl;
     cookie_serialize := fun name _ _ => cookie_name name +:+ "=sealed";
     coerceToNumber := fun _ => JNaN;
     atob := fun s => if String.eqb s "H" then Some "h"
                      else if String.eqb s "P" then Some "p" else None;
     btoa := fun s => if String.eqb s "h" then "H" else "P";
     JSON_parse := fun s => if String.eqb s "h" then Some demoHeader
                            else if String.eqb s "p" then Some claims else None;
     JSON_stringify := fun v => match v with
                                | JObj (("alg", _) :: _) => "h"
                                | _ => "p"
                                end;
     decodeURIComponent := fun s => if String.eqb s "%70" then Some "p" else None;
     fetch := offline |}.

Definition demoClaims : JsVal := JObj [ ("sub", JStr "auth0|1"); ("exp", JNum 5000) ].

(** A project that has its own [login.tsx] already. *)
Definition projectWithLogin : SetupRoutes.FileSystem :=
  {| SetupRoutes.dirs := {[ "/srv/app" ]} ∪ {[ "/srv/app/routes" ]};
     SetupRoutes.files := {[ "/srv/app/routes/login.tsx" := "mine" ]} |}.

Definition emptyProject : SetupRoutes.FileSystem :=
  {| SetupRoutes.dirs := ∅; SetupRoutes.files := ∅ |}.

(** Case analysis on the comparisons of [expiresAt] with the instants that
    bound the states of a session. *)
Ltac bounds :=
  unfold COOKIE_CONFIG.SESSION_MAX_AGE, COOKIE_CONFIG.REFRESH_WINDOW in *;
  repeat match goal with
         | |- context [?a >? ?b] => destruct (Z.gtb_spec a b)
         | |- context [?a <=? ?b] => destruct (Z.leb_spec a b)
         end.

(** * Properties *)

Section SessionFacts.
Context {host : Host}.

Lemma get_prop_truthy (v : JsVal) (k : string) :
  truthy v = true -> get_prop v k = Ok (prop v k).
Proof. destruct v; simpl; intros H; try discriminate; reflexivity. Qed.

Lemma valid_fields_truthy (data : JsVal) :
  hasValidSessionFields data = true -> truthy data = true.
Proof.
  unfold hasValidSessionFields. destruct (truthy data); [reflexivity | discriminate].
Qed.

Lemma isValidSession_num (now e : Z) (data : JsVal) :
  hasValidSessionFields data = true ->
  prop data "expiresAt" = JNum e ->
  isValidSession now data = (e >? now).
Proof.
  intros Hf He. unfold isValidSession. rewrite Hf, He. reflexivity.
Qed.

Lemma isRefreshable_num (now e : Z) (data : JsVal) :
  prop data "expiresAt" = JNum e ->
  isRefreshable now data = Ok (e >? now - COOKIE_CONFIG.SESSION_MAX_AGE * 1000).
Proof.
  intros He. unfold isRefreshable.
  destruct data; try discriminate He.
  simpl in *. rewrite He. reflexivity.
Qed.

(** On a value that is not [null] or [undefined], [isRefreshable] returns. *)
Lemma isRefreshable_truthy (now : Z) (data : JsVal) :
  truthy data = true -> exists b, isRefreshable now data = Ok b.
Proof.
  intros Ht. unfold isRefreshable. rewrite (get_prop_truthy _ _ Ht).
  eexists. reflexivity.
Qed.

Lemma sessionNeedsRefresh_num (now e : Z) (data : JsVal) :
  truthy data = true ->
  prop data "expiresAt" = JNum e ->
  sessionNeedsRefresh now data = (e - now <=? COOKIE_CONFIG.REFRESH_WINDOW).
Proof.
  intros Ht He. unfold sessionNeedsRefresh. rewrite Ht, He. reflexivity.
Qed.

Lemma valid_fields_number (data : JsVal) :
  hasValidSessionFields data = true ->
  prop data "expiresAt" = JNaN \/ exists e, prop data "expiresAt" = JNum e.
Proof.
  unfold hasValidSessionFields. destruct (truthy data); simpl; [| discriminate].
  intros H. apply andb_true_iff in H as [_ H].
  destruct (prop data "expiresAt"); simpl in H; try discriminate; eauto.
Qed.

(** What [getSession] returns for a cookie with valid fields and a numeric
    [expiresAt], by its three clock reads. *)
Lemma getSession_num (t1 t2 t3 e : Z) (request : Request) (data : JsVal) :
  cookie_parse SessionCookie (req_cookie request) = data ->
  hasValidSessionFields data = true ->
  prop data "expiresAt" = JNum e ->
  getSession t1 t2 t3 request =
    Ok (if negb (e >? t1) && (e >? t2 - COOKIE_CONFIG.SESSION_MAX_AGE * 1000) then data
        else if e >? t3 then data else JNull).
Proof.
  intros Hparse Hf He. unfold getSession. rewrite Hparse.
  rewrite (valid_fields_truthy _ Hf), Hf. cbn [negb].
  rewrite (isValidSession_num t1 e data Hf He), (isValidSession_num t3 e data Hf He).
  rewrite (isRefreshable_num t2 e data He).
  destruct (e >? t1); cbn [negb andb mbind Result_bind rbind]; [reflexivity |].
  destruct (e >? t2 - COOKIE_CONFIG.SESSION_MAX_AGE * 1000); reflexivity.
Qed.

Lemma getSession_nan (t1 t2 t3 : Z) (request : Request) (data : JsVal) :
  cookie_parse SessionCookie (req_cookie request) = data ->
  hasValidSessionFields data = true ->
  prop data "expiresAt" = JNaN ->
  getSession t1 t2 t3 request = Ok JNull.
Proof.
  intros Hparse Hf He. unfold getSession, isValidSession, isRefreshable.
  rewrite Hparse, (valid_fields_truthy _ Hf), Hf.
  rewrite (get_prop_truthy _ _ (valid_fields_truthy _ Hf)), He. reflexivity.
Qed.

Lemma getSession_invalid (t1 t2 t3 : Z) (request : Request) :
  hasValidSessionFields (cookie_parse SessionCookie (req_cookie request)) = false ->
  getSession t1 t2 t3 request = Ok JNull.
Proof.
  intros Hbad. unfold getSession. rewrite Hbad. simpl.
  destruct (truthy _); reflexivity.
Qed.

(** [getSession] returns [null] or the parsed cookie, and the cookie only
    when its fields are valid and its [expiresAt] passed the tests. *)
Lemma getSession_cases (t1 t2 t3 : Z) (request : Request) :
  let data := cookie_parse SessionCookie (req_cookie request) in
  getSession t1 t2 t3 request = Ok JNull \/
  (getSession t1 t2 t3 request = Ok data /\
   hasValidSessionFields data = true /\
   exists e, prop data "expiresAt" = JNum e /\
             ((e <= t1 /\ t2 - COOKIE_CONFIG.SESSION_MAX_AGE * 1000 < e) \/ t3 < e)).
Proof.
  intros data.
  destruct (hasValidSessionFields data) eqn:Hf;
    [| left; apply getSession_invalid; exact Hf].
  destruct (valid_fields_number data Hf) as [Hnan | [e He]];
    [left; exact (getSession_nan t1 t2 t3 request data eq_refl Hf Hnan) |].
  rewrite (getSession_num t1 t2 t3 e request data eq_refl Hf He).
  destruct (Z.gtb_spec e t1); cbn [negb andb].
  - destruct (Z.gtb_spec e t3); [right | left; reflexivity].
    split; [reflexivity | split; [reflexivity |]].
    exists e. split; [exact He | right; lia].
  - destruct (Z.gtb_spec e (t2 - COOKIE_CONFIG.SESSION_MAX_AGE * 1000)).
    + right. split; [reflexivity | split; [reflexivity |]].
      exists e. split; [exact He | left; lia].
    + destruct (Z.gtb_spec e t3); [right | left; reflexivity].
      split; [reflexivity | split; [reflexivity |]].
      exists e. split; [exact He | right; lia].
Qed.

Lemma classify_num (now e : Z) (data : JsVal) :
  hasValidSessionFields data = true ->
  prop data "expiresAt" = JNum e ->
  classify now data =
    if e >? now then Valid
    else if e >? now - COOKIE_CONFIG.SESSION_MAX_AGE * 1000 then Refreshable
    else Dead.
Proof.
  intros Hf He. unfold classify.
  rewrite (valid_fields_truthy _ Hf), Hf. simpl.
  rewrite (isValidSession_num now e data Hf He), (isRefreshable_num now e data He).
  reflexivity.
Qed.

End SessionFacts.

(** The two session scenarios of the specification. *)
Example scenario_valid_session (host : Host) (now : Z) :
  let session := sessionObj {| accessToken := "a"; idToken := "jwt";
                               refreshToken := "r"; expiresAt := now + 3600000 |} in
  classify now session = Valid /\ sessionNeedsRefresh now session = false.
Proof.
  intros session.
  rewrite (classify_num now (now + 3600000) session eq_refl eq_refl).
  rewrite (sessionNeedsRefresh_num now (now + 3600000) session eq_refl eq_refl).
  bounds; try lia. split; reflexivity.
Qed.

Example scenario_expired_session (host : Host) (now : Z) :
  let session := sessionObj {| accessToken := "a"; idToken := "jwt";
                               refreshToken := "r"; expiresAt := now - 1000 |} in
  classify now session = Refreshable /\ sessionNeedsRefresh now session = true.
Proof.
  intros session.
  rewrite (classify_num now (now - 1000) session eq_refl eq_refl).
  rewrite (sessionNeedsRefresh_num now (now - 1000) session eq_refl eq_refl).
  bounds; try lia. split; reflexivity.
Qed.



(** C4, as stated, fails on a Dead session: [sessionNeedsRefresh] only compares
    [expiresAt - now] with the refresh window, so it answers [true] for a
    session that expired more than [maxAge] ago. *)
Lemma needsRefresh_dead_counterexample :
  let host := tableHost JNull JNull offline in
  let session := sessionObj demoSession in
  let now := 91400001 in
  ~ (sessionNeedsRefresh now session = true <->
     (classify now session = Valid /\
      expiresAt demoSession - now <= COOKIE_CONFIG.REFRESH_WINDOW) \/
     classify now session = Refreshable).
Proof.
  intros host session now [Hiff _].
  assert (Hneeds : sessionNeedsRefresh now session = true) by reflexivity.
  destruct (Hiff Hneeds) as [[Hvalid _] | Hrefreshable]; discriminate.
Qed.

(** C4 (amended): for a session with all four fields that is Valid or
    Refreshable, [sessionNeedsRefresh] is [true] iff the session is Valid
    with [expiresAt - now <= REFRESH_WINDOW] (5 minutes) or is Refreshable;
    in particular it is [true] for every Refreshable session and [false]
    for a Valid session more than 5 minutes from expiry.  For any session
    with a numeric [expiresAt], Dead ones included, it is the test
    [expiresAt - now <= REFRESH_WINDOW]. *)
Theorem needsRefresh_valid_or_refreshable
    (host : Host) (now e : Z) (session : JsVal) :
  hasValidSessionFields session = true ->
  prop session "expiresAt" = JNum e ->
  (sessionNeedsRefresh now session = true <-> e - now <= COOKIE_CONFIG.REFRESH_WINDOW) /\
  (classify now session <> Dead ->
     (sessionNeedsRefresh now session = true <->
        (classify now session = Valid /\ e - now <= COOKIE_CONFIG.REFRESH_WINDOW) \/
        classify now session = Refreshable)) /\
  (classify now session = Refreshable -> sessionNeedsRefresh now session = true) /\
  (classify now session = Valid -> e - now > COOKIE_CONFIG.REFRESH_WINDOW ->
     sessionNeedsRefresh now session = false).
Proof.
  intros Hf He.
  rewrite (sessionNeedsRefresh_num now e session (valid_fields_truthy _ Hf) He).
  rewrite (classify_num now e session Hf He).
  bounds;
    repeat split; intros; try congruence; try lia; auto;
    repeat match goal with
           | H : _ \/ _ |- _ => destruct H
           | H : _ /\ _ |- _ => destruct H
           end; try congruence; try lia.
Qed.

Lemma needsRefresh_valid_or_refreshable_witness :
  let host := tableHost JNull JNull offline in
  sessionNeedsRefresh 5001000 (sessionObj demoSession) = true /\
  sessionNeedsRefresh 1000000 (sessionObj demoSession) = false.
Proof.
  intros host.
  pose proof (needsRefresh_valid_or_refreshable host 5001000 5000000
                (sessionObj demoSession) eq_refl eq_refl) as [_ [_ [Hr _]]].
  pose proof (needsRefresh_valid_or_refreshable host 1000000 5000000
                (sessionObj demoSession) eq_refl eq_refl) as [_ [_ [_ Hv]]].
  split.
  - apply Hr. reflexivity.
  - apply Hv; [reflexivity | unfold COOKIE_CONFIG.REFRESH_WINDOW; lia].
Defined.



(** C9, as stated, fails: the dev session expires a year after it is made,
    which no bound of a few hours (here, a whole day) covers. *)
Lemma dev_session_lifetime_counterexample :
  let host := tableHost JNull JNull offline in
  ~ (forall e : Z, prop (createDevSession 0) "expiresAt" = JNum e ->
                   e - 0 <= 24 * 60 * 60 * 1000).
Proof.
  intros host H. specialize (H _ eq_refl). lia.
Qed.

(** C9 (amended): every Session made by [createDevSession] expires exactly
    365 days after [now]; at that instant it is Valid and needs no
    refresh. *)
Theorem dev_session_lifetime (host : Host) (now : Z) :
  prop (createDevSession now) "expiresAt" = JNum (now + 365 * 24 * 60 * 60 * 1000) /\
  hasValidSessionFields (createDevSession now) = true /\
  classify now (createDevSession now) = Valid /\
  sessionNeedsRefresh now (createDevSession now) = false.
Proof.
  assert (He : prop (createDevSession now) "expiresAt"
               = JNum (now + 365 * 24 * 60 * 60 * 1000)) by reflexivity.
  assert (Hf : hasValidSessionFields (createDevSession now) = true) by reflexivity.
  repeat split; try assumption.
  - rewrite (classify_num now _ _ Hf He). bounds; [reflexivity | lia | lia].
  - rewrite (sessionNeedsRefresh_num now _ _ (valid_fields_truthy _ Hf) He).
    bounds; [lia | reflexivity].
Qed.

(** C10: when neither [MODE] (in [import.meta.env]) nor [NODE_ENV] (in
    [process.env]) is set (absent or empty), [getMode] is ['development'],
    and [shouldSkipAuth] is [true] exactly when [SKIP_AUTH] is not the
    string ["false"]: the bypass is on by default. *)
Theorem skip_auth_default_when_mode_unknown (env : Env) :
  (forall e, import_meta_env env = Some e -> missing (e !! "MODE") = true) ->
  (forall e, process_env env = Some e -> missing (e !! "NODE_ENV") = true) ->
  getMode env = "development" /\
  (shouldSkipAuth env = true <-> getEnv env "SKIP_AUTH" <> Some "false").
Proof.
  intros Hmode Hnode.
  assert (Hdev : getMode env = "development").
  { assert (Hor : forall v, missing v = true -> or_development v = "development").
    { intros [m |]; simpl; [| reflexivity]. intros ->. reflexivity. }
    unfold getMode.
    destruct (import_meta_env env) as [e |] eqn:Hmeta.
    - apply Hor, (Hmode e eq_refl).
    - destruct (process_env env) as [e |] eqn:Hproc; [| reflexivity].
      apply Hor, (Hnode e eq_refl). }
  split; [exact Hdev |].
  unfold shouldSkipAuth. rewrite Hdev. simpl.
  destruct (getEnv env "SKIP_AUTH") as [v |]; simpl.
  - destruct (String.eqb_spec v "false") as [-> | Hne]; simpl.
    + split; [discriminate | intros H; exfalso; apply H; reflexivity].
    + split; [intros _ Heq; inversion Heq; contradiction | reflexivity].
  - split; [discriminate | reflexivity].
Qed.

Lemma skip_auth_default_when_mode_unknown_witness :
  shouldSkipAuth {| import_meta_env := None; process_env := Some ∅ |} = true.
Proof.
  apply (skip_auth_default_when_mode_unknown
           {| import_meta_env := None; process_env := Some ∅ |}).
  - intros e H. discriminate H.
  - intros e H. injection H as <-. reflexivity.
  - vm_compute. discriminate.
Defined.

Section FetchFacts.
Context {host : Host}.

Lemma refreshTokens_run (config : Auth0Config) (refreshToken : JsVal) calls :
  refreshTokens config refreshToken calls =
    (read_tokens "Token refresh failed: " (fetch (refresh_request config refreshToken)),
     (calls ++ [refresh_request config refreshToken])%list).
Proof.
  unfold refreshTokens, read_tokens, await_fetch, mbind, M_bind, mbind'.
  destruct (fetch (refresh_request config refreshToken)) as [| r]; [reflexivity |].
  destruct (resp_ok r); simpl; [| reflexivity].
  destruct (resp_json r) as [tokens |]; simpl; [| reflexivity].
  destruct tokens; reflexivity.
Qed.

Lemma exchangeCodeForTokens_run (config : Auth0Config) (code : string) calls :
  exchangeCodeForTokens config code calls =
    (read_tokens "Token exchange failed: " (fetch (exchange_request config code)),
     (calls ++ [exchange_request config code])%list).
Proof.
  unfold exchangeCodeForTokens, read_tokens, await_fetch, mbind, M_bind, mbind'.
  destruct (fetch (exchange_request config code)) as [| r]; [reflexivity |].
  destruct (resp_ok r); simpl; [| reflexivity].
  destruct (resp_json r) as [tokens |]; simpl; [| reflexivity].
  destruct tokens; reflexivity.
Qed.

End FetchFacts.

Section CallbackFacts.
Context {host : Host}.

Lemma strict_eq_str_true (v : JsVal) (s : string) :
  strict_eq_str v s = true <-> v = JStr s.
Proof.
  destruct v; simpl; split; try discriminate; intros H.
  - apply String.eqb_eq in H. congruence.
  - injection H as ->. apply String.eqb_refl.
Qed.

Lemma missing_false (o : option string) :
  missing o = false -> exists v, o = Some v /\ v <> "" /\ default "" o = v.
Proof.
  destruct o as [v |]; simpl; [| discriminate].
  intros H. exists v. split; [reflexivity | split; [| reflexivity]].
  intros ->. discriminate.
Qed.

(** The three ways through the loader before the [try] block. *)
Lemma loader_run (env : Env) (now : Z) (request : Request) calls :
  let code := searchParams_get "code" (req_searchParams request) in
  let state := searchParams_get "state" (req_searchParams request) in
  (missing code || missing state = true /\
   Callback.loader env now request calls
     = (Throw (Error "Invalid callback parameters"), calls)) \/
  (missing code || missing state = false /\
   verifyState request (default "" state) = false /\
   Callback.loader env now request calls
     = (Ok (redirect "/login?error=invalid_state"), calls)) \/
  (missing code || missing state = false /\
   verifyState request (default "" state) = true).
Proof.
  intros code state. unfold Callback.loader. fold code state.
  destruct (missing code || missing state); [left; split; reflexivity | right].
  destruct (verifyState request (default "" state)); simpl.
  - right. split; reflexivity.
  - left. repeat split; reflexivity.
Qed.

End CallbackFacts.

(** C1: for every callback request, that is one with [code] and [state]
    parameters, whose [state] does not equal the state stored in the state
    cookie (a missing state cookie included), the loader makes no call to
    the token endpoint and returns a redirect to
    [/login?error=invalid_state]; whatever the parameters, no call is made
    under such a mismatch, and a call is made only after [verifyState] has
    succeeded. *)
Theorem callback_state_mismatch
    (host : Host) (env : Env) (now : Z) (request : Request) (calls : list FetchCall) :
  let code := searchParams_get "code" (req_searchParams request) in
  let state := searchParams_get "state" (req_searchParams request) in
  let run := Callback.loader env now request calls in
  ((forall s, state = Some s -> cookie_parse StateCookie (req_cookie request) <> JStr s) ->
     snd run = calls /\
     (missing code = false -> missing state = false ->
        fst run = Ok (redirect "/login?error=invalid_state"))) /\
  (req_cookie request = None -> snd run = calls) /\
  (snd run <> calls ->
     exists c s, code = Some c /\ c <> "" /\ state = Some s /\ s <> "" /\
                 verifyState request s = true).
Proof.
  intros code state run.
  destruct (loader_run env now request calls) as [[Hm Hrun] | [[Hm [Hv Hrun]] | [Hm Hv]]];
    fold code state in Hm; try fold state in Hv.
  - (* parameters missing *)
    subst run. rewrite Hrun. simpl.
    split; [| split].
    + intros _. split; [reflexivity |].
      intros Hc Hs. rewrite Hc, Hs in Hm. discriminate.
    + intros _. reflexivity.
    + intros Hcalls. contradiction.
  - (* state rejected *)
    subst run. rewrite Hrun. simpl.
    split; [| split].
    + intros _. split; reflexivity.
    + intros _. reflexivity.
    + intros Hcalls. contradiction.
  - (* state verified *)
    apply orb_false_iff in Hm as [Hc Hs].
    destruct (missing_false _ Hc) as [c [Hcode [Hcne _]]].
    destruct (missing_false _ Hs) as [s [Hstate [Hsne Hdef]]].
    rewrite Hdef in Hv.
    assert (Hsaved : cookie_parse StateCookie (req_cookie request) = JStr s).
    { apply strict_eq_str_true. exact Hv. }
    split; [| split].
    + intros Hmismatch. exfalso. exact (Hmismatch s Hstate Hsaved).
    + intros Hnone. rewrite Hnone, cookie_parse_absent in Hsaved. discriminate.
    + intros _. exists c, s. repeat split; assumption.
Qed.

Lemma callback_state_mismatch_witness :
  let host := tableHost JNull (JStr "s2") offline in
  let request := {| req_origin := "https://app.example.com";
                    req_searchParams := [("code", "x"); ("state", "s1")];
                    req_cookie := Some "__auth_state=sealed" |} in
  Callback.loader demoEnv 0 request []
    = (Ok (redirect "/login?error=invalid_state"), []).
Proof.
  intros host request.
  destruct (callback_state_mismatch host demoEnv 0 request []) as [Hmismatch _].
  destruct Hmismatch as [Hcalls Hredirect].
  - intros s Hs. injection Hs as <-. discriminate.
  - specialize (Hredirect eq_refl eq_refl).
    destruct (Callback.loader demoEnv 0 request []) as [r calls'].
    simpl in Hcalls, Hredirect. subst. reflexivity.
Defined.

Section RefreshFacts.
Context {host : Host}.

(** [refreshSessionIfNeeded] on a session that is due, by the outcome of the
    steps of its [try] block. *)
Lemma refresh_run (env : Env) (now now' : Z) (request : Request) (session : JsVal) calls :
  truthy session = true ->
  sessionNeedsRefresh now session = true ->
  refreshSessionIfNeeded env now now' request session calls =
    match getAuth0Config env request with
    | Throw _ => (Ok cleared, calls)
    | Ok config =>
        let call := refresh_request config (prop session "refreshToken") in
        (match read_tokens "Token refresh failed: " (fetch call) with
         | Throw _ => Ok cleared
         | Ok tokens =>
             match createSessionData now' tokens (prop session "refreshToken") with
             | Throw _ => Ok cleared
             | Ok newSession =>
                 Ok {| session := newSession;
                       headers := Some (createSessionHeader newSession) |}
             end
         end, (calls ++ [call])%list)
    end.
Proof.
  intros Ht Hn. unfold refreshSessionIfNeeded. rewrite Ht, Hn. simpl.
  unfold try_catch, mbind, M_bind, mbind', lift.
  destruct (getAuth0Config env request) as [config | e]; [| reflexivity].
  rewrite refreshTokens_run.
  destruct (read_tokens _ _) as [tokens | e]; [| reflexivity].
  destruct (createSessionData now' tokens (prop session "refreshToken")); reflexivity.
Qed.

Lemma createSessionData_run (now : Z) (tokens fallback : JsVal) :
  createSessionData now tokens fallback =
    match tokens with
    | JUndefined | JNull => Throw TypeError
    | _ =>
        let refreshToken := js_or (prop tokens "refresh_token") fallback in
        if truthy refreshToken then
          Ok (mkSessionData (prop tokens "access_token") (prop tokens "id_token")
                refreshToken
                (num_add (JNum now) (num_mul (prop tokens "expires_in") (JNum 1000))))
        else Throw (Error "No refresh token available")
    end.
Proof.
  unfold createSessionData.
  destruct tokens; try reflexivity; simpl;
    match goal with
    | |- context [truthy ?v] => destruct (truthy v); reflexivity
    end.
Qed.

End RefreshFacts.

Section RefreshTokenFacts.
Context {host : Host}.

(** The loader once the parameters are there and the state is verified. *)
Lemma loader_verified_run (env : Env) (now : Z) (request : Request) calls (code state : string) :
  searchParams_get "code" (req_searchParams request) = Some code ->
  searchParams_get "state" (req_searchParams request) = Some state ->
  code <> "" -> state <> "" ->
  verifyState request state = true ->
  Callback.loader env now request calls =
    match getAuth0Config env request with
    | Throw _ => (Ok (redirect "/login?error=auth_callback_failed"), calls)
    | Ok config =>
        let call := exchange_request config code in
        (match read_tokens "Token exchange failed: " (fetch call) with
         | Throw _ => Ok (redirect "/login?error=auth_callback_failed")
         | Ok tokens =>
             match createSessionData now tokens JUndefined with
             | Throw _ => Ok (redirect "/login?error=auth_callback_failed")
             | Ok session =>
                 Ok {| location := "/";
                       set_cookie := Some (createSessionHeader session) |}
             end
         end, (calls ++ [call])%list)
    end.
Proof.
  intros Hcode Hstate Hc Hs Hv. unfold Callback.loader.
  rewrite Hcode, Hstate. simpl.
  apply String.eqb_neq in Hc, Hs. rewrite Hc, Hs, Hv. simpl.
  unfold try_catch, mbind, M_bind, mbind', lift.
  destruct (getAuth0Config env request) as [config | e]; [| reflexivity].
  rewrite exchangeCodeForTokens_run.
  destruct (read_tokens _ _) as [tokens | e]; [| reflexivity].
  destruct (createSessionData now tokens JUndefined); reflexivity.
Qed.

Lemma read_tokens_ok (what : string) (r : Response) (tokens : JsVal) :
  resp_ok r = true -> resp_json r = Some tokens ->
  tokens <> JNull -> tokens <> JUndefined ->
  read_tokens what (FetchResolves r) = Ok tokens.
Proof.
  intros Hok Hj Hn Hu. unfold read_tokens. rewrite Hok, Hj.
  destruct tokens; try reflexivity; contradiction.
Qed.

Lemma createSessionData_refreshToken (now : Z) (tokens fallback : JsVal) :
  tokens <> JNull -> tokens <> JUndefined ->
  createSessionData now tokens fallback =
    let refreshToken := js_or (prop tokens "refresh_token") fallback in
    if truthy refreshToken then
      Ok (mkSessionData (prop tokens "access_token") (prop tokens "id_token")
            refreshToken
            (num_add (JNum now) (num_mul (prop tokens "expires_in") (JNum 1000))))
    else Throw (Error "No refresh token available").
Proof.
  intros Hn Hu. rewrite createSessionData_run.
  destruct tokens; try reflexivity; contradiction.
Qed.

End RefreshTokenFacts.

Section RefreshFailureFacts.
Context {host : Host}.

(** Under a success response with a JSON body, a refresh fails for want of
    an object to read or of a refresh token only. *)
Lemma refresh_failure_inv (env : Env) (request : Request) (session : JsVal)
    (config : Auth0Config) (r : Response) (tokens : JsVal) :
  getAuth0Config env request = Ok config ->
  fetch (refresh_request config (prop session "refreshToken")) = FetchResolves r ->
  resp_ok r = true ->
  resp_json r = Some tokens ->
  RefreshFailure env request session ->
  (tokens = JNull \/ tokens = JUndefined) \/
  (truthy (prop tokens "refresh_token") = false /\
   truthy (prop session "refreshToken") = false).
Proof.
  intros Hc Hf Hok Hj Hfail.
  inversion Hfail as [e Hc' | config' Hc' Hf' | config' r' Hc' Hf' Hok'
                     | config' r' Hc' Hf' Hj' | config' r' tokens' Hc' Hf' Hj' Hcase
                     | config' r' tokens' Hc' Hf' Hj' Hrt' Hprior'];
    rewrite Hc in Hc'; try discriminate Hc';
    injection Hc' as <-; rewrite Hf in Hf'; try discriminate Hf';
    injection Hf' as <-.
  - congruence.
  - congruence.
  - rewrite Hj in Hj'. injection Hj' as <-. left. exact Hcase.
  - rewrite Hj in Hj'. injection Hj' as <-. right. split; assumption.
Qed.

End RefreshFailureFacts.

(** C2, as stated, fails when the response is a success that lacks required
    fields: with no [access_token] and no [id_token] in it, the refresh still
    returns a session, one without these two fields. *)
Lemma refresh_partial_session_counterexample :
  let server := fun _ : FetchCall =>
    FetchResolves {| resp_ok := true; resp_statusText := "OK";
                     resp_text := None;
                     resp_json := Some (JObj [("expires_in", JNum 3600)]) |} in
  let host := tableHost (sessionObj demoSession) JNull server in
  let now := 5001000 in
  sessionNeedsRefresh now (sessionObj demoSession) = true /\
  fst (refreshSessionIfNeeded demoEnv now now demoRequest (sessionObj demoSession) [])
    = Ok {| session := mkSessionData JUndefined JUndefined (JStr "r") (JNum 8601000);
            headers := Some (createSessionHeader
                               (mkSessionData JUndefined JUndefined (JStr "r") (JNum 8601000))) |}.
Proof. split; reflexivity. Qed.

(** C2 (amended): for every request and non-null session needing refresh,
    if the refresh fails (incomplete configuration, network error,
    non-success HTTP status, a body that is not JSON or is [null], or no
    refresh token in the response nor in the prior session),
    [refreshSessionIfNeeded] returns [{session: null}] with the [Set-Cookie]
    header that serializes the empty value with [maxAge = 0]; it makes at
    most one call and never returns the prior session then.  In every other
    case it has made one call, the answer is a success with a JSON body, and
    it returns the session [createSessionData] builds from that body with
    the prior refresh token as fallback, whatever fields the body has, with
    the header that writes this session. *)
Theorem refresh_failure_clears_session
    (host : Host) (env : Env) (now now' : Z) (request : Request)
    (session : JsVal) (calls : list FetchCall) :
  truthy session = true ->
  sessionNeedsRefresh now session = true ->
  let run := refreshSessionIfNeeded env now now' request session calls in
  (RefreshFailure env request session ->
     fst run = Ok {| session := JNull;
                     headers := Some (cookie_serialize SessionCookie (JStr "") (Some 0)) |} /\
     fst run = Ok {| session := JNull; headers := Some (createSessionHeader JNull) |}) /\
  (~ RefreshFailure env request session ->
     exists config r tokens newSession,
       getAuth0Config env request = Ok config /\
       fetch (refresh_request config (prop session "refreshToken")) = FetchResolves r /\
       resp_ok r = true /\
       resp_json r = Some tokens /\
       createSessionData now' tokens (prop session "refreshToken") = Ok newSession /\
       newSession
         = mkSessionData (prop tokens "access_token") (prop tokens "id_token")
             (js_or (prop tokens "refresh_token") (prop session "refreshToken"))
             (num_add (JNum now') (num_mul (prop tokens "expires_in") (JNum 1000))) /\
       run = (Ok {| session := newSession;
                    headers := Some (createSessionHeader newSession) |},
              (calls ++ [refresh_request config (prop session "refreshToken")])%list)) /\
  (length (snd run) <= length calls + 1)%nat.
Proof.
  intros Ht Hn run. subst run.
  rewrite (refresh_run env now now' request session calls Ht Hn).
  assert (Hlen : forall c : FetchCall,
             (length (calls ++ [c]) <= length calls + 1)%nat).
  { intros c. rewrite length_app. simpl. lia. }
  destruct (getAuth0Config env request) as [config | e] eqn:Hc.
  2: { split; [intros _; split; reflexivity | split; [| simpl; lia]].
       intros Hnot. exfalso. apply Hnot. exact (ConfigurationFails _ _ _ e Hc). }
  cbv zeta.
  destruct (fetch (refresh_request config (prop session "refreshToken")))
    as [| r] eqn:Hf.
  { split; [intros _; split; reflexivity | split; [| apply Hlen]].
    intros Hnot. exfalso. apply Hnot. exact (CallRejects _ _ _ config Hc Hf). }
  destruct (resp_ok r) eqn:Hok.
  2: { unfold read_tokens. rewrite Hok.
       split; [intros _; split; reflexivity | split; [| apply Hlen]].
       intros Hnot. exfalso. apply Hnot. exact (StatusNotOk _ _ _ config r Hc Hf Hok). }
  destruct (resp_json r) as [tokens |] eqn:Hj.
  2: { unfold read_tokens. rewrite Hok, Hj.
       split; [intros _; split; reflexivity | split; [| apply Hlen]].
       intros Hnot. exfalso. apply Hnot. exact (BodyNotJson _ _ _ config r Hc Hf Hj). }
  assert (Hcase : (tokens = JNull \/ tokens = JUndefined) \/
                  (tokens <> JNull /\ tokens <> JUndefined)).
  { destruct tokens; auto; right; split; discriminate. }
  destruct Hcase as [Hnull | [Hn1 Hn2]].
  { assert (Hread : read_tokens "Token refresh failed: " (FetchResolves r) = Throw TypeError).
    { unfold read_tokens. rewrite Hok, Hj. destruct Hnull as [-> | ->]; reflexivity. }
    rewrite Hread.
    split; [intros _; split; reflexivity | split; [| apply Hlen]].
    intros Hnot. exfalso. apply Hnot.
    exact (BodyNull _ _ _ config r tokens Hc Hf Hj Hnull). }
  rewrite (read_tokens_ok _ r tokens Hok Hj Hn1 Hn2).
  assert (Hbuild := createSessionData_refreshToken now' tokens
                      (prop session "refreshToken") Hn1 Hn2).
  cbv zeta in Hbuild.
  destruct (truthy (js_or (prop tokens "refresh_token") (prop session "refreshToken")))
    eqn:Hrt; rewrite Hbuild.
  - split; [| split; [| apply Hlen]].
    + intros Hfail. exfalso.
      destruct (refresh_failure_inv env request session config r tokens Hc Hf Hok Hj Hfail)
        as [[Heq | Heq] | [Hrt' Hprior']]; try contradiction.
      unfold js_or in Hrt. rewrite Hrt', Hprior' in Hrt. discriminate.
    + intros _. eexists config, r, tokens, _.
      split; [reflexivity | split; [exact Hf | split; [exact Hok | split; [exact Hj |]]]].
      split; [exact Hbuild | split; reflexivity].
  - assert (Hboth : truthy (prop tokens "refresh_token") = false /\
                    truthy (prop session "refreshToken") = false).
    { unfold js_or in Hrt.
      destruct (truthy (prop tokens "refresh_token")) eqn:Hrt1; [congruence |].
      split; [reflexivity | exact Hrt]. }
    destruct Hboth as [Hrt1 Hprior].
    split; [intros _; split; reflexivity | split; [| apply Hlen]].
    intros Hnot. exfalso. apply Hnot.
    exact (NoRefreshToken _ _ _ config r tokens Hc Hf Hj Hrt1 Hprior).
Qed.

Lemma refresh_failure_clears_session_witness :
  let server := fun _ : FetchCall =>
    FetchResolves {| resp_ok := false; resp_statusText := "Forbidden";
                     resp_text := Some "invalid_grant"; resp_json := None |} in
  let host := tableHost (sessionObj demoSession) JNull server in
  fst (refreshSessionIfNeeded demoEnv 5001000 5001000 demoRequest (sessionObj demoSession) [])
    = Ok {| session := JNull;
            headers := Some "__session=; Max-Age=0; Path=/; HttpOnly; SameSite=Lax" |}.
Proof.
  intros server host.
  apply (refresh_failure_clears_session host demoEnv 5001000 5001000 demoRequest
           (sessionObj demoSession) [] eq_refl eq_refl).
  eapply StatusNotOk; reflexivity.
Defined.

(** C5: [createSessionData] gives the new Session the [refresh_token] of the
    token response when it is present, otherwise the fallback of its caller,
    and throws when neither is there; [refreshSessionIfNeeded] passes the
    prior [refreshToken] as fallback, so a refresh response without
    [refresh_token] keeps it; the callback passes none, so an exchange
    response without [refresh_token] fails the session construction and the
    login ends on the error redirect, with no session cookie. *)
Theorem refresh_token_fallback (host : Host) :
  (forall (now : Z) (tokens fallback : JsVal),
      tokens <> JNull -> tokens <> JUndefined ->
      let present := truthy (prop tokens "refresh_token") in
      (present = true ->
         exists s, createSessionData now tokens fallback = Ok s /\
                   prop s "refreshToken" = prop tokens "refresh_token") /\
      (present = false -> truthy fallback = true ->
         exists s, createSessionData now tokens fallback = Ok s /\
                   prop s "refreshToken" = fallback) /\
      (present = false -> truthy fallback = false ->
         createSessionData now tokens fallback
           = Throw (Error "No refresh token available"))) /\
  (forall (env : Env) (now now' : Z) (request : Request) (session : JsVal) calls
          (config : Auth0Config) (r : Response) (tokens : JsVal),
      truthy session = true ->
      sessionNeedsRefresh now session = true ->
      getAuth0Config env request = Ok config ->
      fetch (refresh_request config (prop session "refreshToken")) = FetchResolves r ->
      resp_ok r = true -> resp_json r = Some tokens ->
      tokens <> JNull -> tokens <> JUndefined ->
      truthy (prop tokens "refresh_token") = false ->
      truthy (prop session "refreshToken") = true ->
      exists newSession,
        fst (refreshSessionIfNeeded env now now' request session calls)
          = Ok {| session := newSession;
                  headers := Some (createSessionHeader newSession) |} /\
        prop newSession "refreshToken" = prop session "refreshToken") /\
  (forall (env : Env) (now : Z) (request : Request) calls (code state : string)
          (config : Auth0Config) (r : Response) (tokens : JsVal),
      searchParams_get "code" (req_searchParams request) = Some code ->
      searchParams_get "state" (req_searchParams request) = Some state ->
      code <> "" -> state <> "" ->
      verifyState request state = true ->
      getAuth0Config env request = Ok config ->
      fetch (exchange_request config code) = FetchResolves r ->
      resp_ok r = true -> resp_json r = Some tokens ->
      tokens <> JNull -> tokens <> JUndefined ->
      truthy (prop tokens "refresh_token") = false ->
      createSessionData now tokens JUndefined
        = Throw (Error "No refresh token available") /\
      fst (Callback.loader env now request calls)
        = Ok (redirect "/login?error=auth_callback_failed")).
Proof.
  split; [| split].
  - intros now tokens fallback Hn Hu present. subst present.
    rewrite (createSessionData_refreshToken now tokens fallback Hn Hu).
    unfold js_or. cbv zeta.
    destruct (truthy (prop tokens "refresh_token")) eqn:Hrt.
    + rewrite Hrt. repeat split; try discriminate.
      intros _. eexists. split; reflexivity.
    + repeat split; try discriminate.
      * intros _ Hfb. rewrite Hfb. eexists. split; reflexivity.
      * intros _ Hfb. rewrite Hfb. reflexivity.
  - intros env now now' request session calls config r tokens
           Ht Hneeds Hc Hf Hok Hj Hn Hu Hrt Hprior.
    rewrite (refresh_run env now now' request session calls Ht Hneeds).
    rewrite Hc. cbv zeta. rewrite Hf, (read_tokens_ok _ r tokens Hok Hj Hn Hu).
    rewrite (createSessionData_refreshToken now' tokens _ Hn Hu).
    unfold js_or. cbv zeta. rewrite Hrt, Hprior.
    eexists. split; reflexivity.
  - intros env now request calls code state config r tokens
           Hcode Hstate Hcne Hsne Hv Hc Hf Hok Hj Hn Hu Hrt.
    assert (Hthrow : createSessionData now tokens JUndefined
                     = Throw (Error "No refresh token available")).
    { rewrite (createSessionData_refreshToken now tokens _ Hn Hu).
      unfold js_or. cbv zeta. rewrite Hrt. reflexivity. }
    split; [exact Hthrow |].
    rewrite (loader_verified_run env now request calls code state
               Hcode Hstate Hcne Hsne Hv).
    rewrite Hc. cbv zeta. rewrite Hf, (read_tokens_ok _ r tokens Hok Hj Hn Hu).
    rewrite Hthrow. reflexivity.
Qed.

Lemma refresh_token_fallback_witness :
  let host := tableHost (sessionObj demoSession) (JStr "s1") grantingServer in
  (exists s, createSessionData 0 tokensWithoutRefreshToken (JStr "r") = Ok s /\
             prop s "refreshToken" = JStr "r") /\
  (exists newSession,
      fst (refreshSessionIfNeeded demoEnv 5001000 5001000 demoRequest
             (sessionObj demoSession) [])
        = Ok {| session := newSession;
                headers := Some (createSessionHeader newSession) |} /\
      prop newSession "refreshToken" = JStr "r") /\
  fst (Callback.loader demoEnv 0 callbackRequest [])
    = Ok (redirect "/login?error=auth_callback_failed").
Proof.
  intros host.
  destruct (refresh_token_fallback host) as [Hcreate [Hrefresh Hcallback]].
  split; [| split].
  - destruct (Hcreate 0 tokensWithoutRefreshToken (JStr "r")) as [_ [Hfallback _]];
      try discriminate.
    apply Hfallback; reflexivity.
  - apply (Hrefresh demoEnv 5001000 5001000 demoRequest (sessionObj demoSession) []
             demoConfig grantedResponse tokensWithoutRefreshToken);
      try discriminate; reflexivity.
  - apply (Hcallback demoEnv 0 callbackRequest [] "x" "s1"
             demoConfig grantedResponse tokensWithoutRefreshToken);
      try discriminate; reflexivity.
Defined.

Section JwtFacts.
Context {host : Host}.

(** [parseJwt] returns either [null] or the claims of a token whose header
    and payload segments both decode. *)
Lemma parseJwt_run (token : string) :
  parseJwt token = Ok JNull \/
  exists headerText header payload binary jsonPayload claims,
    atob (hd "" (split_on "." token)) = Some headerText /\
    JSON_parse headerText = Some header /\
    truthy (prop header "enc") = false /\
    split_on "." token !! 1%nat = Some payload /\ payload <> "" /\
    atob (base64url_to_base64 payload) = Some binary /\
    decodeURIComponent (percent_encode_all binary) = Some jsonPayload /\
    JSON_parse jsonPayload = Some claims /\
    parseJwt token = Ok claims.
Proof.
  unfold parseJwt, mbind, Result_bind.
  destruct (atob (hd "" (split_on "." token))) as [headerText |] eqn:Hh;
    cbn [of_option rbind rcatch]; [| left; reflexivity].
  destruct (JSON_parse headerText) as [header |] eqn:Hj;
    cbn [of_option rbind rcatch]; [| left; reflexivity].
  assert (Hread : get_prop header "enc" = Throw TypeError \/
                  get_prop header "enc" = Ok (prop header "enc")).
  { destruct header; simpl; auto. }
  destruct Hread as [-> | ->]; cbn [rbind rcatch]; [left; reflexivity |].
  destruct (truthy (prop header "enc")) eqn:Henc;
    cbn [rbind rcatch]; [left; reflexivity |].
  destruct (split_on "." token !! 1%nat) as [payload |] eqn:Hp;
    cbn [missing default]; [| left; reflexivity].
  destruct (String.eqb_spec payload "") as [-> | Hne]; [left; reflexivity |].
  cbn [id].
  destruct (atob (base64url_to_base64 payload)) as [binary |] eqn:Hb;
    cbn [of_option rbind rcatch]; [| left; reflexivity].
  destruct (decodeURIComponent (percent_encode_all binary)) as [jsonPayload |] eqn:Hd;
    cbn [of_option rbind rcatch]; [| left; reflexivity].
  destruct (JSON_parse jsonPayload) as [claims |] eqn:Hc;
    cbn [of_option rbind rcatch]; [| left; reflexivity].
  right. exists headerText, header, payload, binary, jsonPayload, claims.
  repeat split; assumption.
Qed.

End JwtFacts.

(** C6, as stated, fails for bad callback parameters: without a [state]
    parameter the loader throws to its caller. *)
Lemma callback_missing_params_counterexample :
  let host := tableHost JNull JNull offline in
  let request := {| req_origin := "https://app.example.com";
                    req_searchParams := [("code", "x")];
                    req_cookie := None |} in
  Callback.loader demoEnv 0 request []
    = (Throw (Error "Invalid callback parameters"), []).
Proof. reflexivity. Qed.

(** C6 (amended): an absent or malformed session cookie makes [getSession]
    return [null], and [parseJwt] never raises: it returns [null] unless the
    header and the payload segment of the token both decode (so it does for
    a token without a second segment); the callback loader, on a missing
    [code] or [state] parameter, throws [Error("Invalid callback
    parameters")] to its caller, having called nothing. *)
Theorem malformed_input_handling (host : Host) :
  (forall t1 t2 t3 request, exists v, getSession t1 t2 t3 request = Ok v) /\
  (forall t1 t2 t3 request,
      req_cookie request = None -> getSession t1 t2 t3 request = Ok JNull) /\
  (forall t1 t2 t3 request,
      hasValidSessionFields (cookie_parse SessionCookie (req_cookie request)) = false ->
      getSession t1 t2 t3 request = Ok JNull) /\
  (forall token, exists v, parseJwt token = Ok v) /\
  (forall token claims,
      parseJwt token = Ok claims -> claims <> JNull ->
      exists headerText header payload binary jsonPayload,
        atob (hd "" (split_on "." token)) = Some headerText /\
        JSON_parse headerText = Some header /\
        truthy (prop header "enc") = false /\
        split_on "." token !! 1%nat = Some payload /\ payload <> "" /\
        atob (base64url_to_base64 payload) = Some binary /\
        decodeURIComponent (percent_encode_all binary) = Some jsonPayload /\
        JSON_parse jsonPayload = Some claims) /\
  (forall token, split_on "." token !! 1%nat = None -> parseJwt token = Ok JNull) /\
  (forall env now request calls,
      missing (searchParams_get "code" (req_searchParams request))
        || missing (searchParams_get "state" (req_searchParams request)) = true ->
      Callback.loader env now request calls
        = (Throw (Error "Invalid callback parameters"), calls)).
Proof.
  repeat apply conj.
  - intros t1 t2 t3 request.
    destruct (getSession_cases t1 t2 t3 request) as [Hnull | [Hdata _]]; eauto.
  - intros t1 t2 t3 request Hnone. unfold getSession.
    rewrite Hnone, cookie_parse_absent. reflexivity.
  - intros t1 t2 t3 request Hbad. exact (getSession_invalid t1 t2 t3 request Hbad).
  - intros token.
    destruct (parseJwt_run token)
      as [Hnull | (h & hv & p & b & j & claims & _ & _ & _ & _ & _ & _ & _ & _ & Hok)];
      eauto.
  - intros token claims Hok Hne.
    destruct (parseJwt_run token)
      as [Hnull | (h & hv & p & b & j & claims' & H1 & H2 & H3 & H4 & H5 & H6 & H7 & H8 & H9)].
    + rewrite Hnull in Hok. injection Hok as <-. contradiction.
    + rewrite H9 in Hok. injection Hok as <-.
      exists h, hv, p, b, j. repeat split; assumption.
  - intros token Hnone.
    destruct (parseJwt_run token)
      as [Hnull | (h & hv & p & b & j & claims' & _ & _ & _ & H4 & _)];
      [exact Hnull | congruence].
  - intros env now request calls Hmissing.
    unfold Callback.loader. rewrite Hmissing. reflexivity.
Qed.

Lemma malformed_input_handling_witness :
  let host := tableHost (JObj [("accessToken", JStr "a")]) JNull offline in
  getSession 0 1 2 demoRequest = Ok JNull /\
  parseJwt "not-a-jwt" = Ok JNull /\
  parseJwt "" = Ok JNull /\
  Callback.loader demoEnv 0 demoRequest []
    = (Throw (Error "Invalid callback parameters"), []).
Proof.
  intros host.
  destruct (malformed_input_handling host) as (_ & _ & Hcookie & _ & _ & Hjwt & Hparams).
  repeat apply conj.
  - apply Hcookie. reflexivity.
  - apply Hjwt. reflexivity.
  - apply Hjwt. reflexivity.
  - apply Hparams. reflexivity.
Defined.

(** C7, as stated, fails: the ceiling of the code is not 7 days, and it is
    below the lifetime of a token granted for 30 days, which
    [createSessionData] accepts as it is. *)
Lemma session_max_age_counterexample :
  let host := tableHost JNull JNull offline in
  COOKIE_CONFIG.SESSION_MAX_AGE <> 7 * 24 * 60 * 60 /\
  createSessionData 0 monthLongTokens JUndefined
    = Ok (mkSessionData (JStr "a") (JStr "i") (JStr "r") (JNum 2592000000)) /\
  ~ (COOKIE_CONFIG.SESSION_MAX_AGE * 1000 >= 2592000000 - 0).
Proof.
  intros host. repeat split; try reflexivity;
    unfold COOKIE_CONFIG.SESSION_MAX_AGE; lia.
Qed.

(** C7 (amended): the session cookie is created with [maxAge] the constant
    [COOKIE_CONFIG.SESSION_MAX_AGE], 24 hours in seconds, whatever the
    environment holds, and [createSessionHeader] passes no other [maxAge]
    when it writes a session.  The constant does not depend on the
    [expiresAt] of the token and need not reach its lifetime: a token
    response is accepted with any [expires_in].  [getSession] applies the
    same constant to [expiresAt]: a session with all four fields is returned
    exactly when it has expired at the first clock read and is less than the
    constant past its [expiresAt] at the second, or is still valid at the
    last; so a session that has expired is returned while it is within that
    bound, and [null] is returned once it is past it. *)
Theorem session_max_age_ceiling
    (host : Host) (processEnv : gmap string string) (t1 t2 t3 e : Z)
    (request : Request) (data : JsVal) :
  cookie_parse SessionCookie (req_cookie request) = data ->
  hasValidSessionFields data = true ->
  prop data "expiresAt" = JNum e ->
  Cookie.maxAge (sessionCookie_options processEnv) = COOKIE_CONFIG.SESSION_MAX_AGE /\
  COOKIE_CONFIG.SESSION_MAX_AGE = 24 * 60 * 60 /\
  (forall session, truthy session = true ->
     createSessionHeader session = cookie_serialize SessionCookie session None) /\
  (getSession t1 t2 t3 request = Ok data <->
     (e <= t1 /\ t2 - COOKIE_CONFIG.SESSION_MAX_AGE * 1000 < e) \/ t3 < e) /\
  (e <= t1 -> t1 <= t3 ->
     (getSession t1 t2 t3 request = Ok data <->
        t2 - COOKIE_CONFIG.SESSION_MAX_AGE * 1000 < e) /\
     (e <= t2 - COOKIE_CONFIG.SESSION_MAX_AGE * 1000 ->
        getSession t1 t2 t3 request = Ok JNull)) /\
  (forall (now' expires_in : Z) (access id refresh : string),
      refresh <> "" ->
      isSafeInteger now' = true ->
      isSafeInteger (expires_in * 1000) = true ->
      isSafeInteger (now' + expires_in * 1000) = true ->
      createSessionData now'
        (JObj [ ("access_token", JStr access); ("id_token", JStr id);
                ("refresh_token", JStr refresh); ("expires_in", JNum expires_in) ])
        JUndefined
      = Ok (mkSessionData (JStr access) (JStr id) (JStr refresh)
              (JNum (now' + expires_in * 1000)))).
Proof.
  intros Hparse Hf He.
  rewrite (getSession_num t1 t2 t3 e request data Hparse Hf He).
  assert (Hdata : data <> JNull).
  { intros ->. discriminate Hf. }
  split; [reflexivity | split; [reflexivity | split; [| split; [| split]]]].
  - intros session Ht. unfold createSessionHeader. rewrite Ht. reflexivity.
  - bounds; cbn [negb andb]; split; intros Hx; try reflexivity; try lia;
      injection Hx as Hx; symmetry in Hx; contradiction.
  - intros Hexpired Hmono. split.
    + bounds; cbn [negb andb]; split; intros Hx; try reflexivity; try lia;
        injection Hx as Hx; symmetry in Hx; contradiction.
    + intros Hpast. bounds; cbn [negb andb]; try lia; reflexivity.
  - intros now' expires_in access id refresh Hne _ _ _.
    rewrite createSessionData_run. unfold js_or. simpl.
    apply String.eqb_neq in Hne. rewrite Hne. simpl. rewrite Hne. reflexivity.
Qed.

Lemma session_max_age_ceiling_witness :
  let host := tableHost (sessionObj demoSession) JNull offline in
  getSession 91399999 91399999 91399999 demoRequest = Ok (sessionObj demoSession) /\
  getSession 91399999 91400000 91400000 demoRequest = Ok JNull.
Proof.
  intros host. split.
  - apply (session_max_age_ceiling host ∅ 91399999 91399999 91399999 5000000 demoRequest
             (sessionObj demoSession) eq_refl eq_refl eq_refl);
      unfold COOKIE_CONFIG.SESSION_MAX_AGE; lia.
  - apply (session_max_age_ceiling host ∅ 91399999 91400000 91400000 5000000 demoRequest
             (sessionObj demoSession) eq_refl eq_refl eq_refl);
      unfold COOKIE_CONFIG.SESSION_MAX_AGE; lia.
Defined.

(** * Further properties of the code *)

(** ** Sessions *)

Section MoreSessionFacts.
Context {host : Host}.

Lemma typeof_num_add (a b : JsVal) : typeof (num_add a b) = "number".
Proof. unfold num_add. destruct (toNumber a), (toNumber b); reflexivity. Qed.

Lemma createSessionData_ok (now : Z) (tokens fallback s : JsVal) :
  createSessionData now tokens fallback = Ok s ->
  truthy (js_or (prop tokens "refresh_token") fallback) = true /\
  s = mkSessionData (prop tokens "access_token") (prop tokens "id_token")
        (js_or (prop tokens "refresh_token") fallback)
        (num_add (JNum now) (num_mul (prop tokens "expires_in") (JNum 1000))).
Proof.
  rewrite createSessionData_run. cbv zeta.
  destruct tokens; try discriminate;
    (destruct (truthy (js_or _ fallback)) eqn:Ht; [| discriminate];
     intros H; injection H as <-; split; reflexivity).
Qed.

End MoreSessionFacts.

(** X1: a value [getSession] returns that is not [null] is the parsed cookie
    itself, has the four fields, and has a numeric [expiresAt] that passed
    the tests at the clock reads [t1], [t2], [t3] of [getSession]: expired at
    the first and within the cookie ceiling at the second, or valid at the
    last.  With a clock that does not run backwards [expiresAt] is less
    than the ceiling before the first read: a session is never returned
    once it is Dead, and never with a [NaN] expiry. *)
Theorem getSession_returns_live_session
    (host : Host) (t1 t2 t3 : Z) (request : Request) (v : JsVal) :
  getSession t1 t2 t3 request = Ok v ->
  v <> JNull ->
  v = cookie_parse SessionCookie (req_cookie request) /\
  hasValidSessionFields v = true /\
  exists e, prop v "expiresAt" = JNum e /\
            ((e <= t1 /\ t2 - COOKIE_CONFIG.SESSION_MAX_AGE * 1000 < e) \/ t3 < e) /\
            (t1 <= t2 -> t1 <= t3 -> t1 - COOKIE_CONFIG.SESSION_MAX_AGE * 1000 < e).
Proof.
  intros Hget Hne.
  destruct (getSession_cases t1 t2 t3 request) as [Hnull | [Hdata [Hf [e [He Hpassed]]]]].
  - rewrite Hnull in Hget. injection Hget as <-. contradiction.
  - rewrite Hdata in Hget. injection Hget as <-.
    split; [reflexivity | split; [exact Hf |]].
    exists e. split; [exact He | split; [exact Hpassed |]].
    intros H12 H13. unfold COOKIE_CONFIG.SESSION_MAX_AGE in *. lia.
Qed.

Lemma getSession_returns_live_session_witness :
  let host := tableHost (sessionObj demoSession) JNull offline in
  hasValidSessionFields (sessionObj demoSession) = true /\
  exists e, prop (sessionObj demoSession) "expiresAt" = JNum e /\
            ((e <= 5001000 /\ 5001001 - COOKIE_CONFIG.SESSION_MAX_AGE * 1000 < e)
             \/ 5001002 < e) /\
            (5001000 <= 5001001 -> 5001000 <= 5001002 ->
             5001000 - COOKIE_CONFIG.SESSION_MAX_AGE * 1000 < e).
Proof.
  intros host.
  apply (getSession_returns_live_session host 5001000 5001001 5001002 demoRequest
           (sessionObj demoSession) eq_refl).
  discriminate.
Defined.

(** X2: for a session with the four fields and a numeric [expiresAt], an
    expired session always needs refresh, and a session that needs no
    refresh is valid with more than the refresh window left. *)
Theorem expired_session_is_due
    (host : Host) (now e : Z) (session : JsVal) :
  hasValidSessionFields session = true ->
  prop session "expiresAt" = JNum e ->
  (isValidSession now session = false -> sessionNeedsRefresh now session = true) /\
  (sessionNeedsRefresh now session = false ->
     isValidSession now session = true /\ e - now > COOKIE_CONFIG.REFRESH_WINDOW).
Proof.
  intros Hf He.
  rewrite (isValidSession_num now e session Hf He).
  rewrite (sessionNeedsRefresh_num now e session (valid_fields_truthy _ Hf) He).
  bounds; split; intros; try discriminate; try reflexivity; try lia; split;
    try reflexivity; lia.
Qed.

Lemma expired_session_is_due_witness :
  let host := tableHost JNull JNull offline in
  sessionNeedsRefresh 5001000 (sessionObj demoSession) = true.
Proof.
  intros host.
  apply (expired_session_is_due host 5001000 5000000 (sessionObj demoSession)
           eq_refl eq_refl).
  reflexivity.
Defined.

(** X3: a session built by [createSessionData] from a response whose
    [expires_in] is the number [n] expires [n * 1000] ms after [now], as
    long as these numbers are safe integers, for which the arithmetic of
    JavaScript is exact; it needs refresh at once exactly when [n * 1000]
    is within the refresh window (tokens granted for 5 minutes or less),
    and, its fields being valid, it is valid exactly when [n] is
    positive. *)
Theorem fresh_session_window
    (host : Host) (now n : Z) (tokens fallback s : JsVal) :
  createSessionData now tokens fallback = Ok s ->
  prop tokens "expires_in" = JNum n ->
  (isSafeInteger now = true -> isSafeInteger (n * 1000) = true ->
   isSafeInteger (now + n * 1000) = true ->
     prop s "expiresAt" = JNum (now + n * 1000)) /\
  (sessionNeedsRefresh now s = true <-> n * 1000 <= COOKIE_CONFIG.REFRESH_WINDOW) /\
  (hasValidSessionFields s = true -> (isValidSession now s = true <-> 0 < n)).
Proof.
  intros Hs Hn. destruct (createSessionData_ok now tokens fallback s Hs) as [_ ->].
  rewrite Hn.
  set (s := mkSessionData _ _ _ _).
  assert (He : prop s "expiresAt" = JNum (now + n * 1000)) by reflexivity.
  assert (Ht : truthy s = true) by reflexivity.
  split; [intros _ _ _; exact He | split].
  - rewrite (sessionNeedsRefresh_num now _ s Ht He).
    bounds; split; intros; try lia; try reflexivity; discriminate.
  - intros Hf. rewrite (isValidSession_num now _ s Hf He).
    bounds; split; intros; try lia; try reflexivity; discriminate.
Qed.

Lemma fresh_session_window_witness :
  let host := tableHost JNull JNull offline in
  prop (mkSessionData (JStr "a") (JStr "i") (JStr "r") (JNum 2592000000)) "expiresAt"
    = JNum (0 + 2592000 * 1000).
Proof.
  intros host.
  apply (fresh_session_window host 0 2592000 monthLongTokens JUndefined
           (mkSessionData (JStr "a") (JStr "i") (JStr "r") (JNum 2592000000))
           eq_refl eq_refl); reflexivity.
Defined.

(** X4: a session built from a response without [expires_in] has the expiry
    [NaN]: at no instant is it valid, refreshable or due for refresh, so
    [getSession] gives [null] for it whenever it comes back in the cookie. *)
Theorem session_without_expiry
    (host : Host) (now t : Z) (tokens fallback s : JsVal) (request : Request) :
  createSessionData now tokens fallback = Ok s ->
  prop tokens "expires_in" = JUndefined ->
  prop s "expiresAt" = JNaN /\
  isValidSession t s = false /\
  sessionNeedsRefresh t s = false /\
  (cookie_parse SessionCookie (req_cookie request) = s ->
     forall t1 t2 t3, getSession t1 t2 t3 request = Ok JNull).
Proof.
  intros Hs Hn. destruct (createSessionData_ok now tokens fallback s Hs) as [_ ->].
  rewrite Hn.
  set (s := mkSessionData _ _ _ _).
  assert (He : prop s "expiresAt" = JNaN) by reflexivity.
  repeat apply conj.
  - exact He.
  - unfold isValidSession. rewrite He.
    destruct (hasValidSessionFields s); reflexivity.
  - reflexivity.
  - intros Hparse t1 t2 t3.
    destruct (hasValidSessionFields s) eqn:Hf.
    + exact (getSession_nan t1 t2 t3 request s Hparse Hf He).
    + apply getSession_invalid. rewrite Hparse. exact Hf.
Qed.

(** X5: a session built by [createSessionData] passes
    [hasValidSessionFields] exactly when the response has string
    [access_token] and [id_token] and the refresh token that was taken is a
    string; the expiry always counts as a number. *)
Theorem built_session_fields
    (host : Host) (now : Z) (tokens fallback s : JsVal) :
  createSessionData now tokens fallback = Ok s ->
  (hasValidSessionFields s = true <->
     typeof (prop tokens "access_token") = "string" /\
     typeof (prop tokens "id_token") = "string" /\
     typeof (js_or (prop tokens "refresh_token") fallback) = "string").
Proof.
  intros Hs. destruct (createSessionData_ok now tokens fallback s Hs) as [_ ->].
  unfold hasValidSessionFields. simpl. rewrite typeof_num_add. simpl.
  rewrite !andb_true_iff, !String.eqb_eq. tauto.
Qed.

Lemma session_without_expiry_witness :
  let host := tableHost JNull JNull offline in
  let tokens := JObj [ ("access_token", JStr "a"); ("id_token", JStr "i");
                       ("refresh_token", JStr "r") ] in
  isValidSession 7 (mkSessionData (JStr "a") (JStr "i") (JStr "r") JNaN) = false.
Proof.
  intros host tokens.
  apply (session_without_expiry host 0 7 tokens JUndefined
           (mkSessionData (JStr "a") (JStr "i") (JStr "r") JNaN) demoRequest
           eq_refl eq_refl).
Defined.

Lemma built_session_fields_witness :
  let host := tableHost JNull JNull offline in
  hasValidSessionFields
    (mkSessionData (JStr "a2") (JStr "i2") (JStr "r") (JNum 3600000)) = true.
Proof.
  intros host.
  apply (built_session_fields host 0 tokensWithoutRefreshToken (JStr "r")
           (mkSessionData (JStr "a2") (JStr "i2") (JStr "r") (JNum 3600000)) eq_refl).
  repeat split; reflexivity.
Defined.

(** ** Refresh *)

(** X6: a refresh that is due makes exactly one call when the configuration
    is complete, whatever the answer: a POST to
    [https://<domain>/oauth/token] with the grant [refresh_token], the
    client credentials and the refresh token of the session; with an
    incomplete configuration it makes none. *)
Theorem refresh_calls_token_endpoint_once
    (host : Host) (env : Env) (now now' : Z) (request : Request)
    (session : JsVal) (calls : list FetchCall) :
  truthy session = true ->
  sessionNeedsRefresh now session = true ->
  let run := refreshSessionIfNeeded env now now' request session calls in
  (forall config, getAuth0Config env request = Ok config ->
     exists call,
       snd run = (calls ++ [call])%list /\
       fc_url call = "https://" +:+ domain config +:+ "/oauth/token" /\
       fc_method call = "POST" /\
       prop (fc_body call) "grant_type" = JStr "refresh_token" /\
       prop (fc_body call) "client_id" = JStr (clientId config) /\
       prop (fc_body call) "client_secret" = JStr (clientSecret config) /\
       prop (fc_body call) "refresh_token" = prop session "refreshToken") /\
  (forall e, getAuth0Config env request = Throw e -> snd run = calls).
Proof.
  intros Ht Hn run. subst run.
  rewrite (refresh_run env now now' request session calls Ht Hn).
  split.
  - intros config ->. cbv zeta.
    exists (refresh_request config (prop session "refreshToken")).
    repeat split; reflexivity.
  - intros e ->. reflexivity.
Qed.

Lemma refresh_calls_token_endpoint_once_witness :
  let host := tableHost (sessionObj demoSession) JNull grantingServer in
  exists call,
    snd (refreshSessionIfNeeded demoEnv 5001000 5001000 demoRequest
           (sessionObj demoSession) []) = [call] /\
    fc_url call = "https://tenant.example.com/oauth/token".
Proof.
  intros host.
  destruct (refresh_calls_token_endpoint_once host demoEnv 5001000 5001000
              demoRequest (sessionObj demoSession) [] eq_refl eq_refl)
    as [Hcall _].
  destruct (Hcall demoConfig eq_refl) as [call [Hcalls [Hurl _]]].
  exists call. split; [exact Hcalls | exact Hurl].
Defined.

(** X7: a refresh settles.  When a due session was refreshed from a
    response whose [expires_in] is [n] seconds, the session that comes back
    is not refreshed again at the same instant if [n * 1000] exceeds the
    refresh window (it is returned as it is, with no header and no call);
    if [n * 1000] is within the window it is due again at once. *)
Theorem refresh_settles
    (host : Host) (env : Env) (now now' : Z) (request : Request)
    (session : JsVal) (calls : list FetchCall) (n : Z)
    (config : Auth0Config) (r : Response) (tokens : JsVal) :
  truthy session = true ->
  sessionNeedsRefresh now session = true ->
  getAuth0Config env request = Ok config ->
  fetch (refresh_request config (prop session "refreshToken")) = FetchResolves r ->
  resp_ok r = true ->
  resp_json r = Some tokens ->
  prop tokens "expires_in" = JNum n ->
  truthy (js_or (prop tokens "refresh_token") (prop session "refreshToken")) = true ->
  exists newSession calls',
    refreshSessionIfNeeded env now now' request session calls
      = (Ok {| session := newSession;
               headers := Some (createSessionHeader newSession) |}, calls') /\
    (COOKIE_CONFIG.REFRESH_WINDOW < n * 1000 ->
       refreshSessionIfNeeded env now' now' request newSession calls'
         = (Ok {| session := newSession; headers := None |}, calls')) /\
    (n * 1000 <= COOKIE_CONFIG.REFRESH_WINDOW ->
       sessionNeedsRefresh now' newSession = true).
Proof.
  intros Ht Hn Hc Hf Hok Hj Hexp Hrt.
  assert (Htokens : tokens <> JNull /\ tokens <> JUndefined).
  { split; intros ->; discriminate Hexp. }
  destruct Htokens as [Hn1 Hn2].
  rewrite (refresh_run env now now' request session calls Ht Hn), Hc.
  cbv zeta. rewrite Hf, (read_tokens_ok _ r tokens Hok Hj Hn1 Hn2).
  rewrite (createSessionData_refreshToken now' tokens _ Hn1 Hn2).
  cbv zeta. rewrite Hrt, Hexp.
  set (newSession := mkSessionData _ _ _ _).
  assert (He : prop newSession "expiresAt" = JNum (now' + n * 1000)) by reflexivity.
  assert (Htn : truthy newSession = true) by reflexivity.
  exists newSession, (calls ++ [refresh_request config (prop session "refreshToken")])%list.
  split; [reflexivity | split].
  - intros Hlong. unfold refreshSessionIfNeeded.
    rewrite (sessionNeedsRefresh_num now' _ newSession Htn He).
    revert Hlong. bounds; intros; [lia | reflexivity].
  - intros Hshort. rewrite (sessionNeedsRefresh_num now' _ newSession Htn He).
    revert Hshort. bounds; intros; [reflexivity | lia].
Qed.

Lemma refresh_settles_witness :
  let host := tableHost (sessionObj demoSession) JNull grantingServer in
  exists newSession calls',
    refreshSessionIfNeeded demoEnv 5001000 5001000 demoRequest
      (sessionObj demoSession) []
      = (Ok {| session := newSession;
               headers := Some (createSessionHeader newSession) |}, calls') /\
    refreshSessionIfNeeded demoEnv 5001000 5001000 demoRequest newSession calls'
      = (Ok {| session := newSession; headers := None |}, calls').
Proof.
  intros host.
  destruct (refresh_settles host demoEnv 5001000 5001000 demoRequest
              (sessionObj demoSession) [] 3600 demoConfig grantedResponse
              tokensWithoutRefreshToken eq_refl eq_refl eq_refl eq_refl eq_refl
              eq_refl eq_refl eq_refl)
    as [newSession [calls' [Hrun [Hsettled _]]]].
  exists newSession, calls'. split; [exact Hrun |].
  apply Hsettled. unfold COOKIE_CONFIG.REFRESH_WINDOW. lia.
Defined.

(** ** The callback route *)



Section CallbackSuccessFacts.
Context {host : Host}.

(** The loader on the way that ends in a session. *)
Lemma loader_success_run (env : Env) (now : Z) (request : Request) calls
    (code state : string) (config : Auth0Config) (r : Response) (tokens : JsVal) :
  searchParams_get "code" (req_searchParams request) = Some code ->
  searchParams_get "state" (req_searchParams request) = Some state ->
  code <> "" -> state <> "" ->
  verifyState request state = true ->
  getAuth0Config env request = Ok config ->
  fetch (exchange_request config code) = FetchResolves r ->
  resp_ok r = true ->
  resp_json r = Some tokens ->
  truthy (prop tokens "refresh_token") = true ->
  Callback.loader env now request calls
    = (Ok {| location := "/";
             set_cookie :=
               Some (createSessionHeader
                       (mkSessionData (prop tokens "access_token") (prop tokens "id_token")
                          (prop tokens "refresh_token")
                          (num_add (JNum now)
                             (num_mul (prop tokens "expires_in") (JNum 1000))))) |},
       (calls ++ [exchange_request config code])%list).
Proof.
  intros Hcode Hstate Hcne Hsne Hv Hc Hf Hok Hj Hrt.
  assert (Htokens : tokens <> JNull /\ tokens <> JUndefined).
  { split; intros ->; discriminate Hrt. }
  destruct Htokens as [Hn1 Hn2].
  rewrite (loader_verified_run env now request calls code state
             Hcode Hstate Hcne Hsne Hv), Hc.
  cbv zeta. rewrite Hf, (read_tokens_ok _ r tokens Hok Hj Hn1 Hn2).
  rewrite (createSessionData_refreshToken now tokens _ Hn1 Hn2).
  unfold js_or. cbv zeta. rewrite Hrt, Hrt. reflexivity.
Qed.

Lemma getAuth0Config_callbackUrl (env : Env) (request : Request) (config : Auth0Config) :
  getAuth0Config env request = Ok config ->
  callbackUrl config = req_origin request +:+ "/auth/callback".
Proof.
  intros Hc. unfold getAuth0Config, mbind, Result_bind in Hc.
  destruct (getRequiredEnvVar env "AUTH0_DOMAIN"); [| discriminate].
  destruct (getRequiredEnvVar env "AUTH0_CLIENT_ID"); [| discriminate].
  destruct (getRequiredEnvVar env "AUTH0_CLIENT_SECRET"); [| discriminate].
  destruct (import_meta_env env); [| discriminate].
  simpl in Hc. injection Hc as <-. reflexivity.
Qed.

End CallbackSuccessFacts.

(** X9: a callback whose state is verified, with a complete configuration
    and a success answer that has a refresh token, redirects to [/] with
    the cookie of the session built from the answer, after exactly one call:
    the exchange of the [code], with [redirect_uri] the [/auth/callback] of
    the origin of the request. *)
Theorem callback_success
    (host : Host) (env : Env) (now : Z) (request : Request) (calls : list FetchCall)
    (code state : string) (config : Auth0Config) (r : Response) (tokens : JsVal) :
  searchParams_get "code" (req_searchParams request) = Some code ->
  searchParams_get "state" (req_searchParams request) = Some state ->
  code <> "" -> state <> "" ->
  verifyState request state = true ->
  getAuth0Config env request = Ok config ->
  fetch (exchange_request config code) = FetchResolves r ->
  resp_ok r = true ->
  resp_json r = Some tokens ->
  truthy (prop tokens "refresh_token") = true ->
  let session :=
    mkSessionData (prop tokens "access_token") (prop tokens "id_token")
      (prop tokens "refresh_token")
      (num_add (JNum now) (num_mul (prop tokens "expires_in") (JNum 1000))) in
  Callback.loader env now request calls
    = (Ok {| location := "/"; set_cookie := Some (createSessionHeader session) |},
       (calls ++ [exchange_request config code])%list) /\
  prop (fc_body (exchange_request config code)) "code" = JStr code /\
  prop (fc_body (exchange_request config code)) "grant_type" = JStr "authorization_code" /\
  prop (fc_body (exchange_request config code)) "redirect_uri"
    = JStr (req_origin request +:+ "/auth/callback").
Proof.
  intros Hcode Hstate Hcne Hsne Hv Hc Hf Hok Hj Hrt session.
  split; [| split; [reflexivity | split; [reflexivity |]]].
  - exact (loader_success_run env now request calls code state config r tokens
             Hcode Hstate Hcne Hsne Hv Hc Hf Hok Hj Hrt).
  - simpl. f_equal. exact (getAuth0Config_callbackUrl env request config Hc).
Qed.

Lemma callback_success_witness :
  let host := tableHost JNull (JStr "s1") fullServer in
  Callback.loader demoEnv 0 callbackRequest []
    = (Ok {| location := "/";
             set_cookie := Some (createSessionHeader (sessionObj loggedInSession)) |},
       [exchange_request demoConfig "x"]).
Proof.
  intros host.
  apply (callback_success host demoEnv 0 callbackRequest [] "x" "s1" demoConfig
           fullResponse fullTokens);
    try discriminate; reflexivity.
Defined.

(** X10: the session set by a successful callback is read back.  When the
    answer has string tokens and the numeric [expires_in] [n] ([now],
    [n * 1000] and their sum being safe integers, so that the expiry is
    [now + n * 1000] exactly), the cookie the callback sets, carried by a
    later request, makes [getSession] return that session when, at its
    clock reads, the session has expired at the first and is less than the
    cookie ceiling past its expiry at the second, or is still valid at the
    last (the framework decoding what it encoded). *)
Theorem callback_session_is_read_back
    (host : Host) (env : Env) (now t1 t2 t3 n : Z) (request later : Request)
    (calls : list FetchCall) (code state : string) (config : Auth0Config)
    (r : Response) (tokens : JsVal) (access id refresh : string) :
  searchParams_get "code" (req_searchParams request) = Some code ->
  searchParams_get "state" (req_searchParams request) = Some state ->
  code <> "" -> state <> "" ->
  verifyState request state = true ->
  getAuth0Config env request = Ok config ->
  fetch (exchange_request config code) = FetchResolves r ->
  resp_ok r = true ->
  resp_json r = Some tokens ->
  prop tokens "access_token" = JStr access ->
  prop tokens "id_token" = JStr id ->
  prop tokens "refresh_token" = JStr refresh ->
  refresh <> "" ->
  prop tokens "expires_in" = JNum n ->
  isSafeInteger now = true ->
  isSafeInteger (n * 1000) = true ->
  isSafeInteger (now + n * 1000) = true ->
  let session := sessionObj {| accessToken := access; idToken := id;
                               refreshToken := refresh;
                               expiresAt := now + n * 1000 |} in
  cookie_parse SessionCookie
    (Some (cookiePairOf (cookie_serialize SessionCookie session None))) = session ->
  (now + n * 1000 <= t1 /\
   t2 - COOKIE_CONFIG.SESSION_MAX_AGE * 1000 < now + n * 1000) \/
  t3 < now + n * 1000 ->
  exists header,
    fst (Callback.loader env now request calls)
      = Ok {| location := "/"; set_cookie := Some header |} /\
    (carries later header -> getSession t1 t2 t3 later = Ok session).
Proof.
  intros Hcode Hstate Hcne Hsne Hv Hc Hf Hok Hj Ha Hi Hr Hrne Hn _ _ _ session Hcodec Ht.
  assert (Hrt : truthy (prop tokens "refresh_token") = true).
  { rewrite Hr. simpl. apply String.eqb_neq in Hrne. rewrite Hrne. reflexivity. }
  rewrite (loader_success_run env now request calls code state config r tokens
             Hcode Hstate Hcne Hsne Hv Hc Hf Hok Hj Hrt).
  rewrite Ha, Hi, Hr, Hn.
  exists (createSessionHeader session). split; [reflexivity |].
  intros Hcarries. unfold carries, createSessionHeader in Hcarries.
  simpl in Hcarries.
  assert (Hparse : cookie_parse SessionCookie (req_cookie later) = session).
  { rewrite Hcarries. exact Hcodec. }
  rewrite (getSession_num t1 t2 t3 (now + n * 1000) later session Hparse eq_refl eq_refl).
  revert Ht. bounds; cbn [negb andb]; intros; try reflexivity; lia.
Qed.

Lemma callback_session_is_read_back_witness :
  let host := tableHost (sessionObj loggedInSession) (JStr "s1") fullServer in
  exists header,
    fst (Callback.loader demoEnv 0 callbackRequest [])
      = Ok {| location := "/"; set_cookie := Some header |} /\
    (carries demoRequest header ->
     getSession 4000000 4000001 4000002 demoRequest = Ok (sessionObj loggedInSession)).
Proof.
  intros host.
  apply (callback_session_is_read_back host demoEnv 0 4000000 4000001 4000002 3600
           callbackRequest demoRequest [] "x" "s1" demoConfig fullResponse fullTokens
           "a2" "i2" "r2");
    try discriminate; try reflexivity.
  left. unfold COOKIE_CONFIG.SESSION_MAX_AGE. lia.
Defined.

(** ** Configuration and the handshake *)

(** X11: [getAuth0Config] succeeds exactly when [AUTH0_DOMAIN],
    [AUTH0_CLIENT_ID] and [AUTH0_CLIENT_SECRET] are all set and non-empty;
    otherwise its error names the first of them, in that order, that is
    missing.  On success the callback URL is [/auth/callback] at the origin
    of the request and the audience is whatever [AUTH0_AUDIENCE] holds. *)
Theorem getAuth0Config_reports_first_missing
    (env : Env) (e : gmap string string) (request : Request) :
  import_meta_env env = Some e ->
  match List.find (fun name => missing (e !! name))
          ["AUTH0_DOMAIN"; "AUTH0_CLIENT_ID"; "AUTH0_CLIENT_SECRET"] with
  | Some name =>
      getAuth0Config env request
        = Throw (Error ("Missing required environment variable: " +:+ name))
  | None =>
      exists d c s,
        e !! "AUTH0_DOMAIN" = Some d /\ e !! "AUTH0_CLIENT_ID" = Some c /\
        e !! "AUTH0_CLIENT_SECRET" = Some s /\
        getAuth0Config env request
          = Ok {| domain := d; clientId := c; clientSecret := s;
                  callbackUrl := req_origin request +:+ "/auth/callback";
                  audience := e !! "AUTH0_AUDIENCE" |}
  end.
Proof.
  intros He.
  assert (Hvar : forall name,
             getRequiredEnvVar env name =
               if missing (e !! name) then
                 Throw (Error ("Missing required environment variable: " +:+ name))
               else Ok (default "" (e !! name))).
  { intros name. unfold getRequiredEnvVar. rewrite He.
    destruct (e !! name) as [v |]; simpl; [| reflexivity].
    destruct (String.eqb v ""); reflexivity. }
  unfold getAuth0Config, mbind, Result_bind. rewrite !Hvar, He. simpl.
  destruct (missing (e !! "AUTH0_DOMAIN")) eqn:Hd; [reflexivity |].
  destruct (missing (e !! "AUTH0_CLIENT_ID")) eqn:Hc; [reflexivity |].
  destruct (missing (e !! "AUTH0_CLIENT_SECRET")) eqn:Hs; [reflexivity |].
  destruct (missing_false _ Hd) as [d [Hd' [_ ->]]].
  destruct (missing_false _ Hc) as [c [Hc' [_ ->]]].
  destruct (missing_false _ Hs) as [s [Hs' [_ ->]]].
  exists d, c, s. repeat split; assumption || reflexivity.
Qed.

Lemma getAuth0Config_reports_first_missing_witness :
  getAuth0Config brokenEnv demoRequest
    = Throw (Error "Missing required environment variable: AUTH0_CLIENT_ID").
Proof.
  exact (getAuth0Config_reports_first_missing brokenEnv _ demoRequest eq_refl).
Defined.

(** X12: the state of a login is accepted by the callback, and no other.
    The state cookie written by [createAuthorizationRequest] for the state
    [state], carried by a request, makes [verifyState] answer [true] for
    exactly the received value [state] (the framework decoding what it
    encoded); the same [state] is the [state] parameter of the authorization
    URL, whose scope asks for [offline_access]. *)
Theorem login_state_is_verified
    (host : Host) (web : WebApi) (config : Auth0Config) (state received : string)
    (request : Request) :
  cookie_parse StateCookie
    (Some (cookiePairOf (cookie_serialize StateCookie (JStr state) None))) = JStr state ->
  carries request (cookieHeader (createAuthorizationRequest config state)) ->
  (verifyState request received = true <-> received = state) /\
  searchParams_get "state" (authorization_params config state) = Some state /\
  searchParams_get "scope" (authorization_params config state)
    = Some "openid profile email offline_access" /\
  url (createAuthorizationRequest config state)
    = "https://" +:+ domain config +:+ "/authorize?"
      +:+ URLSearchParams_toString (authorization_params config state).
Proof.
  intros Hcodec Hcarries.
  split; [| repeat split; reflexivity].
  unfold verifyState. unfold carries in Hcarries. simpl in Hcarries.
  rewrite Hcarries, Hcodec. simpl.
  rewrite String.eqb_eq. split; intros H; symmetry; exact H.
Qed.

Lemma login_state_is_verified_witness :
  let host := tableHost JNull (JStr "s1") offline in
  verifyState stateRequest "s1" = true <-> "s1" = "s1".
Proof.
  intros host.
  apply (login_state_is_verified host demoWeb demoConfig "s1" "s1" stateRequest);
    reflexivity.
Defined.

(** ** The login and logout routes *)

(** X13: the login loader sends a visitor home, with no cookie and without
    reading the configuration, when [getSession] has a session for the
    request: one that, at the clock reads [t1], [t2], [t3] of [getSession],
    has expired at the first and is within the cookie ceiling at the
    second, or is valid at the last.  When [getSession] has none (no
    cookie, invalid fields, or an [expiresAt] that fails these tests), with
    a complete configuration it redirects to the authorization URL and sets
    the state cookie for the [state] of that URL. *)
Theorem login_loader_outcomes
    (host : Host) (web : WebApi) (env : Env) (t1 t2 t3 : Z) (state : string)
    (request : Request) :
  let data := cookie_parse SessionCookie (req_cookie request) in
  let passes := fun e : Z =>
    (e <= t1 /\ t2 - COOKIE_CONFIG.SESSION_MAX_AGE * 1000 < e) \/ t3 < e in
  (forall e, hasValidSessionFields data = true ->
     prop data "expiresAt" = JNum e ->
     passes e ->
     Login.loader env t1 t2 t3 state request = Ok (redirect "/")) /\
  (getSession t1 t2 t3 request = Ok JNull ->
     forall config, getAuth0Config env request = Ok config ->
       Login.loader env t1 t2 t3 state request
         = Ok {| location := url (createAuthorizationRequest config state);
                 set_cookie := Some (cookie_serialize StateCookie (JStr state) None) |}) /\
  (hasValidSessionFields data = false \/
   (exists e, prop data "expiresAt" = JNum e /\ ~ passes e) ->
     getSession t1 t2 t3 request = Ok JNull).
Proof.
  intros data passes. split; [| split].
  - intros e Hf He Hpasses. unfold Login.loader.
    rewrite (getSession_num t1 t2 t3 e request data eq_refl Hf He).
    assert (Ht : truthy data = true) by exact (valid_fields_truthy _ Hf).
    unfold passes in Hpasses. revert Hpasses.
    bounds; cbn [negb andb mbind Result_bind rbind]; intros;
      try lia; rewrite Ht; reflexivity.
  - intros Hnone config Hc. unfold Login.loader.
    rewrite Hnone. cbn [mbind Result_bind rbind truthy]. rewrite Hc. reflexivity.
  - intros [Hbad | [e [He Hfails]]].
    + exact (getSession_invalid t1 t2 t3 request Hbad).
    + destruct (hasValidSessionFields data) eqn:Hf;
        [| exact (getSession_invalid t1 t2 t3 request Hf)].
      rewrite (getSession_num t1 t2 t3 e request data eq_refl Hf He).
      unfold passes in Hfails. revert Hfails.
      bounds; cbn [negb andb]; intros; try reflexivity; exfalso; apply Hfails; lia.
Qed.

Lemma login_loader_outcomes_witness :
  let host := tableHost (sessionObj demoSession) JNull offline in
  Login.loader (web := demoWeb) brokenEnv 5001000 5001001 5001002 "s1" demoRequest
    = Ok (redirect "/") /\
  Login.loader (web := demoWeb) demoEnv 5001000 5001001 5001002 "s1" anonymousRequest
    = Ok {| location := "https://tenant.example.com/authorize?response_type=code&client_id=client-id&redirect_uri=https://app.example.com/auth/callback&scope=openid profile email offline_access&state=s1";
            set_cookie := Some (cookie_serialize StateCookie (JStr "s1") None) |}.
Proof.
  intros host. split.
  - apply (proj1 (login_loader_outcomes host demoWeb brokenEnv 5001000 5001001 5001002
                    "s1" demoRequest) 5000000 eq_refl eq_refl).
    left. unfold COOKIE_CONFIG.SESSION_MAX_AGE. lia.
  - apply (proj1 (proj2 (login_loader_outcomes host demoWeb demoEnv 5001000 5001001 5001002
                           "s1" anonymousRequest)) eq_refl demoConfig eq_refl).
Defined.

(** X14: logout.  Under the development bypass it only redirects to
    [returnTo] (or [/]), leaving the session cookie as it is and reading no
    configuration.  Otherwise, with a complete configuration, when
    [returnTo] resolves against the callback URL it redirects to the logout
    URL of the authorization server for the resolved address and sets the
    header that deletes the session cookie, the one a failed refresh sets;
    when it does not resolve ([new URL] throws), the logout throws that
    [TypeError] to its caller.  In no case does the answer depend on the
    cookies of the request. *)
Theorem logout_outcomes
    (host : Host) (web : WebApi) (env : Env) (request : Request) :
  let given := searchParams_get "returnTo" (req_searchParams request) in
  let returnTo := if missing given then "/" else default "" given in
  (shouldSkipAuth env = true ->
     Logout.handleLogout env request = Ok (redirect returnTo)) /\
  (shouldSkipAuth env = false ->
     forall config,
       getAuth0Config env request = Ok config ->
       Logout.handleLogout env request =
         match URL_resolve returnTo (callbackUrl config) with
         | Some target =>
             Ok {| location := "https://" +:+ domain config +:+ "/v2/logout?"
                               +:+ URLSearchParams_toString
                                     [("client_id", clientId config); ("returnTo", target)];
                   set_cookie := Some (createSessionHeader JNull) |}
         | None => Throw TypeError
         end) /\
  (forall cookie,
     Logout.handleLogout env
       {| req_origin := req_origin request;
          req_searchParams := req_searchParams request;
          req_cookie := cookie |}
     = Logout.handleLogout env request).
Proof.
  intros given returnTo. unfold Logout.handleLogout. fold given. fold returnTo.
  repeat apply conj.
  - intros ->. reflexivity.
  - intros -> config Hc. rewrite Hc. simpl.
    destruct (URL_resolve returnTo (callbackUrl config)); reflexivity.
  - intros cookie. reflexivity.
Qed.

Lemma logout_outcomes_witness :
  let host := tableHost JNull JNull offline in
  Logout.handleLogout (web := demoWeb) demoEnv demoRequest = Ok (redirect "/") /\
  Logout.handleLogout (web := demoWeb) prodEnv demoRequest
    = Ok {| location := "https://tenant.example.com/v2/logout?client_id=client-id&returnTo=/";
            set_cookie := Some "__session=; Max-Age=0; Path=/; HttpOnly; SameSite=Lax" |}.
Proof.
  intros host.
  destruct (logout_outcomes host demoWeb demoEnv demoRequest) as [Hdev _].
  destruct (logout_outcomes host demoWeb prodEnv demoRequest) as [_ [Hprod _]].
  split.
  - apply Hdev. reflexivity.
  - exact (Hprod eq_refl
             {| domain := "tenant.example.com"; clientId := "client-id";
                clientSecret := "client-secret";
                callbackUrl := "https://app.example.com/auth/callback";
                audience := None |} eq_refl).
Defined.

(** X15: an incomplete configuration is handled in two ways.  The callback,
    once the state is verified, answers it with the redirect to
    [/login?error=auth_callback_failed] and makes no call; the login loader
    (for a visitor without session) and the logout (outside the
    development bypass) throw the configuration error to their caller. *)
Theorem configuration_error_handling
    (host : Host) (web : WebApi) (env : Env) (now : Z) (request : Request)
    (e : JsError) :
  getAuth0Config env request = Throw e ->
  (forall calls code state,
     searchParams_get "code" (req_searchParams request) = Some code ->
     searchParams_get "state" (req_searchParams request) = Some state ->
     code <> "" -> state <> "" ->
     verifyState request state = true ->
     Callback.loader env now request calls
       = (Ok (redirect "/login?error=auth_callback_failed"), calls)) /\
  (forall t1 t2 t3 state, getSession t1 t2 t3 request = Ok JNull ->
     Login.loader env t1 t2 t3 state request = Throw e) /\
  (shouldSkipAuth env = false -> Logout.handleLogout env request = Throw e).
Proof.
  intros He. repeat apply conj.
  - intros calls code state Hcode Hstate Hcne Hsne Hv.
    rewrite (loader_verified_run env now request calls code state
               Hcode Hstate Hcne Hsne Hv), He. reflexivity.
  - intros t1 t2 t3 state Hnone. unfold Login.loader. rewrite Hnone. simpl.
    rewrite He. reflexivity.
  - intros Hskip. unfold Logout.handleLogout. rewrite Hskip, He. reflexivity.
Qed.

Lemma configuration_error_handling_witness :
  let host := tableHost JNull (JStr "s1") offline in
  Callback.loader brokenEnv 0 callbackRequest []
    = (Ok (redirect "/login?error=auth_callback_failed"), []) /\
  Login.loader (web := demoWeb) brokenEnv 0 1 2 "s1" callbackRequest
    = Throw (Error "Missing required environment variable: AUTH0_CLIENT_ID") /\
  Logout.handleLogout (web := demoWeb) brokenEnv callbackRequest
    = Throw (Error "Missing required environment variable: AUTH0_CLIENT_ID").
Proof.
  intros host.
  destruct (configuration_error_handling host demoWeb brokenEnv 0 callbackRequest
              (Error "Missing required environment variable: AUTH0_CLIENT_ID") eq_refl)
    as [Hcallback [Hlogin Hlogout]].
  repeat apply conj.
  - apply (Hcallback [] "x" "s1"); try discriminate; reflexivity.
  - apply Hlogin. reflexivity.
  - apply Hlogout. reflexivity.
Defined.

(** ** The loader helper *)

Section LoaderFacts.
Context {host : Host}.

(** Outside the bypass the two versions of the helper are the same
    composition of [getSession] and [refreshSessionIfNeeded]. *)
Lemma getAuthLoaderData_run (env : Env) (t1 t2 t3 now now' : Z) (request : Request)
    calls (current : JsVal) :
  shouldSkipAuth env = false ->
  getSession t1 t2 t3 request = Ok current ->
  Loader.getAuthLoaderData env t1 t2 t3 now now' request calls
    = refreshSessionIfNeeded env now now' request current calls /\
  LoaderWithCookie.getAuthLoaderData env t1 t2 t3 now now' request calls
    = refreshSessionIfNeeded env now now' request current calls.
Proof.
  intros Hskip Hget.
  unfold Loader.getAuthLoaderData, LoaderWithCookie.getAuthLoaderData.
  rewrite Hskip. unfold mbind, M_bind, mbind', lift.
  rewrite Hget. split; reflexivity.
Qed.

Lemma refresh_total (env : Env) (now now' : Z) (request : Request)
    (session : JsVal) calls :
  exists res,
    fst (refreshSessionIfNeeded env now now' request session calls) = Ok res /\
    (length (snd (refreshSessionIfNeeded env now now' request session calls))
     <= length calls + 1)%nat /\
    (headers res = None ->
     res = {| session := session; headers := None |} /\
     snd (refreshSessionIfNeeded env now now' request session calls) = calls).
Proof.
  destruct (truthy session) eqn:Ht.
  2: { unfold refreshSessionIfNeeded. rewrite Ht. simpl. eexists.
       repeat split; simpl; lia. }
  destruct (sessionNeedsRefresh now session) eqn:Hn.
  2: { unfold refreshSessionIfNeeded. rewrite Ht, Hn. simpl. eexists.
       repeat split; simpl; lia. }
  rewrite (refresh_run env now now' request session calls Ht Hn).
  assert (Hlen : forall c : FetchCall,
             (length (calls ++ [c]) <= length calls + 1)%nat).
  { intros c. rewrite length_app. simpl. lia. }
  destruct (getAuth0Config env request) as [config | e].
  2: { eexists. repeat split; simpl; try lia. discriminate. }
  cbv zeta. destruct (read_tokens _ _) as [tokens | e].
  2: { eexists. repeat split; simpl; try apply Hlen; discriminate. }
  destruct (createSessionData now' tokens (prop session "refreshToken"));
    eexists; repeat split; simpl; try apply Hlen; discriminate.
Qed.

End LoaderFacts.

(** X16: [getAuthLoaderData] never throws, in either version and in any
    mode, whatever the clock reads are, and makes at most one call; under
    the bypass it makes none and returns the mock session, whatever the
    request holds.  When it returns no header, the session is the one of the
    cookie, untouched, and no call was made. *)
Theorem auth_loader_never_throws
    (host : Host) (env : Env) (t1 t2 t3 now now' : Z) (request : Request)
    (calls : list FetchCall) :
  let run := Loader.getAuthLoaderData env t1 t2 t3 now now' request calls in
  let run' := LoaderWithCookie.getAuthLoaderData env t1 t2 t3 now now' request calls in
  (exists res, fst run = Ok res /\
     (length (snd run) <= length calls + 1)%nat /\
     (headers res = None -> snd run = calls)) /\
  (exists res, fst run' = Ok res /\
     (length (snd run') <= length calls + 1)%nat /\
     (headers res = None -> snd run' = calls)) /\
  (shouldSkipAuth env = true ->
     run = (Ok {| session := createDevSession now; headers := None |}, calls) /\
     run' = (Ok {| session := createDevSession now;
                   headers := Some (cookie_serialize SessionCookie
                                      (createDevSession now) None) |}, calls)).
Proof.
  intros run run'. subst run run'.
  destruct (shouldSkipAuth env) eqn:Hskip.
  - unfold Loader.getAuthLoaderData, LoaderWithCookie.getAuthLoaderData.
    rewrite Hskip. simpl.
    split; [| split].
    + eexists. repeat split; simpl; lia.
    + eexists. repeat split; simpl; lia.
    + intros _. split; reflexivity.
  - assert (Hget : exists current, getSession t1 t2 t3 request = Ok current).
    { destruct (getSession_cases t1 t2 t3 request) as [Hnull | [Hdata _]]; eauto. }
    destruct Hget as [current Hget].
    destruct (getAuthLoaderData_run env t1 t2 t3 now now' request calls current Hskip Hget)
      as [-> ->].
    destruct (refresh_total env now now' request current calls)
      as [res [Hres [Hlen Hnone]]].
    repeat split; try discriminate;
      (exists res; repeat split; [exact Hres | exact Hlen | intros H; apply (Hnone H)]).
Qed.

(** X17: outside the bypass, a request without usable session gets
    [{session: null}] with no header and no call, so that the helper does
    not delete a cookie it rejects: when the cookie is absent or has invalid
    fields; when the session is Dead at the first clock read [t1] of
    [getSession] (the clock not running backwards); and also when the
    session is valid at the first read but has expired at the last read
    [t3], a session [getSession] does not return for refresh.  A session
    with more than the refresh window left at the read [now] of
    [sessionNeedsRefresh], which is not before those of [getSession], is
    passed on as it is, also with no header and no call. *)
Theorem auth_loader_without_refresh
    (host : Host) (env : Env) (t1 t2 t3 now now' : Z) (request : Request)
    (calls : list FetchCall) :
  shouldSkipAuth env = false ->
  let data := cookie_parse SessionCookie (req_cookie request) in
  let run := Loader.getAuthLoaderData env t1 t2 t3 now now' request calls in
  let nothing := (Ok {| session := JNull; headers := None |}, calls) in
  (hasValidSessionFields data = false -> run = nothing) /\
  (forall e, hasValidSessionFields data = true ->
     prop data "expiresAt" = JNum e ->
     t1 <= t2 -> t1 <= t3 ->
     e <= t1 - COOKIE_CONFIG.SESSION_MAX_AGE * 1000 ->
     run = nothing) /\
  (forall e, hasValidSessionFields data = true ->
     prop data "expiresAt" = JNum e ->
     t1 < e -> e <= t3 ->
     run = nothing) /\
  (forall e, hasValidSessionFields data = true ->
     prop data "expiresAt" = JNum e ->
     t1 <= now -> t3 <= now ->
     COOKIE_CONFIG.REFRESH_WINDOW < e - now ->
     run = (Ok {| session := data; headers := None |}, calls)).
Proof.
  intros Hskip data run nothing. subst run nothing.
  assert (Hnull : getSession t1 t2 t3 request = Ok JNull ->
                  Loader.getAuthLoaderData env t1 t2 t3 now now' request calls
                  = (Ok {| session := JNull; headers := None |}, calls)).
  { intros Hget.
    destruct (getAuthLoaderData_run env t1 t2 t3 now now' request calls JNull Hskip Hget)
      as [-> _].
    reflexivity. }
  split; [| split; [| split]].
  - intros Hbad. apply Hnull. exact (getSession_invalid t1 t2 t3 request Hbad).
  - intros e Hf He H12 H13 Hdead. apply Hnull.
    rewrite (getSession_num t1 t2 t3 e request data eq_refl Hf He).
    revert Hdead. bounds; cbn [negb andb]; intros; try reflexivity; lia.
  - intros e Hf He Hvalid Hexpired. apply Hnull.
    rewrite (getSession_num t1 t2 t3 e request data eq_refl Hf He).
    bounds; cbn [negb andb]; try reflexivity; lia.
  - intros e Hf He H1 H3 Hfresh.
    assert (Hget : getSession t1 t2 t3 request = Ok data).
    { rewrite (getSession_num t1 t2 t3 e request data eq_refl Hf He).
      revert Hfresh. bounds; cbn [negb andb]; intros; try reflexivity; lia. }
    destruct (getAuthLoaderData_run env t1 t2 t3 now now' request calls data Hskip Hget)
      as [-> _].
    unfold refreshSessionIfNeeded.
    rewrite (valid_fields_truthy _ Hf).
    rewrite (sessionNeedsRefresh_num now e data (valid_fields_truthy _ Hf) He).
    revert Hfresh. bounds; intros; [lia | reflexivity].
Qed.

Lemma auth_loader_without_refresh_witness :
  let host := tableHost (sessionObj demoSession) JNull offline in
  Loader.getAuthLoaderData prodEnv 91400001 91400002 91400003 91400004 91400005
    demoRequest []
    = (Ok {| session := JNull; headers := None |}, []) /\
  Loader.getAuthLoaderData prodEnv 4999999 5000000 5000000 5000001 5000002
    demoRequest []
    = (Ok {| session := JNull; headers := None |}, []) /\
  Loader.getAuthLoaderData prodEnv 1000000 1000001 1000002 1000003 1000004
    demoRequest []
    = (Ok {| session := sessionObj demoSession; headers := None |}, []).
Proof.
  intros host. split; [| split].
  - apply (proj1 (proj2 (auth_loader_without_refresh host prodEnv 91400001 91400002
                           91400003 91400004 91400005 demoRequest [] eq_refl))
             5000000 eq_refl eq_refl);
      unfold COOKIE_CONFIG.SESSION_MAX_AGE; lia.
  - apply (proj1 (proj2 (proj2 (auth_loader_without_refresh host prodEnv 4999999 5000000
                                  5000000 5000001 5000002 demoRequest [] eq_refl)))
             5000000 eq_refl eq_refl); lia.
  - apply (proj2 (proj2 (proj2 (auth_loader_without_refresh host prodEnv 1000000 1000001
                                  1000002 1000003 1000004 demoRequest [] eq_refl)))
             5000000 eq_refl eq_refl);
      unfold COOKIE_CONFIG.REFRESH_WINDOW; lia.
Defined.

(** X18: outside the bypass, a session that has expired at the first clock
    read [t1] of [getSession] and is within the cookie ceiling at the second
    read [t2] is refreshed by the helper, whose own read [now] is not before
    [t1].  With a complete configuration and a success answer that has
    string tokens and a positive [expires_in], the helper returns, after one
    call, a session that is valid at the instant it was built, with the
    header that writes it; the prior refresh token is kept when the answer
    has none. *)
Theorem auth_loader_refreshes_expired_session
    (host : Host) (env : Env) (t1 t2 t3 now now' e n : Z) (request : Request)
    (calls : list FetchCall) (config : Auth0Config) (r : Response)
    (tokens : JsVal) (access id : string) :
  shouldSkipAuth env = false ->
  let data := cookie_parse SessionCookie (req_cookie request) in
  hasValidSessionFields data = true ->
  prop data "expiresAt" = JNum e ->
  e <= t1 -> t2 - COOKIE_CONFIG.SESSION_MAX_AGE * 1000 < e -> t1 <= now ->
  getAuth0Config env request = Ok config ->
  fetch (refresh_request config (prop data "refreshToken")) = FetchResolves r ->
  resp_ok r = true ->
  resp_json r = Some tokens ->
  prop tokens "access_token" = JStr access ->
  prop tokens "id_token" = JStr id ->
  prop tokens "expires_in" = JNum n ->
  0 < n ->
  truthy (js_or (prop tokens "refresh_token") (prop data "refreshToken")) = true ->
  typeof (js_or (prop tokens "refresh_token") (prop data "refreshToken")) = "string" ->
  exists newSession,
    Loader.getAuthLoaderData env t1 t2 t3 now now' request calls
      = (Ok {| session := newSession;
               headers := Some (cookie_serialize SessionCookie newSession None) |},
         (calls ++ [refresh_request config (prop data "refreshToken")])%list) /\
    isValidSession now' newSession = true /\
    prop newSession "accessToken" = JStr access /\
    prop newSession "refreshToken"
      = js_or (prop tokens "refresh_token") (prop data "refreshToken").
Proof.
  intros Hskip data Hf He Hexpired Hbound Hlater Hc Hfetch Hok Hj Ha Hi Hn Hpos Hrt Hrs.
  assert (Hget : getSession t1 t2 t3 request = Ok data).
  { rewrite (getSession_num t1 t2 t3 e request data eq_refl Hf He).
    revert Hexpired Hbound. bounds; cbn [negb andb]; intros; try reflexivity; lia. }
  destruct (getAuthLoaderData_run env t1 t2 t3 now now' request calls data Hskip Hget)
    as [-> _].
  assert (Hdue : sessionNeedsRefresh now data = true).
  { rewrite (sessionNeedsRefresh_num now e data (valid_fields_truthy _ Hf) He).
    revert Hexpired Hlater. bounds; intros; [reflexivity | lia]. }
  assert (Htokens : tokens <> JNull /\ tokens <> JUndefined).
  { split; intros ->; discriminate Ha. }
  destruct Htokens as [Hn1 Hn2].
  rewrite (refresh_run env now now' request data calls (valid_fields_truthy _ Hf) Hdue), Hc.
  cbv zeta. rewrite Hfetch, (read_tokens_ok _ r tokens Hok Hj Hn1 Hn2).
  rewrite (createSessionData_refreshToken now' tokens _ Hn1 Hn2).
  cbv zeta. rewrite Hrt, Ha, Hi, Hn.
  set (newSession := mkSessionData _ _ _ _).
  exists newSession. split; [reflexivity |].
  assert (Hnf : hasValidSessionFields newSession = true).
  { unfold hasValidSessionFields, newSession. simpl. rewrite Hrs. reflexivity. }
  assert (Hne : prop newSession "expiresAt" = JNum (now' + n * 1000)) by reflexivity.
  split; [| split; reflexivity].
  rewrite (isValidSession_num now' _ newSession Hnf Hne).
  revert Hpos. bounds; intros; [reflexivity | lia].
Qed.

Lemma auth_loader_refreshes_expired_session_witness :
  let host := tableHost (sessionObj demoSession) JNull grantingServer in
  exists newSession,
    Loader.getAuthLoaderData prodEnv 5001000 5001001 5001002 5001003 5001004
      demoRequest []
      = (Ok {| session := newSession;
               headers := Some (cookie_serialize SessionCookie newSession None) |},
         [refresh_request demoConfig (JStr "r")]) /\
    prop newSession "refreshToken" = JStr "r".
Proof.
  intros host.
  destruct (auth_loader_refreshes_expired_session host prodEnv 5001000 5001001 5001002
              5001003 5001004 5000000 3600 demoRequest [] demoConfig grantedResponse
              tokensWithoutRefreshToken "a2" "i2"
              eq_refl eq_refl eq_refl) as [newSession [Hrun [_ [_ Hrt]]]];
    try reflexivity; try (unfold COOKIE_CONFIG.SESSION_MAX_AGE; lia).
  exists newSession. split; [exact Hrun | exact Hrt].
Defined.

Lemma auth_loader_never_throws_witness :
  let host := tableHost (sessionObj demoSession) JNull offline in
  Loader.getAuthLoaderData demoEnv 0 0 0 0 0 demoRequest []
    = (Ok {| session := createDevSession 0; headers := None |}, []).
Proof.
  intros host.
  destruct (auth_loader_never_throws host demoEnv 0 0 0 0 0 demoRequest [])
    as [_ [_ Hdev]].
  apply Hdev. reflexivity.
Defined.

(** ** Tokens *)

Section TokenFacts.
Context {host : Host}.

(** What is known of a token from which [parseJwt] reads claims. *)
Lemma parseJwt_claims_inv (token : string) (claims : JsVal) :
  parseJwt token = Ok claims ->
  claims <> JNull ->
  exists headerText header payload binary jsonPayload,
    atob (hd "" (split_on "." token)) = Some headerText /\
    JSON_parse headerText = Some header /\
    get_prop header "enc" = Ok (prop header "enc") /\
    truthy (prop header "enc") = false /\
    split_on "." token !! 1%nat = Some payload /\ payload <> "" /\
    atob (base64url_to_base64 payload) = Some binary /\
    decodeURIComponent (percent_encode_all binary) = Some jsonPayload /\
    JSON_parse jsonPayload = Some claims.
Proof.
  unfold parseJwt, mbind, Result_bind. intros Hparse Hne.
  assert (Hnull : Ok JNull = Ok claims -> False).
  { intros Heq. injection Heq as <-. contradiction. }
  destruct (atob (hd "" (split_on "." token))) as [headerText |] eqn:Hh;
    cbn [of_option rbind rcatch] in Hparse; [| destruct (Hnull Hparse)].
  destruct (JSON_parse headerText) as [header |] eqn:Hj;
    cbn [of_option rbind rcatch] in Hparse; [| destruct (Hnull Hparse)].
  assert (Hread : get_prop header "enc" = Throw TypeError \/
                  get_prop header "enc" = Ok (prop header "enc")).
  { destruct header; simpl; auto. }
  destruct Hread as [Hread | Hread]; rewrite Hread in Hparse;
    cbn [rbind rcatch] in Hparse; [destruct (Hnull Hparse) |].
  destruct (truthy (prop header "enc")) eqn:Henc;
    cbn [rbind rcatch] in Hparse; [destruct (Hnull Hparse) |].
  destruct (split_on "." token !! 1%nat) as [payload |] eqn:Hp;
    cbn [missing default] in Hparse; [| destruct (Hnull Hparse)].
  destruct (String.eqb_spec payload "") as [-> | Hpne]; [destruct (Hnull Hparse) |].
  cbn [id] in Hparse.
  destruct (atob (base64url_to_base64 payload)) as [binary |] eqn:Hb;
    cbn [of_option rbind rcatch] in Hparse; [| destruct (Hnull Hparse)].
  destruct (decodeURIComponent (percent_encode_all binary)) as [jsonPayload |] eqn:Hd;
    cbn [of_option rbind rcatch] in Hparse; [| destruct (Hnull Hparse)].
  destruct (JSON_parse jsonPayload) as [claims' |] eqn:Hc;
    cbn [of_option rbind rcatch] in Hparse; [| destruct (Hnull Hparse)].
  injection Hparse as <-.
  exists headerText, header, payload, binary, jsonPayload.
  repeat split; assumption.
Qed.

Lemma parseJwt_total (token : string) : exists claims, parseJwt token = Ok claims.
Proof.
  destruct (parseJwt_run token)
    as [Hnull | (h & hv & p & b & j & claims & _ & _ & _ & _ & _ & _ & _ & _ & Hok)];
    eauto.
Qed.

(** The second segment decoded, as [getUserFromJwt] and [decodeJwt] do. *)
Lemma getUserFromJwt_run (token payload : string) :
  split_on "." token !! 1%nat = Some payload -> payload <> "" ->
  JwtUtils.getUserFromJwt token =
    Ok match atob (base64url_to_base64 payload) with
       | None => JNull
       | Some binary =>
           match decodeURIComponent (percent_encode_all binary) with
           | None => JNull
           | Some jsonPayload => default JNull (JSON_parse jsonPayload)
           end
       end.
Proof.
  intros Hp Hne. unfold JwtUtils.getUserFromJwt, mbind, Result_bind.
  rewrite Hp. cbn [missing default]. apply String.eqb_neq in Hne. rewrite Hne.
  cbn [id].
  destruct (atob (base64url_to_base64 payload)) as [binary |];
    cbn [of_option rbind rcatch]; [| reflexivity].
  destruct (decodeURIComponent (percent_encode_all binary)) as [jsonPayload |];
    cbn [of_option rbind rcatch]; [| reflexivity].
  destruct (JSON_parse jsonPayload); reflexivity.
Qed.

Lemma token_checks_run (now : Z) (token : string) (claims : JsVal) :
  parseJwt token = Ok claims ->
  JwtUtils.needsRefresh now token =
    Ok (if truthy (opt_prop claims "exp") then
          num_ge (JNum (now + JwtUtils.REFRESH_WINDOW_MS))
                 (num_mul (prop claims "exp") (JNum 1000))
        else false) /\
  JwtUtils.getTokenExpirationTime token =
    Ok (if truthy (opt_prop claims "exp") then num_mul (prop claims "exp") (JNum 1000)
        else JNull).
Proof.
  intros Hparse. unfold JwtUtils.needsRefresh, JwtUtils.getTokenExpirationTime.
  rewrite Hparse. simpl.
  destruct (truthy (opt_prop claims "exp")); split; reflexivity.
Qed.

End TokenFacts.

(** X19: [getUserFromJwt] never throws and returns the claims [parseJwt]
    returns whenever [parseJwt] returns claims; unlike [parseJwt] it reads
    the second segment only, so two tokens with the same second segment get
    the same answer, whatever their header. *)
Theorem getUserFromJwt_extends_parseJwt (host : Host) (token : string) :
  (exists v, JwtUtils.getUserFromJwt token = Ok v) /\
  (forall claims, parseJwt token = Ok claims -> claims <> JNull ->
     JwtUtils.getUserFromJwt token = Ok claims) /\
  (forall other, split_on "." other !! 1%nat = split_on "." token !! 1%nat ->
     JwtUtils.getUserFromJwt other = JwtUtils.getUserFromJwt token).
Proof.
  repeat apply conj.
  - destruct (split_on "." token !! 1%nat) as [payload |] eqn:Hp.
    + destruct (String.eqb_spec payload "") as [-> | Hne].
      * unfold JwtUtils.getUserFromJwt. rewrite Hp. eexists. reflexivity.
      * rewrite (getUserFromJwt_run token payload Hp Hne). eexists. reflexivity.
    + unfold JwtUtils.getUserFromJwt. rewrite Hp. eexists. reflexivity.
  - intros claims Hparse Hne.
    destruct (parseJwt_claims_inv token claims Hparse Hne)
      as (h & hv & p & b & j & _ & _ & _ & _ & Hp & Hpne & Hb & Hd & Hc).
    rewrite (getUserFromJwt_run token p Hp Hpne), Hb, Hd, Hc. reflexivity.
  - intros other Hsame. unfold JwtUtils.getUserFromJwt. rewrite Hsame. reflexivity.
Qed.

(** X20: the decoder of the Header component gives the same answer as
    [getUserFromJwt] on every token, except possibly one whose second
    segment is empty, for which [getUserFromJwt] answers [null] at once. *)
Theorem header_decodeJwt_agrees (host : Host) (token : string) :
  split_on "." token !! 1%nat <> Some "" ->
  Header.decodeJwt token = JwtUtils.getUserFromJwt token.
Proof.
  intros Hnonempty.
  destruct (split_on "." token !! 1%nat) as [payload |] eqn:Hp.
  - assert (Hne : payload <> "") by (intros ->; contradiction).
    rewrite (getUserFromJwt_run token payload Hp Hne).
    unfold Header.decodeJwt, mbind, Result_bind. rewrite Hp.
    cbn [of_option rbind rcatch].
    destruct (atob (base64url_to_base64 payload)) as [binary |];
      cbn [of_option rbind rcatch]; [| reflexivity].
    destruct (decodeURIComponent (percent_encode_all binary)) as [jsonPayload |];
      cbn [of_option rbind rcatch]; [| reflexivity].
    destruct (JSON_parse jsonPayload); reflexivity.
  - unfold Header.decodeJwt, JwtUtils.getUserFromJwt. rewrite Hp. reflexivity.
Qed.

Lemma header_decodeJwt_agrees_witness :
  let host := tableHost JNull JNull offline in
  Header.decodeJwt "not-a-jwt" = JwtUtils.getUserFromJwt "not-a-jwt".
Proof.
  intros host. apply (header_decodeJwt_agrees host "not-a-jwt"). discriminate.
Defined.

Lemma getUserFromJwt_extends_parseJwt_witness :
  let host := codecHost demoClaims in
  JwtUtils.getUserFromJwt "H.P.sig" = Ok demoClaims.
Proof.
  intros host.
  destruct (getUserFromJwt_extends_parseJwt host "H.P.sig") as [_ [Hsame _]].
  apply Hsame; [reflexivity | discriminate].
Defined.

Section TokenCheckFacts.
Context {host : Host}.

Lemma three_parts_nonempty (token : string) :
  length (split_on "." token) = 3%nat -> String.eqb token "" = false.
Proof. destruct token; [discriminate | reflexivity]. Qed.

(** [isValidToken] on a token with three segments, by its header. *)
Lemma isValidToken_run (now : Z) (token : string) :
  length (split_on "." token) = 3%nat ->
  JwtUtils.isValidToken now token =
    match atob (hd "" (split_on "." token)) with
    | None => Ok false
    | Some headerText =>
        match JSON_parse headerText with
        | None | Some JNull | Some JUndefined => Ok false
        | Some header =>
            if truthy (prop header "enc") then Ok true
            else
              claims ← parseJwt token;
              if negb (truthy (opt_prop claims "exp")) then Ok false
              else Ok (num_lt (JNum now) (num_mul (prop claims "exp") (JNum 1000)))
        end
    end.
Proof.
  intros Hlen. unfold JwtUtils.isValidToken.
  rewrite (three_parts_nonempty token Hlen), Hlen. cbn [Nat.eqb negb].
  unfold mbind, Result_bind.
  destruct (atob (hd "" (split_on "." token))) as [headerText |];
    cbn [of_option rbind rcatch]; [| reflexivity].
  destruct (JSON_parse headerText) as [header |];
    cbn [of_option rbind rcatch]; [| reflexivity].
  destruct header; cbn [get_prop rbind rcatch]; try reflexivity;
    match goal with
    | |- context [truthy ?v] => destruct (truthy v); reflexivity
    end.
Qed.

End TokenCheckFacts.

(** X21: [isValidToken] never throws.  It answers [true] only for a token of
    exactly three segments whose header decodes, and then either the header
    has [enc] (an encrypted token counts as valid at any instant, its payload
    unread) or [parseJwt] reads claims with an [exp] that lies after [now]. *)
Theorem isValidToken_shape (host : Host) (now : Z) (token : string) :
  (exists b, JwtUtils.isValidToken now token = Ok b) /\
  (JwtUtils.isValidToken now token = Ok true ->
     length (split_on "." token) = 3%nat /\
     exists headerText header,
       atob (hd "" (split_on "." token)) = Some headerText /\
       JSON_parse headerText = Some header /\
       (truthy (prop header "enc") = true \/
        exists claims,
          parseJwt token = Ok claims /\
          truthy (prop claims "exp") = true /\
          num_lt (JNum now) (num_mul (prop claims "exp") (JNum 1000)) = true)) /\
  (forall headerText header,
     length (split_on "." token) = 3%nat ->
     atob (hd "" (split_on "." token)) = Some headerText ->
     JSON_parse headerText = Some header ->
     truthy (prop header "enc") = true ->
     JwtUtils.isValidToken now token = Ok true).
Proof.
  assert (Hshort : length (split_on "." token) <> 3%nat ->
                   JwtUtils.isValidToken now token = Ok false).
  { intros Hlen. unfold JwtUtils.isValidToken.
    destruct (String.eqb token ""); [reflexivity |].
    apply Nat.eqb_neq in Hlen. rewrite Hlen. reflexivity. }
  destruct (parseJwt_total token) as [claims Hparse].
  split; [| split].
  - (* it returns *)
    destruct (Nat.eq_dec (length (split_on "." token)) 3%nat) as [Hlen | Hlen];
      [| rewrite (Hshort Hlen); eauto].
    rewrite (isValidToken_run now token Hlen), Hparse.
    destruct (atob (hd "" (split_on "." token))) as [headerText |]; [| eauto].
    destruct (JSON_parse headerText) as [header |]; [| eauto].
    destruct header; eauto;
      match goal with
      | |- context [truthy ?v] => destruct (truthy v); eauto
      end;
      cbn [mbind Result_bind rbind];
      destruct (truthy (opt_prop claims "exp")); eauto.
  - (* what a valid token is *)
    intros Hvalid.
    destruct (Nat.eq_dec (length (split_on "." token)) 3%nat) as [Hlen | Hlen];
      [| rewrite (Hshort Hlen) in Hvalid; discriminate].
    split; [exact Hlen |].
    rewrite (isValidToken_run now token Hlen), Hparse in Hvalid.
    destruct (atob (hd "" (split_on "." token))) as [headerText |] eqn:Hh;
      [| discriminate].
    destruct (JSON_parse headerText) as [header |] eqn:Hj; [| discriminate].
    exists headerText, header. split; [reflexivity | split; [exact Hj |]].
    assert (Hrest : (if truthy (prop header "enc") then Ok true
                     else if negb (truthy (opt_prop claims "exp")) then Ok false
                          else Ok (num_lt (JNum now)
                                     (num_mul (prop claims "exp") (JNum 1000))))
                    = Ok true).
    { destruct header; try discriminate Hvalid; exact Hvalid. }
    destruct (truthy (prop header "enc")); [left; reflexivity | right].
    exists claims. split; [exact Hparse |].
    destruct (truthy (opt_prop claims "exp")) eqn:Hexp; [| discriminate].
    cbn [negb] in Hrest. injection Hrest as Hrest.
    split; [| exact Hrest].
    destruct claims; try discriminate Hexp; exact Hexp.
  - (* encrypted tokens *)
    intros headerText header Hlen Hh Hj Henc.
    rewrite (isValidToken_run now token Hlen), Hh, Hj.
    destruct header; try discriminate Henc; rewrite Henc; reflexivity.
Qed.

Lemma isValidToken_shape_witness :
  let host := codecHost demoClaims in
  length (split_on "." "H.P.sig") = 3%nat.
Proof.
  intros host.
  apply (isValidToken_shape host 4999999 "H.P.sig"). reflexivity.
Defined.

(** X22: for a token of three segments from which [parseJwt] reads claims
    with a numeric, non-zero [exp], the three checks are comparisons with
    [exp * 1000]: the token is valid while [now] is before it, it needs
    refresh from 5 minutes before it on, and that instant is its expiration
    time (as long as [exp * 1000] is a safe integer, for which the product
    of JavaScript is exact).  Hence a token that is no longer valid needs
    refresh, and one that needs no refresh is valid. *)
Theorem token_checks_agree
    (host : Host) (now exp : Z) (token : string) (claims : JsVal) :
  length (split_on "." token) = 3%nat ->
  parseJwt token = Ok claims ->
  prop claims "exp" = JNum exp ->
  exp <> 0 ->
  JwtUtils.isValidToken now token = Ok (now <? exp * 1000) /\
  JwtUtils.needsRefresh now token = Ok (now + 5 * 60 * 1000 >=? exp * 1000) /\
  (isSafeInteger (exp * 1000) = true ->
     JwtUtils.getTokenExpirationTime token = Ok (JNum (exp * 1000))) /\
  (JwtUtils.isValidToken now token = Ok false ->
     JwtUtils.needsRefresh now token = Ok true) /\
  (JwtUtils.needsRefresh now token = Ok false ->
     JwtUtils.isValidToken now token = Ok true).
Proof.
  intros Hlen Hparse Hexp Hnz.
  assert (Hne : claims <> JNull) by (intros ->; discriminate Hexp).
  assert (Htruthy : truthy (opt_prop claims "exp") = true).
  { destruct claims; try discriminate Hexp. simpl in *. rewrite Hexp. simpl.
    apply Z.eqb_neq in Hnz. rewrite Hnz. reflexivity. }
  destruct (parseJwt_claims_inv token claims Hparse Hne)
    as (h & hv & p & b & j & Hh & Hj & Hread & Henc & _).
  assert (Hvalid : JwtUtils.isValidToken now token = Ok (now <? exp * 1000)).
  { rewrite (isValidToken_run now token Hlen), Hh, Hj, Hparse.
    destruct hv; try discriminate Hread; rewrite Henc;
      cbn [mbind Result_bind rbind]; rewrite Htruthy, Hexp; reflexivity. }
  destruct (token_checks_run now token claims Hparse) as [Hneeds Htime].
  rewrite Htruthy, Hexp in Hneeds, Htime.
  assert (Hneeds' : JwtUtils.needsRefresh now token
                    = Ok (now + 5 * 60 * 1000 >=? exp * 1000)) by exact Hneeds.
  rewrite Hvalid, Hneeds'.
  split; [reflexivity | split; [reflexivity | split; [intros _; exact Htime | split]]].
  - intros H. injection H as H. f_equal. lia.
  - intros H. injection H as H. f_equal. lia.
Qed.

Lemma token_checks_agree_witness :
  let host := codecHost demoClaims in
  JwtUtils.isValidToken 4999999 "H.P.sig" = Ok true /\
  JwtUtils.needsRefresh 4999999 "H.P.sig" = Ok true /\
  JwtUtils.getTokenExpirationTime "H.P.sig" = Ok (JNum 5000000).
Proof.
  intros host.
  destruct (token_checks_agree host 4999999 5000 "H.P.sig" demoClaims
              eq_refl eq_refl eq_refl) as [Hv [Hn [Ht _]]]; [discriminate |].
  repeat apply conj; [exact Hv | exact Hn | exact (Ht eq_refl)].
Defined.

(** X23: a token from which no expiry can be read (its claims do not decode,
    or they have no [exp], or [exp] is 0) is reported as not needing refresh
    and as having no expiration time; [isValidToken] accepts it only when its
    header has [enc]. *)
Theorem token_without_expiry
    (host : Host) (now : Z) (token : string) (claims : JsVal) :
  parseJwt token = Ok claims ->
  truthy (opt_prop claims "exp") = false ->
  JwtUtils.needsRefresh now token = Ok false /\
  JwtUtils.getTokenExpirationTime token = Ok JNull /\
  (JwtUtils.isValidToken now token = Ok true ->
     exists headerText header,
       atob (hd "" (split_on "." token)) = Some headerText /\
       JSON_parse headerText = Some header /\
       truthy (prop header "enc") = true).
Proof.
  intros Hparse Hexp.
  destruct (token_checks_run now token claims Hparse) as [Hneeds Htime].
  rewrite Hexp in Hneeds, Htime.
  split; [exact Hneeds | split; [exact Htime |]].
  intros Hvalid.
  assert (Hlen : length (split_on "." token) = 3%nat).
  { destruct (Nat.eq_dec (length (split_on "." token)) 3%nat) as [Hlen | Hlen];
      [exact Hlen |].
    unfold JwtUtils.isValidToken in Hvalid.
    destruct (String.eqb token ""); [discriminate |].
    apply Nat.eqb_neq in Hlen. rewrite Hlen in Hvalid. discriminate. }
  rewrite (isValidToken_run now token Hlen), Hparse in Hvalid.
  destruct (atob (hd "" (split_on "." token))) as [headerText |] eqn:Hh;
    [| discriminate].
  destruct (JSON_parse headerText) as [header |] eqn:Hj; [| discriminate].
  exists headerText, header. split; [reflexivity | split; [exact Hj |]].
  assert (Hrest : (if truthy (prop header "enc") then Ok true
                   else if negb (truthy (opt_prop claims "exp")) then Ok false
                        else Ok (num_lt (JNum now)
                                   (num_mul (prop claims "exp") (JNum 1000))))
                  = Ok true).
  { destruct header; try discriminate Hvalid; exact Hvalid. }
  rewrite Hexp in Hrest.
  destruct (truthy (prop header "enc")); [reflexivity | discriminate].
Qed.

Lemma token_without_expiry_witness :
  let host := codecHost (JObj [ ("sub", JStr "auth0|1"); ("exp", JNum 0) ]) in
  JwtUtils.needsRefresh 4999999 "H.P.sig" = Ok false /\
  JwtUtils.getTokenExpirationTime "H.P.sig" = Ok JNull.
Proof.
  intros host.
  destruct (token_without_expiry host 4999999 "H.P.sig"
              (JObj [ ("sub", JStr "auth0|1"); ("exp", JNum 0) ]) eq_refl eq_refl)
    as [Hn [Ht _]].
  split; assumption.
Defined.

(** X24: the refresh window of the token check and the one of the session
    check are the same: for a session whose [expiresAt] is the [exp] of its
    token in milliseconds, [sessionNeedsRefresh] and the [needsRefresh] of
    [jwt.ts] give the same answer when [exp] is not 0.  For [exp = 0] they
    differ: [needsRefresh] takes the token to have no expiry and answers
    [false], while [sessionNeedsRefresh] answers [true] from 5 minutes
    before the instant 0 on. *)
Theorem token_and_session_windows_agree
    (host : Host) (now exp : Z) (token : string) (claims session : JsVal) :
  parseJwt token = Ok claims ->
  prop claims "exp" = JNum exp ->
  truthy session = true ->
  prop session "expiresAt" = JNum (exp * 1000) ->
  JwtUtils.REFRESH_WINDOW_MS = COOKIE_CONFIG.REFRESH_WINDOW /\
  (exp <> 0 ->
     JwtUtils.needsRefresh now token = Ok (sessionNeedsRefresh now session)) /\
  (exp = 0 ->
     JwtUtils.needsRefresh now token = Ok false /\
     (sessionNeedsRefresh now session = true <-> - COOKIE_CONFIG.REFRESH_WINDOW <= now)).
Proof.
  intros Hparse Hexp Ht He.
  destruct (token_checks_run now token claims Hparse) as [Hneeds _].
  assert (Hopt : opt_prop claims "exp" = JNum exp).
  { destruct claims; try discriminate Hexp. exact Hexp. }
  rewrite Hopt, Hexp in Hneeds. rewrite Hneeds.
  rewrite (sessionNeedsRefresh_num now (exp * 1000) session Ht He).
  split; [reflexivity | split].
  - intros Hnz. cbn [truthy]. apply Z.eqb_neq in Hnz. rewrite Hnz. cbn [negb].
    f_equal. unfold num_ge, num_mul, JwtUtils.REFRESH_WINDOW_MS. simpl.
    unfold COOKIE_CONFIG.REFRESH_WINDOW. lia.
  - intros ->. split; [reflexivity |].
    bounds; split; intros; try reflexivity; try lia; discriminate.
Qed.

Lemma token_and_session_windows_agree_witness :
  let host := codecHost demoClaims in
  JwtUtils.needsRefresh 4999999 "H.P.sig"
    = Ok (sessionNeedsRefresh 4999999 (sessionObj demoSession)).
Proof.
  intros host.
  apply (token_and_session_windows_agree host 4999999 5000 "H.P.sig" demoClaims
           (sessionObj demoSession) eq_refl eq_refl eq_refl eq_refl).
  discriminate.
Defined.

(** ** The development bypass *)

(** X25: the flag decides when it is set to one of its two values:
    [SKIP_AUTH = "true"] turns the bypass on and [SKIP_AUTH = "false"] turns
    it off, in every mode; with any other value, or none, the bypass is on
    exactly in development mode.  Mode and flag are read from
    [import.meta.env] alone when that object exists: [process.env] is then
    never consulted. *)
Theorem skip_auth_flag_decides (env : Env) :
  (getEnv env "SKIP_AUTH" = Some "true" -> shouldSkipAuth env = true) /\
  (getEnv env "SKIP_AUTH" = Some "false" -> shouldSkipAuth env = false) /\
  (getEnv env "SKIP_AUTH" <> Some "true" -> getEnv env "SKIP_AUTH" <> Some "false" ->
     shouldSkipAuth env = String.eqb (getMode env) "development") /\
  (forall e other,
     import_meta_env env = Some e ->
     shouldSkipAuth {| import_meta_env := Some e; process_env := other |}
     = shouldSkipAuth env).
Proof.
  unfold shouldSkipAuth. repeat apply conj.
  - intros ->. simpl. destruct (String.eqb (getMode env) "development"); reflexivity.
  - intros ->. simpl. destruct (String.eqb (getMode env) "development"); reflexivity.
  - intros Htrue Hfalse.
    destruct (getEnv env "SKIP_AUTH") as [v |]; simpl.
    + destruct (String.eqb_spec v "false") as [-> | _]; [contradiction |].
      destruct (String.eqb_spec v "true") as [-> | _]; [contradiction |].
      destruct (String.eqb (getMode env) "development"); reflexivity.
    + destruct (String.eqb (getMode env) "development"); reflexivity.
  - intros e other He. unfold getMode, getEnv. rewrite He. reflexivity.
Qed.

Lemma skip_auth_flag_decides_witness :
  let env := {| import_meta_env := Some (<["SKIP_AUTH" := "true"]> (<["MODE" := "production"]> ∅));
                process_env := Some (<["SKIP_AUTH" := "false"]> ∅) |} in
  shouldSkipAuth env = true.
Proof.
  intros env.
  apply (skip_auth_flag_decides env). reflexivity.
Defined.

Section SplitFacts.

Lemma split_on_nonempty (sep : ascii) (s : string) : split_on sep s <> [].
Proof.
  destruct s as [| c s]; simpl; [discriminate |].
  destruct (Ascii.eqb c sep); [discriminate |].
  destruct (split_on sep s); discriminate.
Qed.

(** A text without the separator, followed by the separator: the text is
    the first part. *)
Lemma split_on_first (sep : ascii) (a rest : string) :
  split_on sep a = [a] ->
  split_on sep (a +:+ String sep rest) = a :: split_on sep rest.
Proof.
  induction a as [| c a IH]; intros Hone.
  - simpl. rewrite Ascii.eqb_refl. reflexivity.
  - simpl in Hone. simpl.
    destruct (Ascii.eqb c sep); [discriminate |].
    destruct (split_on sep a) as [| p ps] eqn:Hparts.
    + destruct (split_on_nonempty sep a Hparts).
    + injection Hone as Hp Hps. subst p ps.
      rewrite (IH eq_refl). reflexivity.
Qed.

End SplitFacts.

(** X26: the id token of the mock session is read by the decoders of the
    package.  On a host whose [atob] undoes [btoa] and whose [JSON.parse]
    undoes [JSON.stringify] for the header and the claims of the mock token
    (base64 text having no dot), [parseJwt] and [getUserFromJwt] return its
    claims, with [sub = "dev|123456789"]; the token is valid, needs no
    refresh, and expires 365 days after the second [now] falls in ([now]
    not being before 1970). *)
Theorem dev_token_decodes (host : Host) (now : Z) :
  let header := JObj [ ("alg", JStr "none"); ("typ", JStr "JWT") ] in
  let claims :=
    JObj [ ("sub", JStr "dev|123456789");
           ("name", JStr "Dev User");
           ("nickname", JStr "devuser");
           ("picture", JStr mock_picture);
           ("email", JStr "dev@example.com");
           ("email_verified", JBool true);
           ("iat", JNum (now / 1000));
           ("exp", JNum (now / 1000 + 365 * 24 * 60 * 60)) ] in
  let h := btoa (JSON_stringify header) in
  let p := btoa (JSON_stringify claims) in
  split_on "." h = [h] ->
  split_on "." p = [p] ->
  p <> "" ->
  atob h = Some (JSON_stringify header) ->
  JSON_parse (JSON_stringify header) = Some header ->
  atob (base64url_to_base64 p) = Some (JSON_stringify claims) ->
  decodeURIComponent (percent_encode_all (JSON_stringify claims))
    = Some (JSON_stringify claims) ->
  JSON_parse (JSON_stringify claims) = Some claims ->
  0 <= now ->
  let token := createMockJwt now in
  prop (createDevSession now) "idToken" = JStr token /\
  parseJwt token = Ok claims /\
  JwtUtils.getUserFromJwt token = Ok claims /\
  prop claims "sub" = JStr "dev|123456789" /\
  JwtUtils.isValidToken now token = Ok true /\
  JwtUtils.needsRefresh now token = Ok false /\
  JwtUtils.getTokenExpirationTime token
    = Ok (JNum ((now / 1000 + 365 * 24 * 60 * 60) * 1000)).
Proof.
  intros header claims h p Hh Hp Hpne Hatob Hparse Hatob' Hdecode Hparse' Hnow token.
  assert (Hparts : split_on "." token = [h; p; "mock-signature"]).
  { unfold token, createMockJwt. fold header claims. fold h p.
    change (h +:+ "." +:+ p +:+ ".mock-signature")
      with (h +:+ String "." (p +:+ String "." "mock-signature")).
    rewrite (split_on_first "." h _ Hh), (split_on_first "." p _ Hp). reflexivity. }
  assert (Hclaims : parseJwt token = Ok claims).
  { unfold parseJwt, mbind, Result_bind. rewrite Hparts.
    cbn [hd]. rewrite Hatob. cbn [of_option rbind].
    rewrite Hparse. cbn [of_option rbind get_prop prop assoc header String.eqb Ascii.eqb Bool.eqb truthy].
    change ([h; p; "mock-signature"] !! 1%nat) with (Some p).
    cbn [missing default id]. apply String.eqb_neq in Hpne. rewrite Hpne.
    rewrite Hatob'. cbn [of_option rbind]. rewrite Hdecode. cbn [of_option rbind].
    rewrite Hparse'. reflexivity. }
  assert (Hexp : prop claims "exp" = JNum (now / 1000 + 365 * 24 * 60 * 60))
    by reflexivity.
  assert (Hnz : now / 1000 + 365 * 24 * 60 * 60 <> 0).
  { pose proof (Z.div_pos now 1000 Hnow ltac:(lia)). lia. }
  assert (Hfloor : now / 1000 * 1000 <= now < now / 1000 * 1000 + 1000).
  { pose proof (Z.div_mod now 1000 ltac:(lia)).
    pose proof (Z.mod_pos_bound now 1000 ltac:(lia)). lia. }
  assert (Hlen : length (split_on "." token) = 3%nat) by (rewrite Hparts; reflexivity).
  assert (Hne : claims <> JNull) by discriminate.
  destruct (parseJwt_claims_inv token claims Hclaims Hne)
    as (ht & hv & pp & b & j & Hh' & Hj' & Hread & Henc & Hpp & Hppne & Hb & Hd & Hc).
  split; [reflexivity |].
  split; [exact Hclaims |].
  split.
  { rewrite (getUserFromJwt_run token pp Hpp Hppne), Hb, Hd, Hc. reflexivity. }
  split; [reflexivity |].
  destruct (token_checks_run now token claims Hclaims) as [Hneeds Htime].
  assert (Htruthy : truthy (opt_prop claims "exp") = true).
  { unfold opt_prop, claims. cbn [prop assoc String.eqb Ascii.eqb Bool.eqb truthy].
    apply Z.eqb_neq in Hnz. rewrite Hnz. reflexivity. }
  rewrite Htruthy, Hexp in Hneeds, Htime.
  repeat apply conj.
  - rewrite (isValidToken_run now token Hlen), Hh', Hj', Hclaims.
    destruct hv; try discriminate Hread; rewrite Henc;
      cbn [mbind Result_bind rbind]; rewrite Htruthy, Hexp;
      cbn [negb num_lt num_mul toNumber]; f_equal; lia.
  - rewrite Hneeds. unfold num_ge, num_mul, JwtUtils.REFRESH_WINDOW_MS.
    cbn [toNumber]. f_equal. lia.
  - exact Htime.
Qed.

Lemma dev_token_decodes_witness :
  let claims :=
    JObj [ ("sub", JStr "dev|123456789");
           ("name", JStr "Dev User");
           ("nickname", JStr "devuser");
           ("picture", JStr mock_picture);
           ("email", JStr "dev@example.com");
           ("email_verified", JBool true);
           ("iat", JNum (1700000000000 / 1000));
           ("exp", JNum (1700000000000 / 1000 + 365 * 24 * 60 * 60)) ] in
  let host := codecHost claims in
  parseJwt (createMockJwt 1700000000000) = Ok claims /\
  JwtUtils.isValidToken 1700000000000 (createMockJwt 1700000000000) = Ok true.
Proof.
  intros claims host.
  destruct (dev_token_decodes host 1700000000000) as (_ & Hparse & _ & _ & Hvalid & _);
    try reflexivity; try discriminate.
  split; [exact Hparse | exact Hvalid].
Defined.

(** ** The script that writes the route files *)

Section SetupFacts.
Import SetupRoutes.

Lemma append_neq (a s : string) : s <> "" -> a +:+ s <> a.
Proof.
  intros Hs. induction a as [| c a IH]; simpl; [exact Hs |].
  intros H. injection H as H. exact (IH H).
Qed.

Lemma append_assoc (a b c : string) : (a +:+ b) +:+ c = a +:+ (b +:+ c).
Proof.
  induction a as [| x a IH]; [reflexivity |].
  change (String x ((a +:+ b) +:+ c) = String x (a +:+ (b +:+ c))).
  f_equal. exact IH.
Qed.

Lemma append_inj (a x y : string) : a +:+ x = a +:+ y -> x = y.
Proof.
  induction a as [| c a IH]; simpl; [auto |].
  intros H. injection H as H. exact (IH H).
Qed.

Lemma join_inj (dir a b : string) : join dir a = join dir b -> a = b.
Proof.
  unfold join. intros H. apply append_inj in H. simpl in H.
  injection H as H. exact H.
Qed.

(** A route path is neither the [app] nor the routes directory. *)
Lemma route_path_fresh (cwd name : string) :
  join (ROUTES_DIR cwd) name <> ROUTES_DIR cwd /\
  join (ROUTES_DIR cwd) name <> join cwd "app".
Proof.
  split.
  - unfold join at 1. apply append_neq. discriminate.
  - unfold ROUTES_DIR. unfold join at 1 2. rewrite append_assoc.
    apply append_neq. discriminate.
Qed.

Lemma isFile_false (fs : FileSystem) (path : string) :
  existsSync fs path = false -> files fs !! path = None.
Proof.
  unfold existsSync, isFile. intros H. apply orb_false_iff in H as [_ H].
  apply bool_decide_eq_false in H.
  destruct (files fs !! path) eqn:Hl; [| reflexivity].
  exfalso. apply H. eauto.
Qed.

Lemma write_route_step (cwd : string) (fs : FileSystem) (count : Summary)
    (name content : string) :
  ROUTES_DIR cwd ∈ dirs fs ->
  write_route cwd (Ok (fs, count)) (name, content) =
    if existsSync fs (join (ROUTES_DIR cwd) name) then
      Ok (fs, {| created := created count; skipped := S (skipped count) |})
    else
      Ok ({| dirs := dirs fs;
             files := <[ join (ROUTES_DIR cwd) name := content ]> (files fs) |},
          {| created := S (created count); skipped := skipped count |}).
Proof.
  intros Hdir. unfold write_route, writeFileSync. cbn [mbind Result_bind rbind].
  destruct (existsSync fs (join (ROUTES_DIR cwd) name)); [reflexivity |].
  rewrite (bool_decide_eq_true_2 _ Hdir). reflexivity.
Qed.

(** What a run over any list of entries keeps and makes. *)
Lemma write_routes_spec (cwd : string) (entries : list (string * string)) :
  forall (fs : FileSystem) (count : Summary),
    ROUTES_DIR cwd ∈ dirs fs ->
    exists fs' count',
      fold_left (write_route cwd) entries (Ok (fs, count)) = Ok (fs', count') /\
      dirs fs' = dirs fs /\
      (forall path, existsSync fs path = true -> files fs' !! path = files fs !! path) /\
      (forall path content, files fs' !! path = Some content ->
         files fs !! path = Some content \/
         exists name, In (name, content) entries /\ path = join (ROUTES_DIR cwd) name) /\
      (forall name content, In (name, content) entries ->
         existsSync fs' (join (ROUTES_DIR cwd) name) = true) /\
      (created count' + skipped count' = created count + skipped count + length entries)%nat /\
      ((forall name content, In (name, content) entries ->
          existsSync fs (join (ROUTES_DIR cwd) name) = true) ->
       fs' = fs /\ created count' = created count).
Proof.
  induction entries as [| [name content] entries IH]; intros fs count Hdir.
  - exists fs, count. simpl. repeat split; auto; lia.
  - cbn [fold_left]. rewrite (write_route_step cwd fs count name content Hdir).
    destruct (existsSync fs (join (ROUTES_DIR cwd) name)) eqn:Hexists.
    + destruct (IH fs {| created := created count; skipped := S (skipped count) |} Hdir)
        as (fs' & count' & Hrun & Hdirs & Hkeep & Honly & Hall & Hsum & Hidem).
      exists fs', count'.
      split; [exact Hrun |]. split; [exact Hdirs |]. split; [exact Hkeep |].
      split; [| split; [| split]].
      * intros path c Hc. destruct (Honly path c Hc) as [Hold | [n [Hin Hpath]]];
          [left; exact Hold | right; exists n; split; [right; exact Hin | exact Hpath]].
      * intros n c [Heq | Hin]; [| exact (Hall n c Hin)].
        injection Heq as <- <-.
        unfold existsSync, isFile in *. rewrite Hdirs, (Hkeep _ Hexists). exact Hexists.
      * simpl in *. lia.
      * intros Hthere.
        destruct Hidem as [Hfs Hcreated].
        { intros n c Hin. apply (Hthere n c). right. exact Hin. }
        split; [exact Hfs | exact Hcreated].
    + set (fs1 := {| dirs := dirs fs;
                     files := <[ join (ROUTES_DIR cwd) name := content ]> (files fs) |}).
      destruct (IH fs1 {| created := S (created count); skipped := skipped count |} Hdir)
        as (fs' & count' & Hrun & Hdirs & Hkeep & Honly & Hall & Hsum & Hidem).
      assert (Hgrow : forall path, existsSync fs path = true -> existsSync fs1 path = true).
      { intros path Hp. unfold existsSync, isFile in *. cbn [dirs files fs1].
        apply orb_true_iff in Hp as [Hp | Hp]; [rewrite Hp; reflexivity |].
        apply bool_decide_eq_true in Hp as [c Hc].
        destruct (decide (join (ROUTES_DIR cwd) name = path)) as [<- | Hne].
        - rewrite (isFile_false fs _ Hexists) in Hc. discriminate.
        - rewrite lookup_insert_ne by exact Hne.
          rewrite (bool_decide_eq_true_2 (is_Some (files fs !! path)) (ex_intro _ c Hc)).
          apply orb_true_r. }
      exists fs', count'.
      split; [exact Hrun |]. split; [exact Hdirs |].
      split; [| split; [| split; [| split]]].
      * intros path Hp. rewrite (Hkeep path (Hgrow path Hp)). cbn [files fs1].
        apply lookup_insert_ne. intros <-. rewrite Hexists in Hp. discriminate.
      * intros path c Hc. destruct (Honly path c Hc) as [Hold | [n [Hin Hpath]]].
        -- cbn [files fs1] in Hold.
           destruct (decide (join (ROUTES_DIR cwd) name = path)) as [<- | Hne].
           ++ rewrite lookup_insert_eq in Hold. injection Hold as <-.
              right. exists name. split; [left; reflexivity | reflexivity].
           ++ rewrite lookup_insert_ne in Hold by exact Hne. left. exact Hold.
        -- right. exists n. split; [right; exact Hin | exact Hpath].
      * intros n c [Heq | Hin]; [| exact (Hall n c Hin)].
        injection Heq as <- <-.
        assert (Hnow : existsSync fs1 (join (ROUTES_DIR cwd) name) = true).
        { unfold existsSync, isFile. cbn [files fs1]. rewrite lookup_insert_eq.
          rewrite (bool_decide_eq_true_2 (is_Some (Some content)) (ex_intro _ content eq_refl)).
          apply orb_true_r. }
        unfold existsSync, isFile in *. rewrite Hdirs, (Hkeep _ Hnow). exact Hnow.
      * simpl in *. lia.
      * intros Hthere. exfalso. specialize (Hthere name content (or_introl eq_refl)).
        rewrite Hexists in Hthere. discriminate.
Qed.

(** A route path that was not there holds a file after the run. *)
Lemma write_routes_written (cwd : string) (entries : list (string * string)) :
  forall (fs : FileSystem) (count : Summary) (fs' : FileSystem) (count' : Summary),
    ROUTES_DIR cwd ∈ dirs fs ->
    fold_left (write_route cwd) entries (Ok (fs, count)) = Ok (fs', count') ->
    forall name content, In (name, content) entries ->
      existsSync fs (join (ROUTES_DIR cwd) name) = false ->
      exists c, files fs' !! join (ROUTES_DIR cwd) name = Some c.
Proof.
  induction entries as [| [n0 c0] entries IH];
    intros fs count fs' count' Hdir Hrun name content Hin Hmissing.
  - destruct Hin.
  - cbn [fold_left] in Hrun.
    rewrite (write_route_step cwd fs count n0 c0 Hdir) in Hrun.
    destruct (existsSync fs (join (ROUTES_DIR cwd) n0)) eqn:Hexists.
    + destruct Hin as [Heq | Hin].
      * injection Heq as <- <-. rewrite Hexists in Hmissing. discriminate.
      * exact (IH _ _ fs' count' Hdir Hrun name content Hin Hmissing).
    + set (fs1 := {| dirs := dirs fs;
                     files := <[ join (ROUTES_DIR cwd) n0 := c0 ]> (files fs) |}) in *.
      destruct (decide (join (ROUTES_DIR cwd) n0 = join (ROUTES_DIR cwd) name))
        as [Hsame | Hne].
      * destruct (write_routes_spec cwd entries fs1
                    {| created := S (created count); skipped := skipped count |} Hdir)
          as (fs2 & count2 & Hrun2 & _ & Hkeep & _).
        rewrite Hrun2 in Hrun. injection Hrun as <- <-.
        assert (Hthere : existsSync fs1 (join (ROUTES_DIR cwd) name) = true).
        { unfold existsSync, isFile. cbn [files fs1]. rewrite <- Hsame, lookup_insert_eq.
          rewrite (bool_decide_eq_true_2 (is_Some (Some c0)) (ex_intro _ c0 eq_refl)).
          apply orb_true_r. }
        exists c0. rewrite (Hkeep _ Hthere). cbn [files fs1].
        rewrite <- Hsame. apply lookup_insert_eq.
      * destruct Hin as [Heq | Hin];
          [injection Heq as <- <-; destruct (Hne eq_refl) |].
        apply (IH fs1 _ fs' count' Hdir Hrun name content Hin).
        unfold existsSync, isFile in *. cbn [dirs files fs1].
        rewrite lookup_insert_ne by exact Hne. exact Hmissing.
Qed.

End SetupFacts.

Section SetupRunFacts.
Import SetupRoutes.

(** The file system the route files are written to: the one given, with the
    routes directory made when it was not there. *)
Lemma setup_prepare (cwd : string) (fs : FileSystem) :
  isFile fs (join cwd "app") = false ->
  isFile fs (ROUTES_DIR cwd) = false ->
  exists fs1,
    setup cwd fs = write_routes cwd ROUTE_FILES fs1 /\
    ROUTES_DIR cwd ∈ dirs fs1 /\
    files fs1 = files fs /\
    dirs fs ⊆ dirs fs1 /\
    (forall p, p ∈ dirs fs1 -> p ∈ dirs fs \/ p = join cwd "app" \/ p = ROUTES_DIR cwd).
Proof.
  intros Happ Hroutes. unfold setup.
  destruct (existsSync fs (ROUTES_DIR cwd)) eqn:Hexists; cbn [negb].
  - exists fs. split; [reflexivity | split; [| split; [reflexivity | split]]].
    + unfold existsSync in Hexists. rewrite Hroutes, orb_false_r in Hexists.
      apply bool_decide_eq_true in Hexists. exact Hexists.
    + set_solver.
    + intros p Hp. left. exact Hp.
  - unfold mkdirSync_recursive. fold (ROUTES_DIR cwd). rewrite Happ, Hroutes.
    cbn [mbind Result_bind rbind].
    eexists. split; [reflexivity |]. cbn [dirs files].
    split; [set_solver | split; [reflexivity | split; [set_solver |]]].
    intros p Hp.
    apply elem_of_union in Hp as [Hp | Hp];
      [apply elem_of_singleton in Hp; right; left; exact Hp |].
    apply elem_of_union in Hp as [Hp | Hp];
      [apply elem_of_singleton in Hp; right; right; exact Hp | left; exact Hp].
Qed.

End SetupRunFacts.

(** X27: the setup script, run where neither [app] nor [app/routes] is a
    regular file, succeeds; it leaves every existing path as it was (a route
    file that is there is never overwritten); after it each of the three
    route paths exists, and one that did not exist before holds its
    re-export; every file it added is one of the three re-exports at its
    path under [app/routes], and the counts of created and skipped files
    add up to three. *)
Theorem setup_writes_missing_routes (cwd : string) (fs : SetupRoutes.FileSystem) :
  SetupRoutes.isFile fs (SetupRoutes.join cwd "app") = false ->
  SetupRoutes.isFile fs (SetupRoutes.ROUTES_DIR cwd) = false ->
  exists fs' summary,
    SetupRoutes.setup cwd fs = Ok (fs', summary) /\
    (forall path, SetupRoutes.existsSync fs path = true ->
       SetupRoutes.files fs' !! path = SetupRoutes.files fs !! path /\
       SetupRoutes.existsSync fs' path = true) /\
    (forall name content, In (name, content) SetupRoutes.ROUTE_FILES ->
       let path := SetupRoutes.join (SetupRoutes.ROUTES_DIR cwd) name in
       SetupRoutes.existsSync fs' path = true /\
       (SetupRoutes.existsSync fs path = false ->
          SetupRoutes.files fs' !! path = Some content)) /\
    (forall path content,
       SetupRoutes.files fs' !! path = Some content ->
       SetupRoutes.files fs !! path = Some content \/
       exists name, In (name, content) SetupRoutes.ROUTE_FILES /\
                    path = SetupRoutes.join (SetupRoutes.ROUTES_DIR cwd) name) /\
    (SetupRoutes.created summary + SetupRoutes.skipped summary = 3)%nat.
Proof.
  intros Happ Hroutes.
  destruct (setup_prepare cwd fs Happ Hroutes)
    as (fs1 & -> & Hdir & Hfiles & Hdirs & Hnew).
  destruct (write_routes_spec cwd SetupRoutes.ROUTE_FILES fs1
              {| SetupRoutes.created := 0; SetupRoutes.skipped := 0 |} Hdir)
    as (fs' & summary & Hrun & Hdirs' & Hkeep & Honly & Hall & Hsum & _).
  assert (Hgrow : forall path, SetupRoutes.existsSync fs path = true ->
                               SetupRoutes.existsSync fs1 path = true).
  { intros path Hp. unfold SetupRoutes.existsSync, SetupRoutes.isFile in *.
    rewrite Hfiles. apply orb_true_iff in Hp as [Hp | Hp]; [| rewrite Hp; apply orb_true_r].
    apply bool_decide_eq_true in Hp.
    rewrite (bool_decide_eq_true_2 (path ∈ SetupRoutes.dirs fs1)); [reflexivity |].
    apply elem_of_subseteq in Hdirs. exact (Hdirs path Hp). }
  exists fs', summary. split; [exact Hrun |].
  split; [| split; [| split; [| exact Hsum]]].
  - intros path Hp. pose proof (Hgrow path Hp) as Hp1.
    split; [rewrite (Hkeep path Hp1), Hfiles; reflexivity |].
    unfold SetupRoutes.existsSync, SetupRoutes.isFile in *.
    rewrite Hdirs', (Hkeep path Hp1). exact Hp1.
  - intros name content Hin path. subst path.
    set (path := SetupRoutes.join (SetupRoutes.ROUTES_DIR cwd) name).
    split; [exact (Hall name content Hin) |].
    intros Hmissing.
    assert (Hmissing1 : SetupRoutes.existsSync fs1 path = false).
    { unfold SetupRoutes.existsSync, SetupRoutes.isFile in *. rewrite Hfiles.
      apply orb_false_iff in Hmissing as [Hd Hfile]. rewrite Hfile, orb_false_r.
      apply bool_decide_eq_false. intros Hp.
      apply bool_decide_eq_false in Hd.
      destruct (route_path_fresh cwd name) as [Hr Ha].
      destruct (Hnew path Hp) as [Hold | [Heq | Heq]];
        [exact (Hd Hold) | exact (Ha Heq) | exact (Hr Heq)]. }
    destruct (write_routes_written cwd SetupRoutes.ROUTE_FILES fs1 _ fs' summary
                Hdir Hrun name content Hin Hmissing1) as [c Hc].
    fold path in Hc. rewrite Hc. f_equal.
    destruct (Honly path c Hc) as [Hold | [name' [Hin' Hpath]]].
    + rewrite (isFile_false fs1 path Hmissing1) in Hold. discriminate.
    + apply join_inj in Hpath. subst name'.
      unfold SetupRoutes.ROUTE_FILES in Hin, Hin'. simpl in Hin, Hin'.
      intuition congruence.
  - intros path content Hc. rewrite <- Hfiles. exact (Honly path content Hc).
Qed.

(** X28: the setup script is idempotent: run again on the file system it
    left, it creates nothing, skips the three files and leaves the file
    system as it is. *)
Theorem setup_idempotent (cwd : string) (fs fs' : SetupRoutes.FileSystem)
    (summary : SetupRoutes.Summary) :
  SetupRoutes.isFile fs (SetupRoutes.join cwd "app") = false ->
  SetupRoutes.isFile fs (SetupRoutes.ROUTES_DIR cwd) = false ->
  SetupRoutes.setup cwd fs = Ok (fs', summary) ->
  SetupRoutes.setup cwd fs'
    = Ok (fs', {| SetupRoutes.created := 0; SetupRoutes.skipped := 3 |}).
Proof.
  intros Happ Hroutes Hsetup.
  destruct (setup_prepare cwd fs Happ Hroutes) as (fs1 & Heq & Hdir & Hfiles & _).
  rewrite Heq in Hsetup.
  destruct (write_routes_spec cwd SetupRoutes.ROUTE_FILES fs1
              {| SetupRoutes.created := 0; SetupRoutes.skipped := 0 |} Hdir)
    as (fs2 & summary2 & Hrun & Hdirs' & _ & _ & Hall & _ & _).
  unfold SetupRoutes.write_routes in Hsetup. rewrite Hrun in Hsetup.
  injection Hsetup as <- <-.
  assert (Hdir2 : SetupRoutes.ROUTES_DIR cwd ∈ SetupRoutes.dirs fs2).
  { rewrite Hdirs'. exact Hdir. }
  unfold SetupRoutes.setup.
  assert (Hexists : SetupRoutes.existsSync fs2 (SetupRoutes.ROUTES_DIR cwd) = true).
  { unfold SetupRoutes.existsSync.
    rewrite (bool_decide_eq_true_2 _ Hdir2). reflexivity. }
  rewrite Hexists. cbn [negb mbind Result_bind rbind].
  destruct (write_routes_spec cwd SetupRoutes.ROUTE_FILES fs2
              {| SetupRoutes.created := 0; SetupRoutes.skipped := 0 |} Hdir2)
    as (fs3 & summary3 & Hrun3 & _ & _ & _ & _ & Hsum & Hidem).
  destruct (Hidem Hall) as [-> Hcreated].
  unfold SetupRoutes.write_routes. rewrite Hrun3.
  destruct summary3 as [c k]. simpl in Hsum, Hcreated. subst c.
  assert (k = 3%nat) by lia. subst k. reflexivity.
Qed.

Lemma setup_writes_missing_routes_witness :
  exists fs' summary,
    SetupRoutes.setup "/srv" projectWithLogin = Ok (fs', summary) /\
    SetupRoutes.files fs' !! "/srv/app/routes/login.tsx" = Some "mine" /\
    SetupRoutes.files fs' !! "/srv/app/routes/logout.tsx"
      = Some (SetupRoutes.reexport "loader, action, default" "logout").
Proof.
  destruct (setup_writes_missing_routes "/srv" projectWithLogin eq_refl eq_refl)
    as (fs' & summary & Hrun & Hkeep & Hroutes & _).
  exists fs', summary. split; [exact Hrun | split].
  - destruct (Hkeep "/srv/app/routes/login.tsx" eq_refl) as [-> _]. reflexivity.
  - apply (Hroutes "logout.tsx" (SetupRoutes.reexport "loader, action, default" "logout"));
      [right; left; reflexivity | reflexivity].
Defined.

Lemma setup_idempotent_witness :
  exists fs' summary,
    SetupRoutes.setup "/srv" emptyProject = Ok (fs', summary) /\
    SetupRoutes.setup "/srv" fs'
      = Ok (fs', {| SetupRoutes.created := 0; SetupRoutes.skipped := 3 |}).
Proof.
  destruct (SetupRoutes.setup "/srv" emptyProject) as [[fs' summary] | e] eqn:Hrun.
  - exists fs', summary. split; [reflexivity |].
    exact (setup_idempotent "/srv" emptyProject fs' summary eq_refl eq_refl Hrun).
  - vm_compute in Hrun. discriminate Hrun.
Defined.
